(** * PDF outline extractor: a shallow embedding of [main.py]

    The development follows the source file function by function:
    [analyze_document_fonts], [determine_heading_thresholds],
    [extract_title_from_document], [is_heading_candidate],
    [get_heading_level] and [extract_outline_from_pdf].

    Modelling conventions.
    - Python [int] is [Z]; a span's size is its rounded size
      ([round(span.get("size", 0))]), so it is an integer.
    - Python [str] is [string].  The character predicates of Python
      ([str.isspace], [str.lower], the regex classes [\s], [\d], [\w]) are
      tabulated for the code points 0..255, where they are exactly those of
      CPython 3; [str.title] is exact there but for the three code points
      whose upper case lies beyond 255.
    - [int * float] and the mixed comparisons [int < float], [int >= float]
      are modelled in module [Binary64] with round-to-nearest-even on a
      53 bit significand; the comparison of an [int] with a [float] is exact,
      as in CPython.
    - Exceptions are values of the error monad [result]. *)

From Stdlib Require Import ZArith List String Ascii Bool Lia QArith.
From Stdlib Require Import Sorted Permutation.
From Stdlib Require SpecFloat.
Import ListNotations.

Local Open Scope string_scope.
Local Open Scope list_scope.
Local Open Scope Z_scope.

(* ================================================================== *)
(** * Python strings *)

Module PyStr.

Definition code (c : ascii) : N := N_of_ascii c.

Definition in_range (lo hi : N) (c : ascii) : bool :=
  (N.leb lo (code c) && N.leb (code c) hi)%bool.

(** [str.isspace] on one character; also the set stripped by
    [str.strip()] and matched by the regex class [\s]. *)
Definition isspace (c : ascii) : bool :=
  in_range 9 13 c || in_range 28 32 c
  || N.eqb (code c) 133 || N.eqb (code c) 160.

Definition isdigit (c : ascii) : bool := in_range 48 57 c.

(** The regex class [\w]. *)
Definition isword (c : ascii) : bool :=
  in_range 48 57 c || in_range 65 90 c || N.eqb (code c) 95
  || in_range 97 122 c || N.eqb (code c) 170 || in_range 178 179 c
  || N.eqb (code c) 181 || in_range 185 186 c || in_range 188 190 c
  || in_range 192 214 c || in_range 216 246 c || in_range 248 255 c.

Definition lower_char (c : ascii) : ascii :=
  if in_range 65 90 c || in_range 192 214 c || in_range 216 222 c
  then ascii_of_N (code c + 32) else c.

(** Upper-casing of one character.  The three code points whose upper
    case leaves the range 0..255 (181, 223, 255) are left unchanged. *)
Definition upper_char (c : ascii) : ascii :=
  if in_range 97 122 c || in_range 224 246 c || in_range 248 254 c
  then ascii_of_N (code c - 32) else c.

Definition iscased (c : ascii) : bool :=
  in_range 65 90 c || in_range 97 122 c || N.eqb (code c) 170
  || N.eqb (code c) 181 || N.eqb (code c) 186
  || in_range 192 214 c || in_range 216 246 c || in_range 248 255 c.

(** [s.lower()] *)
Fixpoint lower (s : string) : string :=
  match s with
  | EmptyString => EmptyString
  | String c s' => String (lower_char c) (lower s')
  end.

(** [len(s)] *)
Definition len (s : string) : Z := Z.of_nat (String.length s).

(** [not s] *)
Definition is_empty (s : string) : bool :=
  match s with EmptyString => true | String _ _ => false end.

(** [needle in hay] *)
Fixpoint contains (needle hay : string) : bool :=
  String.prefix needle hay
  || match hay with
     | EmptyString => false
     | String _ hay' => contains needle hay'
     end.

Fixpoint lstrip (s : string) : string :=
  match s with
  | EmptyString => EmptyString
  | String c s' => if isspace c then lstrip s' else s
  end.

Fixpoint rstrip (s : string) : string :=
  match s with
  | EmptyString => EmptyString
  | String c s' =>
      let r := rstrip s' in
      if isspace c && is_empty r then EmptyString else String c r
  end.

(** [s.strip()] *)
Definition strip (s : string) : string := rstrip (lstrip s).

(** [sep.join(parts)] *)
Definition join (sep : string) (parts : list string) : string :=
  String.concat sep parts.

(** [s.split()]: the maximal runs of non-space characters. *)
Fixpoint split (s : string) : list string :=
  match s with
  | EmptyString => []
  | String c s' =>
      if isspace c then split s'
      else match s' with
           | EmptyString => [String c EmptyString]
           | String c' _ =>
               if isspace c' then String c EmptyString :: split s'
               else match split s' with
                    | w :: ws => String c w :: ws
                    | [] => [String c EmptyString]
                    end
           end
  end.

Definition newline : ascii := ascii_of_N 10.

(** [s.split('\n')[0]] *)
Fixpoint first_line (s : string) : string :=
  match s with
  | EmptyString => EmptyString
  | String c s' =>
      if Ascii.eqb c newline then EmptyString else String c (first_line s')
  end.

(** [s.replace(old, new)] for a non-empty [old]: occurrences are taken
    left to right without overlap; [skip] counts the characters of the
    occurrence being removed. *)
Fixpoint replace_from (old new : string) (skip : nat) (s : string) : string :=
  match s with
  | EmptyString => EmptyString
  | String c s' =>
      match skip with
      | S k => replace_from old new k s'
      | O =>
          if String.prefix old s
          then (new ++ replace_from old new (Nat.pred (String.length old)) s')%string
          else String c (replace_from old new 0 s')
      end
  end.

Definition replace (old new s : string) : string := replace_from old new 0 s.

(** [s.title()] *)
Fixpoint title_from (previous_is_cased : bool) (s : string) : string :=
  match s with
  | EmptyString => EmptyString
  | String c s' =>
      String (if previous_is_cased then lower_char c else upper_char c)
             (title_from (iscased c) s')
  end.

Definition title (s : string) : string := title_from false s.

Definition slash : ascii := ascii_of_N 47.

Fixpoint has_slash (s : string) : bool :=
  match s with
  | EmptyString => false
  | String c s' => Ascii.eqb c slash || has_slash s'
  end.

(** [os.path.basename(p)] (POSIX): what follows the last slash. *)
Fixpoint basename (p : string) : string :=
  match p with
  | EmptyString => EmptyString
  | String c p' =>
      if has_slash p' then basename p'
      else if Ascii.eqb c slash then p' else p
  end.

End PyStr.

(* ================================================================== *)
(** * Regular expressions of the [re] module

    Only the constructs the source uses.  [matches r s] decides whether the
    whole of [s] is in the language of [r], by Brzozowski derivatives.  No
    pattern of the source has a possessive or look-around construct, so
    [re.match] finds a match exactly when one exists. *)

Module Re.

Inductive regex : Type :=
| Void : regex
| Eps : regex
| Class : (ascii -> bool) -> regex
| Cat : regex -> regex -> regex
| Alt : regex -> regex -> regex
| Star : regex -> regex.

Fixpoint nullable (r : regex) : bool :=
  match r with
  | Void => false
  | Eps => true
  | Class _ => false
  | Cat r1 r2 => nullable r1 && nullable r2
  | Alt r1 r2 => nullable r1 || nullable r2
  | Star _ => true
  end.

Fixpoint deriv (c : ascii) (r : regex) : regex :=
  match r with
  | Void => Void
  | Eps => Void
  | Class p => if p c then Eps else Void
  | Cat r1 r2 =>
      if nullable r1
      then Alt (Cat (deriv c r1) r2) (deriv c r2)
      else Cat (deriv c r1) r2
  | Alt r1 r2 => Alt (deriv c r1) (deriv c r2)
  | Star r1 => Cat (deriv c r1) (Star r1)
  end.

Fixpoint matches (r : regex) (s : string) : bool :=
  match s with
  | EmptyString => nullable r
  | String c s' => matches (deriv c r) s'
  end.

(** Derived forms. *)
Definition Chr (c : ascii) : regex := Class (Ascii.eqb c).
Definition Plus (r : regex) : regex := Cat r (Star r).
Definition Opt (r : regex) : regex := Alt r Eps.

Fixpoint Lit (s : string) : regex :=
  match s with
  | EmptyString => Eps
  | String c s' => Cat (Chr c) (Lit s')
  end.

(** [r{n}] and [r{n,}] *)
Fixpoint Rep (n : nat) (r : regex) : regex :=
  match n with
  | O => Eps
  | S k => Cat r (Rep k r)
  end.

Definition AtLeast (n : nat) (r : regex) : regex := Cat (Rep n r) (Star r).

(** Character classes. *)
Definition space : regex := Class PyStr.isspace.                   (* \s *)
Definition digit : regex := Class PyStr.isdigit.                   (* \d *)
Definition alpha : regex :=                                        (* [a-zA-Z] *)
  Class (fun c => PyStr.in_range 97 122 c || PyStr.in_range 65 90 c).
Definition nonword_or_underscore : regex :=                        (* [\W_] *)
  Class (fun c => negb (PyStr.isword c) || Ascii.eqb c "_").
Definition roman : regex :=                                        (* [ivxlcdm] *)
  Class (fun c => PyStr.contains (String c EmptyString) "ivxlcdm").

(** [re.match("^" r "$", s) is not None]: [^] is the start of the string
    and [$] is its end or the position before a final newline. *)
Definition re_match (r : regex) (s : string) : bool :=
  matches (Cat r (Opt (Chr PyStr.newline))) s.

(** The patterns of [is_heading_candidate] and
    [extract_title_from_document], without their anchors. *)

(* ^\s*\d+(\.\d+)*\s*$ *)
Definition pat_number : regex :=
  Cat (Star space)
    (Cat (Plus digit)
       (Cat (Star (Cat (Chr ".") (Plus digit))) (Star space))).

(* ^(page|pg\.)\s+\d+(\s+of\s+\d+)?$ *)
Definition pat_page : regex :=
  Cat (Alt (Lit "page") (Lit "pg."))
    (Cat (Plus space)
       (Cat (Plus digit)
          (Opt (Cat (Plus space)
                  (Cat (Lit "of") (Cat (Plus space) (Plus digit))))))).

(* ^\d{1,2}\s+[a-zA-Z]{3,}\s+\d{4}$ *)
Definition pat_date : regex :=
  Cat (Cat digit (Opt digit))
    (Cat (Plus space)
       (Cat (AtLeast 3 alpha) (Cat (Plus space) (Rep 4 digit)))).

(* ^\(continued\)$ *)
Definition pat_continued : regex := Lit "(continued)".

(* ^\s*[\W_]+\s*$ *)
Definition pat_symbols : regex :=
  Cat (Star space) (Cat (Plus nonword_or_underscore) (Star space)).

(* ^[ivxlcdm]+\.?$ *)
Definition pat_roman : regex := Cat (Plus roman) (Opt (Chr ".")).

(* ^\d+$ *)
Definition pat_digits : regex := Plus digit.

End Re.

(* ================================================================== *)
(** * Binary64 arithmetic, as far as the source uses it

    The source multiplies an [int] threshold by the literals [0.9] and
    [0.8] and compares an [int] size with the product.  A finite double is
    represented by an integer significand and a binary exponent. *)

Module Binary64.

Record float : Type := Float { Fnum : Z; Fexp : Z }.   (* Fnum * 2^Fexp *)

Definition prec : Z := 53.
Definition emax : Z := 1024.

(** [m / 2^s] rounded to the nearest integer, ties to even. *)
Definition round_shift (m s : Z) : Z :=
  let q := m / 2 ^ s in
  let r := m mod 2 ^ s in
  match 2 * r ?= 2 ^ s with
  | Lt => q
  | Gt => q + 1
  | Eq => if Z.even q then q else q + 1
  end.

(** Rounding of [m * 2^e], [0 <= m], to a 53 bit significand. *)
Definition round_pos (m e : Z) : float :=
  let s := Z.log2 m + 1 - prec in
  if s <=? 0 then Float m e else Float (round_shift m s) (e + s).

Definition round (m e : Z) : float :=
  if m <? 0
  then let f := round_pos (- m) e in Float (- Fnum f) (Fexp f)
  else round_pos m e.

(** The largest finite double. *)
Definition max_double : Z := (2 ^ 53 - 1) * 2 ^ 971.

(** [float(n)]: CPython raises [OverflowError] when the rounded value
    reaches [2^1024]; [None] stands for that. *)
Definition of_int (n : Z) : option float :=
  let f := round n 0 in
  if 2 ^ emax <=? Z.abs (Fnum f) * 2 ^ Fexp f then None else Some f.

(** The product of two doubles.  The source only multiplies an integer
    value by [0.9] or [0.8]: the product is zero or of magnitude at least
    [0.8], and not above the integer, so neither the subnormal range nor
    infinity is reached. *)
Definition mul (x y : float) : float :=
  round (Fnum x * Fnum y) (Fexp x + Fexp y).

(** The literals [0.9] = 0x1.ccccccccccccdp-1 and
    [0.8] = 0x1.999999999999ap-1. *)
Definition lit_0_9 : float := Float 8106479329266893 (-53).
Definition lit_0_8 : float := Float 7205759403792794 (-53).

(** [n < f] and [n >= f] for an [int] [n] and a [float] [f]: CPython
    compares the exact values. *)
Definition int_lt (n : Z) (f : float) : bool :=
  if 0 <=? Fexp f
  then n <? Fnum f * 2 ^ Fexp f
  else n * 2 ^ (- Fexp f) <? Fnum f.

Definition int_ge (n : Z) (f : float) : bool := negb (int_lt n f).

End Binary64.

(* ================================================================== *)
(** * Exceptions *)

Inductive exn : Type := IndexError | OverflowError.

Inductive result (A : Type) : Type :=
| Ok : A -> result A
| Raise : exn -> result A.

Arguments Ok {A} _.
Arguments Raise {A} _.

Definition bind {A B : Type} (m : result A) (k : A -> result B) : result B :=
  match m with
  | Ok a => k a
  | Raise e => Raise e
  end.

Notation "x <- m ;; k" := (bind m (fun x => k))
  (at level 61, m at next level, right associativity).

Fixpoint foldM {A S : Type} (f : S -> A -> result S) (l : list A) (s : S)
  : result S :=
  match l with
  | [] => Ok s
  | x :: l' => s' <- f s x ;; foldM f l' s'
  end.

(** [h * c] for an [int] [h] and a [float] literal [c]. *)
Definition int_mul_float (h : Z) (c : Binary64.float) : result Binary64.float :=
  match Binary64.of_int h with
  | Some x => Ok (Binary64.mul x c)
  | None => Raise OverflowError
  end.

(* ================================================================== *)
(** * Lists as Python uses them *)

(** [list.sort(key=...)] and [sorted]: a stable sort; [le a b] says that
    the key of [a] is not after the key of [b]. *)
Fixpoint insert_by {A : Type} (le : A -> A -> bool) (x : A) (l : list A)
  : list A :=
  match l with
  | [] => [x]
  | y :: l' => if le x y then x :: l else y :: insert_by le x l'
  end.

Definition py_sort {A : Type} (le : A -> A -> bool) (l : list A) : list A :=
  fold_right (insert_by le) [] l.

(** [enumerate(l, start)] *)
Fixpoint enumerate_from {A : Type} (start : Z) (l : list A) : list (Z * A) :=
  match l with
  | [] => []
  | x :: l' => (start, x) :: enumerate_from (start + 1) l'
  end.

Definition enumerate {A : Type} (l : list A) : list (Z * A) :=
  enumerate_from 0 l.

Definition is_nil {A : Type} (l : list A) : bool :=
  match l with [] => true | _ :: _ => false end.

(* ================================================================== *)
(** * The decoded layout tree *)

Record Span : Type := {
  span_text : string;        (* span.get("text", "") *)
  span_size : Z;             (* round(span.get("size", 0)) *)
  span_font : string         (* span.get("font", "") *)
}.

Record Line : Type := { spans : list Span }.

Record Block : Type := {
  block_type : Z;            (* 0 for a text block *)
  block_lines : list Line;
  bbox_left : Q;             (* bbox[0] *)
  bbox_top : Q               (* bbox[1] *)
}.

Definition Page : Type := list Block.
Definition Document : Type := list Page.

(** The order of the key [(b["bbox"][1], b["bbox"][0])]. *)
Definition block_le (a b : Block) : bool :=
  match bbox_top a ?= bbox_top b with
  | Lt => true
  | Gt => false
  | Eq => Qle_bool (bbox_left a) (bbox_left b)
  end%Q.

Definition sort_blocks (blocks : list Block) : list Block :=
  py_sort block_le blocks.

(* ================================================================== *)
(** * [analyze_document_fonts] *)

(** A [Counter]: keys in insertion order, a missing key counts 0. *)
Definition Counter : Type := list (Z * Z).

Fixpoint counter_add (c : Counter) (k n : Z) : Counter :=
  match c with
  | [] => [(k, n)]
  | (k', v) :: c' =>
      if k =? k' then (k', v + n) :: c' else (k', v) :: counter_add c' k n
  end.

Definition count_span (usage : Counter) (span : Span) : Counter :=
  let font_size := span_size span in
  let text_content := PyStr.strip (span_text span) in
  if (0 <? font_size) && negb (PyStr.is_empty text_content)
  then counter_add usage font_size (PyStr.len text_content)
  else usage.

Definition count_line (usage : Counter) (line : Line) : Counter :=
  fold_left count_span (spans line) usage.

Definition count_block (usage : Counter) (block : Block) : Counter :=
  if block_type block =? 0
  then fold_left count_line (block_lines block) usage
  else usage.

Definition count_page (usage : Counter) (page : Page) : Counter :=
  fold_left count_block page usage.

Definition font_size_usage (document : Document) : Counter :=
  fold_left count_page document [].

(** The key [(filtered_sizes[fs], fs)] with [reverse=True]: the entry [a]
    goes before [b] when its key is not smaller. *)
Definition usage_ge (a b : Z * Z) : bool :=
  (snd b <? snd a) || ((snd a =? snd b) && (fst b <=? fst a)).

Definition rank_sizes (usage : Counter) : list Z :=
  let filtered_sizes := filter (fun kv => 9 <? fst kv) usage in
  map fst (py_sort usage_ge filtered_sizes).

Definition analyze_document_fonts (document : Document) : list Z :=
  rank_sizes (font_size_usage document).

(* ================================================================== *)
(** * [determine_heading_thresholds] *)

Record Thresholds : Type := {
  h1_th : Z;
  h2_th : Z;
  h3_th : Z;
  body_max_size : Z
}.

Definition BODY_TEXT_MAX_SIZE : Z := 12.

Definition large_sizes (sorted_font_sizes : list Z) : list Z :=
  filter (fun fs => BODY_TEXT_MAX_SIZE <? fs) sorted_font_sizes.

(** [l[i]], used only where the index is in range. *)
Definition item (l : list Z) (i : nat) : Z := nth i l 0.

(** The thresholds before the clamps (source lines 37 to 56). *)
Definition initial_thresholds (large : list Z) : Z * Z * Z :=
  let n := Z.of_nat (List.length large) in
  if 3 <=? n then (item large 0, item large 1, item large 2)
  else if n =? 2 then (item large 0, item large 1, item large 1)
  else if n =? 1 then (item large 0, item large 0, item large 0)
  else (24, 18, 14).

(** The clamps (source lines 59 to 67). *)
Definition clamp_thresholds (t : Z * Z * Z) : Thresholds :=
  let '(H1_threshold, H2_threshold, H3_threshold) := t in
  let H2_threshold := Z.min H2_threshold H1_threshold in
  let H3_threshold := Z.min H3_threshold H2_threshold in
  let H1_threshold := Z.max H1_threshold (BODY_TEXT_MAX_SIZE + 2) in
  let H2_threshold := Z.max H2_threshold (BODY_TEXT_MAX_SIZE + 1) in
  let H3_threshold := Z.max H3_threshold BODY_TEXT_MAX_SIZE in
  {| h1_th := H1_threshold; h2_th := H2_threshold; h3_th := H3_threshold;
     body_max_size := BODY_TEXT_MAX_SIZE |}.

Definition determine_heading_thresholds (sorted_font_sizes : list Z)
  : Thresholds :=
  clamp_thresholds (initial_thresholds (large_sizes sorted_font_sizes)).

(* ================================================================== *)
(** * [extract_title_from_document] *)

(** A tuple [(text_content, font_size, page_num, is_bold)]. *)
Record Candidate : Type := {
  c_text : string;
  c_size : Z;
  c_page : Z;
  c_bold : bool
}.

Record TitleScan : Type := {
  potential_titles : list Candidate;
  max_font_size_found : Z
}.

Definition scan_span (page_num : Z) (st : TitleScan) (span : Span) : TitleScan :=
  let text_content := PyStr.strip (span_text span) in
  let font_size := span_size span in
  let is_bold :=
    PyStr.contains "bold" (PyStr.lower (span_font span))
    || PyStr.contains "black" (PyStr.lower (span_font span)) in
  let cand := {| c_text := text_content; c_size := font_size;
                 c_page := page_num; c_bold := is_bold |} in
  if negb (PyStr.is_empty text_content) && (0 <? font_size) then
    if max_font_size_found st <? font_size then
      {| potential_titles := [cand]; max_font_size_found := font_size |}
    else if font_size =? max_font_size_found st then
      {| potential_titles := potential_titles st ++ [cand];
         max_font_size_found := max_font_size_found st |}
    else st
  else st.

Definition scan_line (page_num : Z) (st : TitleScan) (line : Line) : TitleScan :=
  fold_left (scan_span page_num) (spans line) st.

Definition scan_block (page_num : Z) (st : TitleScan) (block : Block) : TitleScan :=
  if block_type block =? 0
  then fold_left (scan_line page_num) (block_lines block) st
  else st.

Definition scan_page (st : TitleScan) (p : Z * Page) : TitleScan :=
  fold_left (scan_block (fst p)) (sort_blocks (snd p)) st.

(** The scan of the first [min(len(document), 2)] pages. *)
Definition scan_titles (document : Document) : TitleScan :=
  fold_left scan_page (firstn 2 (enumerate document))
    {| potential_titles := []; max_font_size_found := 0 |}.

(** The sort key [(-x[1], x[2], -x[3], -len(x[0]))]. *)
Definition title_key (c : Candidate) : Z * Z * Z * Z :=
  (- c_size c, c_page c, - (if c_bold c then 1 else 0), - PyStr.len (c_text c)).

(** Tuples compare lexicographically. *)
Definition key_le (a b : Z * Z * Z * Z) : bool :=
  let '(a1, a2, a3, a4) := a in
  let '(b1, b2, b3, b4) := b in
  if negb (a1 =? b1) then a1 <? b1
  else if negb (a2 =? b2) then a2 <? b2
  else if negb (a3 =? b3) then a3 <? b3
  else a4 <=? b4.

Definition title_le (a b : Candidate) : bool :=
  key_le (title_key a) (title_key b).

(** [text.split('\n')[0].strip()] *)
Definition first_line_of (text : string) : string :=
  PyStr.strip (PyStr.first_line text).

(** The selection loop (source lines 107 to 114); [Ok None] when the loop
    ends without returning. *)
Fixpoint select_title (h1_threshold : Z) (cands : list Candidate)
  : result (option string) :=
  match cands with
  | [] => Ok None
  | c :: rest =>
      let text := c_text c in
      near_h1 <-
        (if (c_page c =? 0) && (2 <? Z.of_nat (List.length (PyStr.split text)))
         then t <- int_mul_float h1_threshold Binary64.lit_0_8 ;;
              Ok (Binary64.int_ge (c_size c) t)
         else Ok false) ;;
      if near_h1 then
        if negb (Re.re_match Re.pat_digits text)
           && negb (PyStr.contains "contents" (PyStr.lower text))
           && negb (PyStr.contains "page" (PyStr.lower text))
        then Ok (Some (first_line_of text))
        else select_title h1_threshold rest
      else select_title h1_threshold rest
  end.

Definition extract_title_from_document (document : Document) (h1_threshold : Z)
  : result (option string) :=
  let found := potential_titles (scan_titles document) in
  if is_nil found then Ok None
  else
    let sorted := py_sort title_le found in
    picked <- select_title h1_threshold sorted ;;
    match picked with
    | Some t => Ok (Some t)
    | None =>
        match sorted with
        | top :: _ =>
            if c_page top =? 0 then Ok (Some (first_line_of (c_text top)))
            else Ok None
        | [] => Ok None
        end
    end.

(* ================================================================== *)
(** * [is_heading_candidate] and [get_heading_level] *)

(** The bold test on a font name (source lines 141 and 214). *)
Definition font_is_bold (lowered_name : string) : bool :=
  PyStr.contains "bold" lowered_name
  || PyStr.contains "black" lowered_name
  || PyStr.contains "heavy" lowered_name
  || PyStr.contains "demi" lowered_name.

(** The disjunction of source lines 130 to 137. *)
Definition non_heading_pattern (text : string) : bool :=
  Re.re_match Re.pat_number text
  || Re.re_match Re.pat_page (PyStr.lower text)
  || Re.re_match Re.pat_date text
  || PyStr.contains "copyright" (PyStr.lower text)
  || PyStr.contains "www." (PyStr.lower text)
  || Re.re_match Re.pat_continued (PyStr.lower text)
  || Re.re_match Re.pat_symbols text
  || Re.re_match Re.pat_roman (PyStr.lower text).

Definition is_heading_candidate (text : string) (font_size : Z)
    (font_name : string) (h1_th h2_th h3_th body_max_size : Z) : result bool :=
  if PyStr.is_empty text || (PyStr.len text <? 2) then Ok false
  else if non_heading_pattern text then Ok false
  else
    let is_bold := font_is_bold (PyStr.lower font_name) in
    if negb is_bold && (font_size <=? body_max_size) then Ok false
    else
      t <- int_mul_float h3_th Binary64.lit_0_9 ;;
      if Binary64.int_lt font_size t then Ok false else Ok true.

Definition get_heading_level (font_size : Z) (is_bold : bool)
    (h1_th h2_th h3_th : Z) : option string :=
  if (h1_th <=? font_size) && is_bold then Some "H1"
  else if (h2_th <=? font_size) && is_bold then Some "H2"
  else if (h3_th <=? font_size) && is_bold then Some "H3"
  else None.

(* ================================================================== *)
(** * [extract_outline_from_pdf] *)

(** An outline entry [{"level": ..., "text": ..., "page": ...}]. *)
Record Heading : Type := {
  h_level : string;
  h_text : string;
  h_page : Z
}.

Record OutlineResult : Type := {
  title : string;
  outline : list Heading
}.

(** The two variables the page loop updates. *)
Record Builder : Type := {
  b_outline : list Heading;
  last_added_heading : Heading
}.

Definition initial_builder : Builder :=
  {| b_outline := [];
     last_added_heading := {| h_level := ""; h_text := ""; h_page := -1 |} |}.

(** The names of the first group (source lines 224 to 229). *)
Definition front_matter_name (lower_text : string) : bool :=
  PyStr.contains "table of contents" lower_text
  || PyStr.contains "list of figures" lower_text
  || PyStr.contains "list of tables" lower_text
  || PyStr.contains "acknowledgements" lower_text
  || PyStr.contains "foreword" lower_text
  || PyStr.contains "preface" lower_text.

(** The first condition (source lines 224 to 230): [and] binds tighter
    than [or], so the size test belongs to ["introduction"] alone, and it
    is evaluated only when no name before it is found. *)
Definition front_matter_keyword (lower_text : string) (span_font_size h2_th : Z)
  : result bool :=
  if front_matter_name lower_text then Ok true
  else if PyStr.contains "introduction" lower_text
  then t <- int_mul_float h2_th Binary64.lit_0_9 ;;
       Ok (Binary64.int_ge span_font_size t)
  else Ok false.

(** The second group (source lines 232 to 236). *)
Definition back_matter_keyword (lower_text : string) : bool :=
  PyStr.contains "references" lower_text
  || PyStr.contains "bibliography" lower_text
  || PyStr.contains "appendix" lower_text
  || PyStr.contains "glossary" lower_text
  || PyStr.contains "index" lower_text.

(** The special check for known sections (source lines 222 to 237). *)
Definition known_section_level (level : option string)
    (full_line_text : string) (span_font_size h2_th : Z)
  : result (option string) :=
  match level with
  | Some _ => Ok level
  | None =>
      let lower_text := PyStr.lower full_line_text in
      front <- front_matter_keyword lower_text span_font_size h2_th ;;
      if front then Ok (Some "H1")
      else if back_matter_keyword lower_text then Ok (Some "H1")
      else Ok None
  end.

(** Source lines 239 to 248. *)
Definition add_heading (st : Builder) (level full_line_text : string)
    (page_num : Z) : Builder :=
  let last := last_added_heading st in
  if is_nil (b_outline st)
     || (negb (String.eqb full_line_text (h_text last))
         || negb (String.eqb level (h_level last))
         || negb (page_num + 1 =? h_page last))
  then
    let new_entry :=
      {| h_level := level; h_text := full_line_text;
         h_page := page_num + 1 |} in
    {| b_outline := b_outline st ++ [new_entry];
       last_added_heading := new_entry |}
  else st.

(** [" ".join([span.get("text", "") for span in spans]).strip()] *)
Definition line_text (line : Line) : string :=
  PyStr.strip (PyStr.join " " (map span_text (spans line))).

(** The body of the line loop (source lines 203 to 248). *)
Definition process_line (th : Thresholds) (page_num : Z) (st : Builder)
    (line : Line) : result Builder :=
  let full_line_text := line_text line in
  if PyStr.is_empty full_line_text then Ok st
  else
    match spans line with
    | [] => Raise IndexError
    | first_span :: _ =>
        let span_font_size := span_size first_span in
        let span_font_name := PyStr.lower (span_font first_span) in
        let is_bold := font_is_bold span_font_name in
        candidate <-
          is_heading_candidate full_line_text span_font_size span_font_name
            (h1_th th) (h2_th th) (h3_th th) (body_max_size th) ;;
        if negb candidate then Ok st
        else
          let level :=
            get_heading_level span_font_size is_bold
              (h1_th th) (h2_th th) (h3_th th) in
          level <-
            known_section_level level full_line_text span_font_size (h2_th th) ;;
          match level with
          | Some lv => Ok (add_heading st lv full_line_text page_num)
          | None => Ok st
          end
    end.

Definition process_block (th : Thresholds) (page_num : Z) (st : Builder)
    (block : Block) : result Builder :=
  if block_type block =? 0
  then foldM (process_line th page_num) (block_lines block) st
  else Ok st.

Definition process_page (th : Thresholds) (st : Builder) (p : Z * Page)
  : result Builder :=
  foldM (process_block th (fst p)) (sort_blocks (snd p)) st.

(** [os.path.basename(pdf_path).replace(".pdf", "").replace("_", " ").title()] *)
Definition filename_title (pdf_path : string) : string :=
  PyStr.title
    (PyStr.replace "_" " " (PyStr.replace ".pdf" "" (PyStr.basename pdf_path))).

(** The function after [fitz.open] has produced [document]. *)
Definition extract_outline_from_pdf (document : Document) (pdf_path : string)
  : result OutlineResult :=
  let sorted_font_sizes := analyze_document_fonts document in
  let th := determine_heading_thresholds sorted_font_sizes in
  found <- extract_title_from_document document (h1_th th) ;;
  let extracted_title :=
    match found with
    | Some t => if PyStr.is_empty t then filename_title pdf_path else t
    | None => filename_title pdf_path
    end in
  st <- foldM (process_page th) (enumerate document) initial_builder ;;
  Ok {| title := extracted_title; outline := b_outline st |}.

(* ================================================================== *)
(** * Reading order

    The definitions below are not part of the source: they name the order
    in which the page loop visits the lines, for the statements about it. *)

(** The lines of the text blocks of a page, blocks sorted by
    [(top, left)], lines as they stand in their block. *)
Definition page_lines (p : Z * Page) : list (Z * Line) :=
  flat_map
    (fun block =>
       if block_type block =? 0
       then map (fun line => (fst p, line)) (block_lines block)
       else [])
    (sort_blocks (snd p)).

(** The lines of a document with their page index, pages by index. *)
Definition reading_order (document : Document) : list (Z * Line) :=
  flat_map page_lines (enumerate document).

(** The line loop on one line of the reading order. *)
Definition visit_line (th : Thresholds) (st : Builder) (x : Z * Line)
  : result Builder :=
  process_line th (fst x) st (snd x).

(** [sub] is [l] with some elements left out, the order kept. *)
Inductive subsequence {A : Type} : list A -> list A -> Prop :=
| subsequence_nil : subsequence [] []
| subsequence_skip : forall x sub l,
    subsequence sub l -> subsequence sub (x :: l)
| subsequence_take : forall x sub l,
    subsequence sub l -> subsequence (x :: sub) (x :: l).

(** The entry of the outline [h] was made from the line [x]. *)
Definition entry_of (h : Heading) (x : Z * Line) : Prop :=
  h_text h = line_text (snd x) /\ h_page h = fst x + 1.

(* ================================================================== *)
(** * Sample documents *)

Definition text_block (lines : list Line) (top : Q) : Block :=
  {| block_type := 0; block_lines := lines; bbox_left := 72; bbox_top := top |}.

Definition one_span_line (t : string) (size : Z) (font : string) : Line :=
  {| spans := [{| span_text := t; span_size := size; span_font := font |}] |}.

Definition body_page : Page :=
  [text_block [one_span_line "Plain running text of the page." 10 "Times-Roman"] 100].

(** "Appendix" twice in a row on page 3, in two blocks given bottom first,
    and once more on page 7. *)
Definition appendix_document : Document :=
  [ body_page; body_page;
    [ text_block [one_span_line "Appendix" 20 "Helvetica-Bold"] 140;
      text_block [one_span_line "Appendix" 20 "Helvetica-Bold"] 90 ];
    body_page; body_page; body_page;
    [ text_block [one_span_line "Appendix" 20 "Helvetica-Bold"] 90 ] ].

(** Every span of a document, text block or not. *)
Definition spans_of (document : Document) : list Span :=
  flat_map (fun page : Page =>
              flat_map (fun block => flat_map spans (block_lines block)) page)
    document.

(* ================================================================== *)
(** * The title rule, as the specification words it

    These two definitions are not part of the source: they state the
    selection over the ranked candidates with exact arithmetic, to be
    compared with [extract_title_from_document]. *)

(** Page index 0, more than two words, size at least 0.8 * h1, not a bare
    integer, neither "contents" nor "page" in the lowered text. *)
Definition passes_title_test (h1 : Z) (c : Candidate) : bool :=
  (c_page c =? 0)
  && (2 <? Z.of_nat (List.length (PyStr.split (c_text c))))
  && (8 * h1 <=? 10 * c_size c)
  && negb (Re.re_match Re.pat_digits (c_text c))
  && negb (PyStr.contains "contents" (PyStr.lower (c_text c)))
  && negb (PyStr.contains "page" (PyStr.lower (c_text c))).

(** The first ranked candidate that passes, else the top-ranked one when
    it is on page index 0, else none; the first line of its text. *)
Definition title_by_rank (h1 : Z) (ranked : list Candidate) : option string :=
  match find (passes_title_test h1) ranked with
  | Some c => Some (first_line_of (c_text c))
  | None =>
      match ranked with
      | top :: _ =>
          if c_page top =? 0 then Some (first_line_of (c_text top)) else None
      | [] => None
      end
  end.

(** [a] is not ranked after [b]: larger size, then smaller page index,
    then bold before not bold, then longer text. *)
Definition ranks_before (a b : Candidate) : Prop :=
  c_size b < c_size a
  \/ (c_size a = c_size b
      /\ (c_page a < c_page b
          \/ (c_page a = c_page b
              /\ ((c_bold a = true /\ c_bold b = false)
                  \/ (c_bold a = c_bold b
                      /\ PyStr.len (c_text b) <= PyStr.len (c_text a)))))).

(* ================================================================== *)
(** * Invariants of the loops *)

(** The slot [last_added_heading] holds the last entry of the outline. *)
Definition last_is_slot (st : Builder) : Prop :=
  b_outline st = []
  \/ exists front, b_outline st = front ++ [last_added_heading st].

(** Every key of the counter satisfies [Q]. *)
Definition keys_in (Q : Z -> Prop) (usage : Counter) : Prop :=
  Forall (fun kv => Q (fst kv)) usage.

(* ================================================================== *)
(** * The language of a regular expression

    The declarative reading of [Re.regex], against which [Re.matches] is
    proved correct. *)

Inductive in_lang : Re.regex -> string -> Prop :=
| in_eps : in_lang Re.Eps ""
| in_class : forall p c, p c = true -> in_lang (Re.Class p) (String c "")
| in_cat : forall r1 r2 s1 s2,
    in_lang r1 s1 -> in_lang r2 s2 -> in_lang (Re.Cat r1 r2) (s1 ++ s2)%string
| in_alt_l : forall r1 r2 s, in_lang r1 s -> in_lang (Re.Alt r1 r2) s
| in_alt_r : forall r1 r2 s, in_lang r2 s -> in_lang (Re.Alt r1 r2) s
| in_star_nil : forall r, in_lang (Re.Star r) ""
| in_star_more : forall r s1 s2,
    in_lang r s1 -> in_lang (Re.Star r) s2 ->
    in_lang (Re.Star r) (s1 ++ s2)%string.

Fixpoint all_digits (s : string) : bool :=
  match s with
  | EmptyString => true
  | String c s' => PyStr.isdigit c && all_digits s'
  end.

(** A bare integer: one digit or more, then the end of the string or a
    final newline. *)
Definition bare_integer (s : string) : Prop :=
  exists c d,
    PyStr.isdigit c = true /\ all_digits d = true
    /\ (s = String c d \/ s = (String c d ++ String PyStr.newline "")%string).

(* ================================================================== *)
(** * Comparison with the IEEE 754 specification of the Standard Library

    [SpecFloat] gives binary64 by [prec = 53] and [emax = 1024].  The
    definitions below compute both models on a list of integers. *)

Definition sf_same_value (f : Binary64.float) (sf : SpecFloat.spec_float)
  : bool :=
  match sf with
  | SpecFloat.S754_zero _ => Binary64.Fnum f =? 0
  | SpecFloat.S754_finite s m e =>
      let v := if s then Z.neg m else Z.pos m in
      let e0 := Z.min e (Binary64.Fexp f) in
      v * 2 ^ (e - e0) =? Binary64.Fnum f * 2 ^ (Binary64.Fexp f - e0)
  | _ => false
  end.

Definition sf_of_int (h : Z) : SpecFloat.spec_float :=
  SpecFloat.binary_normalize 53 1024 h 0 false.

Definition sf_literal (c : Binary64.float) : SpecFloat.spec_float :=
  SpecFloat.S754_finite false (Z.to_pos (Binary64.Fnum c)) (Binary64.Fexp c).

(** [float(h)] and [float(h) * c] have the same value in both models, and
    [float(h)] overflows in both or in neither. *)
Definition agrees_with_SpecFloat (c : Binary64.float) (h : Z) : bool :=
  match Binary64.of_int h with
  | Some x =>
      sf_same_value x (sf_of_int h)
      && sf_same_value (Binary64.mul x c)
           (SpecFloat.SFmul 53 1024 (sf_of_int h) (sf_literal c))
  | None =>
      match sf_of_int h with
      | SpecFloat.S754_infinity _ => true
      | _ => false
      end
  end.

Definition integers_from (lo : Z) (n : nat) : list Z :=
  map (fun i => lo + Z.of_nat i) (seq 0 n).

(** Texts on which the patterns are evaluated below. *)
Definition sample_texts : list string :=
  [
   "12"; " 1.2.33 "; "1."; "Page 3 of 10"; "PG. 7"; "page 3 of"; "Page3";
   "3 March 2021"; "12 Mar 1999"; "3 Ma 2021"; "123 March 2021";
   "(Continued)"; "(continued) "; " -- _ "; " -a- "; "***"; "XIV."; "Mild";
   "References"; "2024"; "20 24"; "1.2 Scope"
  ].

(* ================================================================== *)
(** * Further notions for the statements about the code

    None of the definitions below is part of the source. *)

(** Every character of [s] is white space. *)
Fixpoint all_space (s : string) : bool :=
  match s with
  | EmptyString => true
  | String c s' => PyStr.isspace c && all_space s'
  end.

(** The character [c] occurs in [s]. *)
Fixpoint occurs (c : ascii) (s : string) : bool :=
  match s with
  | EmptyString => false
  | String c' s' => Ascii.eqb c c' || occurs c s'
  end.

(** The three levels of an outline entry. *)
Definition heading_level (lv : string) : Prop :=
  lv = "H1" \/ lv = "H2" \/ lv = "H3".

(** No element of [l] is followed by an equal one. *)
Fixpoint adjacent_distinct {A : Type} (l : list A) : Prop :=
  match l with
  | a :: (b :: _) as rest => a <> b /\ adjacent_distinct rest
  | _ => True
  end.

(** The lines of the text blocks of a document, as stored. *)
Definition text_lines (document : Document) : list Line :=
  flat_map (fun page : Page =>
              flat_map (fun block =>
                          if block_type block =? 0 then block_lines block
                          else [])
                page)
    document.

(** The spans of the text blocks of a document, as stored. *)
Definition text_spans (document : Document) : list Span :=
  flat_map spans (text_lines document).

(** The spans [analyze_document_fonts] and the title scan count: a
    positive size and a text that is not empty once stripped. *)
Definition counted (span : Span) : bool :=
  (0 <? span_size span) && negb (PyStr.is_empty (PyStr.strip (span_text span))).

(** An entry made from a line of the reading order: its text and page,
    one of the three levels, a text of two characters or more. *)
Definition entry_made_from (h : Heading) (x : Z * Line) : Prop :=
  h_text h = line_text (snd x) /\ h_page h = fst x + 1
  /\ heading_level (h_level h) /\ 2 <= PyStr.len (h_text h).

(** One of [names] occurs in [s]. *)
Definition contains_any (names : list string) (s : string) : bool :=
  existsb (fun name => PyStr.contains name s) names.

(** The font name, lowered, holds one of the four marks of a bold
    face. *)
Definition bold_font (font_name : string) : bool :=
  contains_any ["bold"; "black"; "heavy"; "demi"] (PyStr.lower font_name).

(** One of the twelve section names of the special check occurs in the
    lowered text. *)
Definition section_keyword (lower_text : string) : bool :=
  contains_any ["table of contents"; "list of figures"; "list of tables";
                "acknowledgements"; "foreword"; "preface"; "introduction";
                "references"; "bibliography"; "appendix"; "glossary"; "index"]
    lower_text.

(** No character of [s] is one of the three whose title case leaves the
    range 0..255 (code points 181, 223 and 255): on such a text [PyStr.title]
    is [str.title]. *)
Fixpoint title_case_in_range (s : string) : bool :=
  match s with
  | EmptyString => true
  | String c s' =>
      negb (N.eqb (PyStr.code c) 181) && negb (N.eqb (PyStr.code c) 223)
      && negb (N.eqb (PyStr.code c) 255) && title_case_in_range s'
  end.

(** A builder that holds one H1 entry of page 1. *)
Definition one_h1_entry (text : string) : Builder :=
  {| b_outline := [{| h_level := "H1"; h_text := text; h_page := 1 |}];
     last_added_heading := {| h_level := "H1"; h_text := text; h_page := 1 |} |}.

(** Every character of [s] is one of the letters i, v, x, l, c, d, m. *)
Fixpoint all_roman (s : string) : bool :=
  match s with
  | EmptyString => true
  | String c s' =>
      PyStr.contains (String c EmptyString) "ivxlcdm" && all_roman s'
  end.

(** The count under a key of a [Counter]; a missing key counts 0. *)
Fixpoint counter_get (c : Counter) (k : Z) : Z :=
  match c with
  | [] => 0
  | (k', v) :: c' => if k =? k' then v else counter_get c' k
  end.

(** The weight of a size among some spans: the total length of the
    stripped texts of the counted spans of that size. *)
Definition weight_in (l : list Span) (fs : Z) : Z :=
  fold_right Z.add 0
    (map (fun span => PyStr.len (PyStr.strip (span_text span)))
       (filter (fun span => counted span && (span_size span =? fs)) l)).

Definition size_weight (document : Document) (fs : Z) : Z :=
  weight_in (text_spans document) fs.

(** [a] goes before [b] in the ranking of the sizes: more weight, or the
    same weight and a larger size. *)
Definition outranks (document : Document) (a b : Z) : Prop :=
  size_weight document b < size_weight document a
  \/ (size_weight document a = size_weight document b /\ b < a).

(** The spans the title scan visits, each with its page index: the spans
    of the text blocks of the first two pages, blocks sorted by
    [(top, left)]. *)
Definition title_spans (document : Document) : list (Z * Span) :=
  flat_map
    (fun p : Z * Page =>
       map (pair (fst p))
         (flat_map spans
            (flat_map (fun block =>
                         if block_type block =? 0 then block_lines block
                         else [])
               (sort_blocks (snd p)))))
    (firstn 2 (enumerate document)).

(** The tuple the scan keeps for a span. *)
Definition candidate_of (x : Z * Span) : Candidate :=
  {| c_text := PyStr.strip (span_text (snd x));
     c_size := span_size (snd x);
     c_page := fst x;
     c_bold := PyStr.contains "bold" (PyStr.lower (span_font (snd x)))
               || PyStr.contains "black" (PyStr.lower (span_font (snd x))) |}.

(** The largest size of a counted span, 0 when there is none. *)
Definition largest_size (l : list (Z * Span)) : Z :=
  fold_right (fun x m => if counted (snd x) then Z.max (span_size (snd x)) m
                         else m)
    0 l.

(** The counted spans of the largest size, in the order of the scan. *)
Definition largest_spans (document : Document) : list (Z * Span) :=
  filter (fun x => counted (snd x)
                   && (span_size (snd x) =? largest_size (title_spans document)))
    (title_spans document).

(* ================================================================== *)
(** * The behaviour the statements describe

    None of the definitions below is part of the source, and none is
    written with a function of the source: they say in their own terms
    which names the special check knows, what the first line of a text is,
    which candidate is chosen for the title, and in which order the lines
    of a page are read. *)

(** [line] is [text] up to its first line feed, or all of [text] when it
    has none. *)
Definition first_line_is (text line : string) : Prop :=
  occurs PyStr.newline line = false
  /\ (text = line
      \/ exists rest, text = (line ++ String PyStr.newline rest)%string).

(** [t] neither begins nor ends with white space. *)
Definition clean_ends (t : string) : Prop :=
  (forall c u, t = String c u -> PyStr.isspace c = false)
  /\ (forall u c, t = (u ++ String c "")%string -> PyStr.isspace c = false).

(** [t] is [s] without the white space at its two ends. *)
Definition stripped_is (s t : string) : Prop :=
  clean_ends t
  /\ exists pre post,
      s = (pre ++ t ++ post)%string
      /\ all_space pre = true /\ all_space post = true.

(** [t] is the first line of [text], without the white space at its
    ends. *)
Definition first_line_stripped (text t : string) : Prop :=
  exists line, first_line_is text line /\ stripped_is line t.

(** The test of the selection: page index 0, more than two words, a size
    of at least 0.8 * h1, not a bare integer, neither "contents" nor "page"
    in the lowered text. *)
Definition good_title (h1 : Z) (c : Candidate) : Prop :=
  c_page c = 0
  /\ 2 < Z.of_nat (List.length (PyStr.split (c_text c)))
  /\ 8 * h1 <= 10 * c_size c
  /\ ~ bare_integer (c_text c)
  /\ PyStr.contains "contents" (PyStr.lower (c_text c)) = false
  /\ PyStr.contains "page" (PyStr.lower (c_text c)) = false.

(** The title chosen among the ranked candidates: the first line of the
    first one that passes the test; when none passes, the first line of the
    top one if it is on page index 0; else nothing. *)
Inductive title_choice (h1 : Z) (ranked : list Candidate)
  : option string -> Prop :=
| choice_passing : forall before c after t,
    ranked = before ++ c :: after ->
    Forall (fun b => ~ good_title h1 b) before ->
    good_title h1 c ->
    first_line_stripped (c_text c) t ->
    title_choice h1 ranked (Some t)
| choice_top : forall top rest t,
    ranked = top :: rest ->
    Forall (fun b => ~ good_title h1 b) ranked ->
    c_page top = 0 ->
    first_line_stripped (c_text top) t ->
    title_choice h1 ranked (Some t)
| choice_none_elsewhere : forall top rest,
    ranked = top :: rest ->
    Forall (fun b => ~ good_title h1 b) ranked ->
    c_page top <> 0 ->
    title_choice h1 ranked None
| choice_none_empty :
    ranked = [] ->
    title_choice h1 ranked None.

(** [a] is not after [b] by (top, left): a smaller top coordinate, or the
    same top and a left coordinate that is not larger. *)
Definition top_left_le (a b : Block) : Prop :=
  (bbox_top a < bbox_top b
   \/ (bbox_top a == bbox_top b /\ bbox_left a <= bbox_left b))%Q.

(** The lines of the text blocks of [blocks], block after block, each
    with the page index [index]. *)
Definition block_lines_at (index : Z) (blocks : list Block) : list (Z * Line) :=
  flat_map
    (fun block =>
       if block_type block =? 0
       then map (fun line => (index, line)) (block_lines block)
       else [])
    blocks.

(** The lines of pages whose blocks are arranged as given, page after
    page, the first page having the index [index]. *)
Fixpoint lines_in_order_from (index : Z) (arranged : list (list Block))
  : list (Z * Line) :=
  match arranged with
  | [] => []
  | blocks :: more =>
      block_lines_at index blocks ++ lines_in_order_from (index + 1) more
  end.

Definition lines_in_order (arranged : list (list Block)) : list (Z * Line) :=
  lines_in_order_from 0 arranged.

(** The entry [h] was made from the line [x]: its text is the texts of
    the spans of the line joined by single spaces, without the white space at
    the ends, and its page number is the page index plus one. *)
Definition entry_from (h : Heading) (x : Z * Line) : Prop :=
  stripped_is (PyStr.join " " (map span_text (spans (snd x)))) (h_text h)
  /\ h_page h = fst x + 1.

(* ================================================================== *)
(** * Further sample lines and documents *)

(** A line of one span in a font that is not bold. *)
Definition plain_line (text : string) (size : Z) : Line :=
  one_span_line text size "Times-Roman".

(** A first page with a title of two lines in the largest size, followed
    by a page of running text. *)
Definition title_document : Document :=
  [ [ text_block
        [one_span_line
           ("Annual Report 2024 " ++ String PyStr.newline "Draft copy")%string
           30 "Helvetica-Bold"] 60;
      text_block [one_span_line "Plain running text of the page." 10
                    "Times-Roman"] 200 ];
    body_page ].

(** A page whose blocks are stored bottom first. *)
Definition unordered_page_document : Document :=
  [ [ text_block [one_span_line "Glossary" 20 "Helvetica-Bold"] 300;
      text_block [one_span_line "Appendix" 20 "Helvetica-Bold"] 100 ] ].

(* ================================================================== *)
(** * Correctness of the matcher *)

Lemma append_empty (s1 s2 : string) :
  (s1 ++ s2)%string = "" -> s1 = "" /\ s2 = "".
Proof. destruct s1; cbn; [auto|discriminate]. Qed.

Lemma append_cons (s1 s2 : string) (c : ascii) (s : string) :
  (s1 ++ s2)%string = String c s ->
  (s1 = "" /\ s2 = String c s)
  \/ exists s1', s1 = String c s1' /\ s = (s1' ++ s2)%string.
Proof.
  destruct s1 as [|c1 s1]; cbn; [auto|].
  intros [= -> <-]. right. eauto.
Qed.

Lemma nullable_spec (r : Re.regex) : Re.nullable r = true <-> in_lang r "".
Proof.
  induction r as [| |p|r1 IH1 r2 IH2|r1 IH1 r2 IH2|r IH]; cbn.
  - split; [discriminate|]. inversion 1.
  - split; [constructor|reflexivity].
  - split; [discriminate|]. inversion 1.
  - rewrite andb_true_iff, IH1, IH2. split.
    + intros [H1 H2]. apply (in_cat r1 r2 "" "" H1 H2).
    + intros H. inversion H as [| |? ? s1 s2 H1 H2 E1 E2| | | |]; subst.
      apply append_empty in E2 as [-> ->]. now split.
  - rewrite orb_true_iff, IH1, IH2. split.
    + intros [H|H]; [now apply in_alt_l|now apply in_alt_r].
    + inversion 1; subst; auto.
  - split; [constructor|reflexivity].
Qed.

Lemma star_cons (r : Re.regex) (c : ascii) (s : string) :
  in_lang (Re.Star r) (String c s) ->
  exists s1 s2, s = (s1 ++ s2)%string
                /\ in_lang r (String c s1) /\ in_lang (Re.Star r) s2.
Proof.
  intros H. remember (Re.Star r) as r' eqn:Er. remember (String c s) as w eqn:Ew.
  induction H as [| | | | | |r0 s1 s2 H1 _ H2 IH2]; try discriminate.
  injection Er as ->.
  apply append_cons in Ew as [[-> ->]|(s1' & -> & ->)].
  - now apply IH2.
  - exists s1', s2. auto.
Qed.

Lemma deriv_spec (c : ascii) (r : Re.regex) (s : string) :
  in_lang (Re.deriv c r) s <-> in_lang r (String c s).
Proof.
  revert s.
  induction r as [| |p|r1 IH1 r2 IH2|r1 IH1 r2 IH2|r IH]; intros s; cbn.
  - split; inversion 1.
  - split; inversion 1.
  - destruct (p c) eqn:E; split; intros H; inversion H; subst.
    + now constructor.
    + constructor.
    + congruence.
  - assert (Hcat : in_lang (Re.Cat (Re.deriv c r1) r2) s <->
                   exists s1 s2, s = (s1 ++ s2)%string
                                 /\ in_lang r1 (String c s1) /\ in_lang r2 s2).
    { split.
      - intros H. inversion H; subst. rewrite IH1 in *. eauto.
      - intros (s1 & s2 & -> & H1 & H2). constructor; [now apply IH1|exact H2]. }
    destruct (Re.nullable r1) eqn:En.
    + split.
      * intros H. inversion H as [| | |? ? ? H'|? ? ? H'| |]; subst.
        -- apply Hcat in H' as (s1 & s2 & -> & H1 & H2).
           apply (in_cat r1 r2 (String c s1) s2 H1 H2).
        -- apply IH2 in H'. apply nullable_spec in En.
           apply (in_cat r1 r2 "" (String c s) En H').
      * intros H. inversion H as [| |? ? s1 s2 H1 H2 E1 E2| | | |]; subst.
        apply append_cons in E2 as [[-> ->]|(s1' & -> & ->)].
        -- apply in_alt_r. now apply IH2.
        -- apply in_alt_l. apply Hcat. eauto.
    + rewrite Hcat. split.
      * intros (s1 & s2 & -> & H1 & H2).
        apply (in_cat r1 r2 (String c s1) s2 H1 H2).
      * intros H. inversion H as [| |? ? s1 s2 H1 H2 E1 E2| | | |]; subst.
        apply append_cons in E2 as [[-> ->]|(s1' & -> & ->)].
        -- apply nullable_spec in H1. congruence.
        -- eauto.
  - split.
    + intros H. inversion H; subst.
      * apply in_alt_l. now apply IH1.
      * apply in_alt_r. now apply IH2.
    + intros H. inversion H; subst.
      * apply in_alt_l. now apply IH1.
      * apply in_alt_r. now apply IH2.
  - split.
    + intros H. inversion H as [| |? ? s1 s2 H1 H2| | | |]; subst.
      apply IH in H1. apply (in_star_more r (String c s1) s2 H1 H2).
    + intros H. apply star_cons in H as (s1 & s2 & -> & H1 & H2).
      constructor; [now apply IH|exact H2].
Qed.

(** The matcher decides the language. *)
Lemma matches_spec (r : Re.regex) (s : string) :
  Re.matches r s = true <-> in_lang r s.
Proof.
  revert r. induction s as [|c s IH]; intros r; cbn.
  - apply nullable_spec.
  - rewrite IH. apply deriv_spec.
Qed.

(* ================================================================== *)
(** * The pattern of a bare integer *)

Lemma append_empty_r (s : string) : (s ++ "")%string = s.
Proof. induction s as [|c s IH]; cbn; [reflexivity|now rewrite IH]. Qed.

Lemma star_digit_spec (s : string) :
  in_lang (Re.Star Re.digit) s <-> all_digits s = true.
Proof.
  split.
  - intros H. remember (Re.Star Re.digit) as r eqn:Er.
    induction H as [| | | | | |r0 s1 s2 H1 _ H2 IH2]; try discriminate.
    + reflexivity.
    + injection Er as ->. inversion H1; subst. cbn.
      rewrite IH2 by reflexivity. now rewrite andb_true_r.
  - induction s as [|c s IH]; cbn; [constructor|].
    intros H. apply andb_true_iff in H as [Hc Hs].
    apply (in_star_more Re.digit (String c "") s); [now constructor|auto].
Qed.

(** [re.match(r"^\d+$", text)] finds a match exactly on a bare integer. *)
Lemma pat_digits_spec (s : string) :
  Re.re_match Re.pat_digits s = true <-> bare_integer s.
Proof.
  unfold Re.re_match. rewrite matches_spec. unfold bare_integer. split.
  - intros H. inversion H as [| |? ? s1 s2 H1 H2| | | |]; subst.
    inversion H1 as [| |? ? a b Ha Hb| | | |]; subst.
    inversion Ha; subst. apply star_digit_spec in Hb.
    exists c, b. split; [assumption|]. split; [assumption|].
    inversion H2 as [| | |? ? ? Hn|? ? ? He| |]; subst.
    + inversion Hn as [|? c' Hc'| | | | |]; subst.
      apply Ascii.eqb_eq in Hc'. subst c'. now right.
    + inversion He; subst. left. cbn. now rewrite append_empty_r.
  - intros (c & d & Hc & Hd & [-> | ->]).
    + rewrite <- (append_empty_r (String c d)).
      apply (in_cat (Re.Plus Re.digit) (Re.Opt (Re.Chr PyStr.newline))
               (String c d) "").
      * apply (in_cat Re.digit (Re.Star Re.digit) (String c "") d);
          [now constructor|now apply star_digit_spec].
      * apply in_alt_r. constructor.
    + apply (in_cat (Re.Plus Re.digit) (Re.Opt (Re.Chr PyStr.newline))
               (String c d) (String PyStr.newline "")).
      * apply (in_cat Re.digit (Re.Star Re.digit) (String c "") d);
          [now constructor|now apply star_digit_spec].
      * apply in_alt_l. constructor. apply Ascii.eqb_refl.
Qed.

(* ================================================================== *)
(** * Facts about the binary64 operations *)

Module Binary64Facts.
Import Binary64.

Lemma round_shift_spec (m s : Z) :
  0 <= m -> 0 < s ->
  exists q r, m = 2 ^ s * q + r /\ 0 <= r < 2 ^ s
              /\ (round_shift m s = q \/ round_shift m s = q + 1)
              /\ (2 * r < 2 ^ s -> round_shift m s = q).
Proof.
  intros Hm Hs.
  assert (HX : 0 < 2 ^ s) by (apply Z.pow_pos_nonneg; lia).
  exists (m / 2 ^ s), (m mod 2 ^ s).
  split; [apply Z.div_mod; lia|].
  split; [apply Z.mod_pos_bound; lia|].
  unfold round_shift.
  destruct (2 * (m mod 2 ^ s) ?= 2 ^ s) eqn:E.
  - apply Z.compare_eq_iff in E. split; [destruct (Z.even _); auto|lia].
  - split; auto.
  - apply Z.compare_gt_iff in E. split; [auto|lia].
Qed.

Lemma of_int_small (h : Z) :
  0 <= h < 2 ^ 53 -> of_int h = Some (Float h 0).
Proof.
  intros Hh. unfold of_int, round.
  destruct (h <? 0) eqn:E; [apply Z.ltb_lt in E; lia|].
  unfold round_pos.
  assert (Hs : Z.log2 h + 1 - prec <= 0).
  { unfold prec. destruct (Z.eq_dec h 0) as [->|Hn]; [rewrite Z.log2_nonpos; lia|].
    assert (Z.log2 h < 53) by (apply Z.log2_lt_pow2; lia). lia. }
  apply Z.leb_le in Hs. rewrite Hs. cbn [Fnum Fexp].
  replace (Z.abs h * 2 ^ 0) with h by (rewrite Z.abs_eq; lia).
  destruct (2 ^ emax <=? h) eqn:E2; [|reflexivity].
  apply Z.leb_le in E2. unfold emax in E2.
  assert (2 ^ 53 < 2 ^ 1024) by (apply Z.pow_lt_mono_r; lia). lia.
Qed.

(** A literal [mc * 2^-53] that is the double nearest to [k / 10]: the
    comparison of an integer with the rounded product [h * literal] is the
    comparison with the exact [h * k / 10], for [h] below [2^49]. *)
Section Scale.
Variables mc k d : Z.
Hypothesis Hmc : 10 * mc = k * 2 ^ 53 + d.
Hypothesis Hd : 0 <= d.
Hypothesis Hdk : 2 * d <= k.
Hypothesis Hk : 0 < k < 10.
Hypothesis Hnorm : 2 ^ 52 <= mc < 2 ^ 53.

Lemma mul_lit_compare (h n : Z) :
  0 <= h < 2 ^ 49 ->
  int_lt n (mul (Float h 0) (Float mc (-53))) = (10 * n <? k * h).
Proof.
  intros Hh. unfold mul. cbn [Fnum Fexp]. unfold round.
  assert (Hm0 : 0 <= h * mc) by nia.
  destruct (h * mc <? 0) eqn:E; [apply Z.ltb_lt in E; lia|]. clear E.
  unfold round_pos, prec.
  set (m := h * mc) in *.
  destruct (Z.log2 m + 1 - 53 <=? 0) eqn:Es.
  - (* at most 53 bits: the product is exact *)
    apply Z.leb_le in Es.
    assert (Hlt : m < 2 ^ 53).
    { destruct (Z.eq_dec m 0) as [->|Hn0]; [reflexivity|].
      apply Z.log2_lt_pow2; lia. }
    unfold int_lt. cbn [Fnum Fexp].
    change (0 <=? 0 + -53) with false. cbv iota.
    change (- (0 + -53)) with 53.
    assert (Hhk : h * k < 10) by (subst m; nia).
    destruct (10 * n <? k * h) eqn:R.
    + apply Z.ltb_lt in R. apply Z.ltb_lt. subst m. nia.
    + apply Z.ltb_ge in R. apply Z.ltb_ge. subst m. nia.
  - apply Z.leb_gt in Es.
    set (s := Z.log2 m + 1 - 53) in *.
    assert (Hmpos : 0 < m).
    { destruct (Z.eq_dec m 0) as [E0|]; [exfalso|lia].
      unfold s in Es. rewrite E0 in Es. cbn in Es. lia. }
    destruct (Z.log2_spec m Hmpos) as [Hlo Hhi].
    assert (Hs49 : s <= 49).
    { assert (Z.log2 m < 102); [|lia].
      apply Z.log2_lt_pow2; [lia|].
      change (2 ^ 102) with (2 ^ 49 * 2 ^ 53). subst m. nia. }
    set (X := 2 ^ s) in *.
    set (Y := 2 ^ (53 - s)).
    assert (HXY : X * Y = 2 ^ 53).
    { unfold X, Y. rewrite <- Z.pow_add_r by lia. f_equal. lia. }
    assert (HXpos : 0 < X) by (apply Z.pow_pos_nonneg; lia).
    assert (HY16 : 16 <= Y).
    { change 16 with (2 ^ 4). apply Z.pow_le_mono_r; lia. }
    assert (HloX : 2 ^ 52 * X <= m).
    { unfold X. rewrite <- Z.pow_add_r by lia.
      replace (52 + s) with (Z.log2 m) by lia. exact Hlo. }
    assert (HhiX : m < 2 ^ 53 * X).
    { unfold X. rewrite <- Z.pow_add_r by lia.
      replace (53 + s) with (Z.succ (Z.log2 m)) by lia. exact Hhi. }
    destruct (round_shift_spec m s Hm0 Es) as (q & r & Hqr & Hr & Hq' & Hdown).
    fold X in Hqr, Hr, Hdown.
    unfold int_lt. cbn [Fnum Fexp].
    assert (Hneg : (0 <=? -53 + s) = false) by (apply Z.leb_gt; lia).
    replace (0 + -53 + s) with (-53 + s) by lia.
    rewrite Hneg. replace (- (-53 + s)) with (53 - s) by lia. fold Y.
    assert (H10m : 10 * m = k * h * (X * Y) + d * h) by (subst m; nia).
    destruct (10 * n <? k * h) eqn:R.
    + apply Z.ltb_lt in R. apply Z.ltb_lt.
      destruct (Z.lt_ge_cases (n * Y) (round_shift m s)) as [|Hge]; [assumption|exfalso].
      assert (q <= n * Y) by lia.
      assert (X * q <= X * (n * Y)) by nia.
      assert (10 * (n * (X * Y)) <= (k * h - 1) * (X * Y)) by nia.
      nia.
    + apply Z.ltb_ge in R. apply Z.ltb_ge.
      destruct (Z.eq_dec (10 * n) (k * h)) as [Heq|Hne].
      * (* the exact case: the product rounds down to [n] *)
        assert (Hr0 : 10 * (m - n * (X * Y)) = d * h) by nia.
        assert (Hkh : k * h * (X * Y) < 10 * (2 ^ 53 * X)) by nia.
        assert (Hkh' : k * h < 10 * X) by nia.
        assert (Hq : q = n * Y /\ r = m - n * (X * Y)).
        { assert (0 <= m - n * (X * Y) < X) by nia.
          assert (m = X * (n * Y) + (m - n * (X * Y))) by lia.
          assert (q = n * Y) by nia. nia. }
        destruct Hq as [-> ->].
        rewrite Hdown; [lia|]. nia.
      * assert (R' : k * h + 1 <= 10 * n) by lia.
        destruct (Z.le_gt_cases (round_shift m s) (n * Y)) as [|Hgt]; [assumption|exfalso].
        assert (n * Y + 1 <= q + 1) by lia.
        assert (X * (n * Y) <= X * q) by nia.
        assert ((k * h + 1) * (X * Y) <= 10 * (n * (X * Y))) by nia.
        nia.
Qed.
End Scale.

Lemma scale_0_9 (h : Z) :
  0 <= h < 2 ^ 49 ->
  exists t, int_mul_float h lit_0_9 = Ok t
            /\ forall n, int_lt n t = (10 * n <? 9 * h).
Proof.
  intros Hh. unfold int_mul_float.
  rewrite of_int_small by (split; [lia|]; apply Z.lt_trans with (2 ^ 49); [lia|reflexivity]).
  eexists; split; [reflexivity|]. intros n.
  apply (mul_lit_compare 8106479329266893 9 2); try lia; reflexivity || (split; [discriminate|reflexivity]).
Qed.

Lemma scale_0_8 (h : Z) :
  0 <= h < 2 ^ 49 ->
  exists t, int_mul_float h lit_0_8 = Ok t
            /\ forall n, int_lt n t = (10 * n <? 8 * h).
Proof.
  intros Hh. unfold int_mul_float.
  rewrite of_int_small by (split; [lia|]; apply Z.lt_trans with (2 ^ 49); [lia|reflexivity]).
  eexists; split; [reflexivity|]. intros n.
  apply (mul_lit_compare 7205759403792794 8 4); try lia; reflexivity || (split; [discriminate|reflexivity]).
Qed.

End Binary64Facts.

(* ================================================================== *)
(** * The binary64 model against [SpecFloat] *)

(** On the integers 0..2047, on those around 2^53, where [float(h)] starts
    to round, and on those around the overflow threshold, the model and
    the IEEE 754 specification of the Standard Library give the same
    [float(h)] and the same products with [0.9] and [0.8]. *)
Lemma binary64_agrees_with_SpecFloat :
  forallb (agrees_with_SpecFloat Binary64.lit_0_9) (integers_from 0 2048) = true
  /\ forallb (agrees_with_SpecFloat Binary64.lit_0_8) (integers_from 0 2048) = true
  /\ forallb (agrees_with_SpecFloat Binary64.lit_0_9)
       (integers_from (2 ^ 53 - 64) 192) = true
  /\ forallb (agrees_with_SpecFloat Binary64.lit_0_8)
       (integers_from (2 ^ 53 - 64) 192) = true
  /\ forallb (agrees_with_SpecFloat Binary64.lit_0_9)
       (integers_from (2 ^ 1024 - 2 ^ 970 - 8) 16) = true
  /\ SpecFloat.valid_binary 53 1024 (sf_literal Binary64.lit_0_9) = true
  /\ SpecFloat.valid_binary 53 1024 (sf_literal Binary64.lit_0_8) = true.
Proof.
  repeat split; vm_compute; reflexivity.
Qed.

(* ================================================================== *)
(** * The stable sort *)

Section PySort.
Context {A : Type}.
Variable le : A -> A -> bool.

Lemma insert_by_perm (x : A) (l : list A) :
  Permutation (insert_by le x l) (x :: l).
Proof.
  induction l as [|y l IH]; cbn; [reflexivity|].
  destruct (le x y); [reflexivity|].
  rewrite IH. apply perm_swap.
Qed.

Lemma py_sort_perm (l : list A) : Permutation (py_sort le l) l.
Proof.
  induction l as [|x l IH]; cbn; [reflexivity|].
  rewrite insert_by_perm. now constructor.
Qed.

Hypothesis le_total : forall a b, le a b = true \/ le b a = true.
Hypothesis le_trans : forall a b c,
    le a b = true -> le b c = true -> le a c = true.

Lemma insert_by_sorted (x : A) (l : list A) :
  StronglySorted (fun a b => le a b = true) l ->
  StronglySorted (fun a b => le a b = true) (insert_by le x l).
Proof.
  induction 1 as [|y l Hl IH Hy]; cbn.
  - constructor; constructor.
  - destruct (le x y) eqn:E.
    + constructor; [constructor; assumption|].
      constructor; [assumption|].
      eapply Forall_impl; [|exact Hy]. intros z Hz. eauto.
    + constructor; [assumption|].
      assert (Hyx : le y x = true) by (destruct (le_total x y); congruence).
      eapply Permutation_Forall; [symmetry; apply insert_by_perm|].
      constructor; assumption.
Qed.

Lemma py_sort_sorted (l : list A) :
  StronglySorted (fun a b => le a b = true) (py_sort le l).
Proof.
  induction l as [|x l IH]; cbn; [constructor|].
  now apply insert_by_sorted.
Qed.
End PySort.

(* ================================================================== *)
(** * Thresholds *)

Lemma clamp_thresholds_bounds (t : Z * Z * Z) :
  h2_th (clamp_thresholds t) <= h1_th (clamp_thresholds t)
  /\ h3_th (clamp_thresholds t) <= h2_th (clamp_thresholds t)
  /\ 12 <= h3_th (clamp_thresholds t)
  /\ body_max_size (clamp_thresholds t) = 12.
Proof.
  destruct t as [[a b] c].
  unfold clamp_thresholds, BODY_TEXT_MAX_SIZE.
  cbn [h1_th h2_th h3_th body_max_size].
  repeat split; lia.
Qed.

Lemma initial_thresholds_match (large : list Z) :
  initial_thresholds large =
  match large with
  | rank1 :: rank2 :: rank3 :: _ => (rank1, rank2, rank3)
  | [rank1; rank2] => (rank1, rank2, rank2)
  | [rank1] => (rank1, rank1, rank1)
  | [] => (24, 18, 14)
  end.
Proof.
  unfold initial_thresholds, item.
  destruct large as [|a [|b [|c r]]]; try reflexivity.
  cbn [List.length nth].
  replace (3 <=? Z.of_nat (S (S (S (List.length r))))) with true; [reflexivity|].
  symmetry. apply Z.leb_le. lia.
Qed.

(** C1: for every ranked size list, and so for every histogram, the
    thresholds computed by [determine_heading_thresholds] satisfy
    h1 >= h2 >= h3 >= 12, and the body maximum is 12. *)
Theorem thresholds_monotone :
  forall sorted_font_sizes : list Z,
    let th := determine_heading_thresholds sorted_font_sizes in
    h1_th th >= h2_th th /\ h2_th th >= h3_th th
    /\ h3_th th >= BODY_TEXT_MAX_SIZE /\ BODY_TEXT_MAX_SIZE = 12
    /\ body_max_size th = 12.
Proof.
  intros l th. subst th. unfold determine_heading_thresholds.
  destruct (clamp_thresholds_bounds (initial_thresholds (large_sizes l)))
    as (H21 & H32 & H3 & Hb).
  unfold BODY_TEXT_MAX_SIZE. repeat split; lia || exact Hb.
Qed.

(** C4: with [large] the sizes above 12 in rank order, the thresholds
    before the clamps are the first three ranks when there are three or
    more, (rank1, rank2, rank2) for two, (rank1, rank1, rank1) for one and
    (24, 18, 14) for none; the histogram {28: 40} gives 28, 28, 28, which
    the clamps keep. *)
Theorem initial_thresholds_by_rank :
  (forall sorted_font_sizes : list Z,
      initial_thresholds (large_sizes sorted_font_sizes) =
      match large_sizes sorted_font_sizes with
      | rank1 :: rank2 :: rank3 :: _ => (rank1, rank2, rank3)
      | [rank1; rank2] => (rank1, rank2, rank2)
      | [rank1] => (rank1, rank1, rank1)
      | [] => (24, 18, 14)
      end)
  /\ (forall sorted_font_sizes fs,
         In fs (large_sizes sorted_font_sizes) <->
         In fs sorted_font_sizes /\ 12 < fs)
  /\ (forall front back,
         large_sizes (front ++ back) = large_sizes front ++ large_sizes back)
  /\ rank_sizes [(28, 40)] = [28]
  /\ initial_thresholds (large_sizes (rank_sizes [(28, 40)])) = (28, 28, 28)
  /\ determine_heading_thresholds (rank_sizes [(28, 40)]) =
     {| h1_th := 28; h2_th := 28; h3_th := 28; body_max_size := 12 |}.
Proof.
  split; [|split; [|split; [|repeat split]]].
  - intros l. apply initial_thresholds_match.
  - intros l fs. unfold large_sizes. rewrite filter_In.
    unfold BODY_TEXT_MAX_SIZE. rewrite Z.ltb_lt. reflexivity.
  - intros front back. apply filter_app.
Qed.

(* ================================================================== *)
(** * Strings *)

Lemma lower_char_idem (c : ascii) :
  PyStr.lower_char (PyStr.lower_char c) = PyStr.lower_char c.
Proof.
  destruct c as [[] [] [] [] [] [] [] []]; reflexivity.
Qed.

Lemma lower_idem (s : string) : PyStr.lower (PyStr.lower s) = PyStr.lower s.
Proof.
  induction s as [|c s IH]; cbn; [reflexivity|].
  now rewrite lower_char_idem, IH.
Qed.

(** A line without spans has no text. *)
Lemma line_text_no_spans (line : Line) : spans line = [] -> line_text line = "".
Proof. intros E. unfold line_text. rewrite E. reflexivity. Qed.

(* ================================================================== *)
(** * The candidacy filter *)

Lemma candidate_rejects_pattern (text : string) (font_size : Z)
    (font_name : string) (h1 h2 h3 body : Z) :
  non_heading_pattern text = true ->
  is_heading_candidate text font_size font_name h1 h2 h3 body = Ok false.
Proof.
  intros E. unfold is_heading_candidate. rewrite E.
  destruct (PyStr.is_empty text || (PyStr.len text <? 2)); reflexivity.
Qed.

(** A line the filter rejects leaves the builder as it is. *)
Lemma process_line_rejected (th : Thresholds) (page_num : Z) (st : Builder)
    (line : Line) :
  (forall font_size font_name,
      is_heading_candidate (line_text line) font_size font_name
        (h1_th th) (h2_th th) (h3_th th) (body_max_size th) = Ok false) ->
  process_line th page_num st line = Ok st.
Proof.
  intros Hrej. unfold process_line.
  destruct (PyStr.is_empty (line_text line)) eqn:E; [reflexivity|].
  destruct (spans line) as [|first_span rest] eqn:Es.
  - rewrite (line_text_no_spans line Es) in E. discriminate E.
  - rewrite Hrej. reflexivity.
Qed.

(** C7: the texts "12" and "Page 3 of 10" are rejected by
    [is_heading_candidate] for every size, font name and thresholds, and a
    line with such a text adds no entry to the outline. *)
Theorem page_numbers_rejected :
  forall text : string,
    text = "12" \/ text = "Page 3 of 10" ->
    (forall font_size font_name h1 h2 h3 body,
        is_heading_candidate text font_size font_name h1 h2 h3 body = Ok false)
    /\ (forall th page_num st line,
           line_text line = text ->
           process_line th page_num st line = Ok st).
Proof.
  intros text Ht.
  assert (Hpat : non_heading_pattern text = true)
    by (destruct Ht as [-> | ->]; vm_compute; reflexivity).
  split.
  - intros. now apply candidate_rejects_pattern.
  - intros th page_num st line E. apply process_line_rejected.
    intros. rewrite E. now apply candidate_rejects_pattern.
Qed.

Lemma page_numbers_rejected_witness :
  ("12" = "12" \/ "12" = "Page 3 of 10")
  /\ is_heading_candidate "12" 30 "Helvetica-Bold" 24 18 14 12 = Ok false.
Proof.
  split; [left; reflexivity|].
  apply (proj1 (page_numbers_rejected "12" (or_introl eq_refl))).
Defined.

(* ================================================================== *)
(** * Level assignment *)

Lemma get_heading_level_not_bold (font_size h1 h2 h3 : Z) :
  get_heading_level font_size false h1 h2 h3 = None.
Proof.
  unfold get_heading_level. now rewrite !andb_false_r.
Qed.

(** The filter on a text that matches no pattern and has two characters
    or more, for a threshold in the range where the product is exact. *)
Lemma candidate_by_size (text : string) (font_size : Z) (font_name : string)
    (h1 h2 h3 body : Z) :
  PyStr.is_empty text || (PyStr.len text <? 2) = false ->
  non_heading_pattern text = false ->
  0 <= h3 < 2 ^ 49 ->
  is_heading_candidate text font_size font_name h1 h2 h3 body =
  Ok (negb (negb (font_is_bold (PyStr.lower font_name)) && (font_size <=? body))
      && (9 * h3 <=? 10 * font_size)).
Proof.
  intros Hlen Hpat Hh3. unfold is_heading_candidate. rewrite Hlen, Hpat.
  destruct (negb (font_is_bold (PyStr.lower font_name)) && (font_size <=? body));
    [reflexivity|].
  destruct (Binary64Facts.scale_0_9 h3 Hh3) as (t & -> & Ht). cbn [bind].
  rewrite Ht. cbn [negb andb].
  destruct (10 * font_size <? 9 * h3) eqn:E.
  - apply Z.ltb_lt in E. symmetry. f_equal. apply Z.leb_gt. lia.
  - apply Z.ltb_ge in E. symmetry. f_equal. apply Z.leb_le. lia.
Qed.

(** The special check, for a threshold in the range where the product is
    exact. *)
Lemma known_section_level_none (full_line_text : string) (size h2 : Z) :
  0 <= h2 < 2 ^ 49 ->
  known_section_level None full_line_text size h2 =
  Ok (let lower_text := PyStr.lower full_line_text in
      if front_matter_name lower_text
         || (PyStr.contains "introduction" lower_text && (9 * h2 <=? 10 * size))
         || back_matter_keyword lower_text
      then Some "H1" else None).
Proof.
  intros Hh2. unfold known_section_level, front_matter_keyword. cbv zeta.
  destruct (front_matter_name (PyStr.lower full_line_text)); [reflexivity|].
  destruct (PyStr.contains "introduction" (PyStr.lower full_line_text)).
  - destruct (Binary64Facts.scale_0_9 h2 Hh2) as (t & -> & Ht). cbn [bind].
    unfold Binary64.int_ge. rewrite Ht.
    replace (negb (10 * size <? 9 * h2)) with (9 * h2 <=? 10 * size)
      by (rewrite Z.leb_antisym; reflexivity).
    cbn [orb andb].
    destruct (9 * h2 <=? 10 * size); [reflexivity|].
    destruct (back_matter_keyword _); reflexivity.
  - cbn [bind orb andb].
    destruct (back_matter_keyword _); reflexivity.
Qed.

(** At 10 points and not bold, the line "References" is rejected by the
    filter whatever the thresholds, and adds no entry. *)
Lemma references_10pt_counterexample :
  process_line (determine_heading_thresholds []) 0 initial_builder
    {| spans := [{| span_text := "References"; span_size := 10;
                    span_font := "Times-Roman" |}] |}
  = Ok initial_builder
  /\ process_line (determine_heading_thresholds []) 0 initial_builder
       {| spans := [{| span_text := "References"; span_size := 10;
                       span_font := "Times-Roman" |}] |}
     <> Ok (add_heading initial_builder "H1" "References" 0).
Proof.
  split; [vm_compute; reflexivity|vm_compute; discriminate].
Qed.

(** C2, as amended: a line whose text is "References", in a font that is
    not bold, becomes an H1 heading exactly when its size is above 12 and
    at least 0.9 * h3, for the thresholds of any ranked size list; at a
    smaller size, such as 10, the filter rejects it and no entry is added. *)
Theorem references_override :
  forall (sorted_font_sizes : list Z) (page_num : Z) (st : Builder)
         (line : Line) (first_span : Span) (rest : list Span),
    spans line = first_span :: rest ->
    line_text line = "References" ->
    font_is_bold (PyStr.lower (span_font first_span)) = false ->
    h3_th (determine_heading_thresholds sorted_font_sizes) < 2 ^ 49 ->
    process_line (determine_heading_thresholds sorted_font_sizes)
      page_num st line =
    Ok (if (12 <? span_size first_span)
           && (9 * h3_th (determine_heading_thresholds sorted_font_sizes)
               <=? 10 * span_size first_span)
        then add_heading st "H1" "References" page_num
        else st).
Proof.
  intros l page_num st line first_span rest Es Htext Hbold Hh3.
  destruct (clamp_thresholds_bounds (initial_thresholds (large_sizes l)))
    as (_ & _ & Hge & Hbody).
  fold (determine_heading_thresholds l) in Hge, Hbody.
  set (th := determine_heading_thresholds l) in *.
  unfold process_line. rewrite Es, Htext. cbn [PyStr.is_empty].
  rewrite candidate_by_size;
    [|reflexivity|vm_compute; reflexivity|lia].
  rewrite lower_idem, Hbold, Hbody. cbn [bind negb andb].
  rewrite <- Z.ltb_antisym.
  destruct ((12 <? span_size first_span)
            && (9 * h3_th th <=? 10 * span_size first_span)); [|reflexivity].
  cbn [negb]. rewrite get_heading_level_not_bold.
  reflexivity.
Qed.

Lemma references_override_witness :
  process_line (determine_heading_thresholds []) 0 initial_builder
    {| spans := [{| span_text := "References"; span_size := 13;
                    span_font := "Times-Roman" |}] |}
  = Ok {| b_outline := [{| h_level := "H1"; h_text := "References";
                           h_page := 1 |}];
          last_added_heading := {| h_level := "H1"; h_text := "References";
                                   h_page := 1 |} |}.
Proof.
  apply (references_override [] 0 initial_builder
           {| spans := [{| span_text := "References"; span_size := 13;
                           span_font := "Times-Roman" |}] |}
           {| span_text := "References"; span_size := 13;
              span_font := "Times-Roman" |} []).
  - reflexivity.
  - reflexivity.
  - reflexivity.
  - vm_compute. reflexivity.
Defined.

(* ================================================================== *)
(** * Exceptions of the line loop *)

Lemma int_mul_float_raises (h : Z) (c : Binary64.float) (e : exn) :
  int_mul_float h c = Raise e -> e = OverflowError.
Proof.
  unfold int_mul_float. destruct (Binary64.of_int h); congruence.
Qed.

Lemma is_heading_candidate_raises (text : string) (font_size : Z)
    (font_name : string) (h1 h2 h3 body : Z) (e : exn) :
  is_heading_candidate text font_size font_name h1 h2 h3 body = Raise e ->
  e = OverflowError.
Proof.
  unfold is_heading_candidate.
  destruct (_ || _); [discriminate|].
  destruct (non_heading_pattern text); [discriminate|].
  destruct (_ && _); [discriminate|].
  destruct (int_mul_float h3 Binary64.lit_0_9) as [t|e'] eqn:E; cbn [bind].
  - destruct (Binary64.int_lt font_size t); discriminate.
  - intros [= <-]. now apply int_mul_float_raises in E.
Qed.

Lemma known_section_level_raises (level : option string) (text : string)
    (size h2 : Z) (e : exn) :
  known_section_level level text size h2 = Raise e -> e = OverflowError.
Proof.
  unfold known_section_level, front_matter_keyword.
  destruct level; [discriminate|].
  destruct (front_matter_name _); cbn [bind].
  - discriminate.
  - destruct (PyStr.contains "introduction" _); cbn [bind].
    + destruct (int_mul_float h2 Binary64.lit_0_9) as [t|e'] eqn:E; cbn [bind].
      * destruct (Binary64.int_ge size t); [discriminate|].
        destruct (back_matter_keyword _); discriminate.
      * intros [= <-]. now apply int_mul_float_raises in E.
    + destruct (back_matter_keyword _); discriminate.
Qed.

Lemma process_line_raises (th : Thresholds) (page_num : Z) (st : Builder)
    (line : Line) (e : exn) :
  process_line th page_num st line = Raise e -> e = OverflowError.
Proof.
  unfold process_line.
  destruct (PyStr.is_empty (line_text line)) eqn:E; [discriminate|].
  destruct (spans line) as [|first_span rest] eqn:Es.
  - rewrite (line_text_no_spans line Es) in E. discriminate E.
  - destruct (is_heading_candidate _ _ _ _ _ _ _) as [cand|e'] eqn:Ec; cbn [bind].
    + destruct cand; cbn [negb]; [|discriminate].
      destruct (known_section_level _ _ _ _) as [lv|e'] eqn:Ek; cbn [bind].
      * destruct lv; discriminate.
      * intros [= <-]. now apply known_section_level_raises in Ek.
    + intros [= <-]. now apply is_heading_candidate_raises in Ec.
Qed.

(** C10: a line whose joined span texts strip to the empty string, and so
    every line without spans, is skipped before the first span is read: the
    builder is returned as it is, and for no line at all does the line loop
    raise [IndexError]. *)
Theorem empty_line_skipped :
  forall (th : Thresholds) (page_num : Z) (st : Builder) (line : Line),
    (line_text line = "" -> process_line th page_num st line = Ok st)
    /\ (spans line = [] -> line_text line = "")
    /\ process_line th page_num st line <> Raise IndexError.
Proof.
  intros th page_num st line. split; [|split].
  - intros E. unfold process_line. rewrite E. reflexivity.
  - apply line_text_no_spans.
  - intros E. apply process_line_raises in E. discriminate E.
Qed.

Lemma empty_line_skipped_witness :
  process_line (determine_heading_thresholds []) 0 initial_builder
    {| spans := [] |} = Ok initial_builder
  /\ process_line (determine_heading_thresholds []) 0 initial_builder
       {| spans := [{| span_text := " "; span_size := 30;
                       span_font := "Bold" |};
                    {| span_text := ""; span_size := 30;
                       span_font := "Bold" |}] |} = Ok initial_builder.
Proof.
  split.
  - apply (proj1 (empty_line_skipped (determine_heading_thresholds []) 0
                    initial_builder {| spans := [] |})).
    reflexivity.
  - apply (proj1 (empty_line_skipped (determine_heading_thresholds []) 0
                    initial_builder _)).
    reflexivity.
Defined.

(* ================================================================== *)
(** * The loops as one pass over the reading order *)

Lemma foldM_app {A S : Type} (f : S -> A -> result S) (l1 l2 : list A) (s : S) :
  foldM f (l1 ++ l2) s = (s' <- foldM f l1 s ;; foldM f l2 s').
Proof.
  revert s. induction l1 as [|x l1 IH]; intros s; cbn; [reflexivity|].
  destruct (f s x); cbn; [apply IH|reflexivity].
Qed.

Lemma foldM_lines (th : Thresholds) (page_num : Z) (lines : list Line)
    (st : Builder) :
  foldM (process_line th page_num) lines st =
  foldM (visit_line th) (map (fun line => (page_num, line)) lines) st.
Proof.
  revert st. induction lines as [|line lines IH]; intros st; cbn; [reflexivity|].
  unfold visit_line at 1. cbn [fst snd].
  destruct (process_line th page_num st line); cbn; [apply IH|reflexivity].
Qed.

Lemma foldM_blocks (th : Thresholds) (page_num : Z) (blocks : list Block)
    (st : Builder) :
  foldM (process_block th page_num) blocks st =
  foldM (visit_line th)
    (flat_map (fun block =>
                 if block_type block =? 0
                 then map (fun line => (page_num, line)) (block_lines block)
                 else []) blocks) st.
Proof.
  revert st. induction blocks as [|b blocks IH]; intros st; [reflexivity|].
  cbn [foldM flat_map]. rewrite foldM_app. unfold process_block at 1.
  destruct (block_type b =? 0).
  - rewrite foldM_lines.
    destruct (foldM (visit_line th) _ st); cbn [bind]; [apply IH|reflexivity].
  - cbn [foldM bind]. apply IH.
Qed.

Lemma foldM_pages (th : Thresholds) (pages : list (Z * Page)) (st : Builder) :
  foldM (process_page th) pages st =
  foldM (visit_line th) (flat_map page_lines pages) st.
Proof.
  revert st. induction pages as [|p pages IH]; intros st; [reflexivity|].
  cbn [foldM flat_map]. rewrite foldM_app. unfold process_page at 1.
  rewrite foldM_blocks. fold (page_lines p).
  destruct (foldM (visit_line th) (page_lines p) st); cbn [bind];
    [apply IH|reflexivity].
Qed.

(** The page loop of [extract_outline_from_pdf] is one pass over the
    reading order. *)
Lemma page_loop_reading_order (th : Thresholds) (document : Document)
    (st : Builder) :
  foldM (process_page th) (enumerate document) st =
  foldM (visit_line th) (reading_order document) st.
Proof. apply foldM_pages. Qed.

(** What one line does to the builder. *)
Lemma process_line_cases (th : Thresholds) (page_num : Z) (st st' : Builder)
    (line : Line) :
  process_line th page_num st line = Ok st' ->
  st' = st \/ exists lv, st' = add_heading st lv (line_text line) page_num.
Proof.
  unfold process_line.
  destruct (PyStr.is_empty (line_text line)); [intros [= <-]; now left|].
  destruct (spans line) as [|first_span rest]; [discriminate|].
  destruct (is_heading_candidate _ _ _ _ _ _ _) as [[|]|]; cbn [bind negb];
    [|intros [= <-]; now left|discriminate].
  destruct (known_section_level _ _ _ _) as [[lv|]|]; cbn [bind];
    [|intros [= <-]; now left|discriminate].
  intros [= <-]. right. now exists lv.
Qed.

Lemma add_heading_cases (st : Builder) (lv full_line_text : string)
    (page_num : Z) :
  let e := {| h_level := lv; h_text := full_line_text;
              h_page := page_num + 1 |} in
  (add_heading st lv full_line_text page_num = st
   /\ b_outline st <> [] /\ last_added_heading st = e)
  \/ (add_heading st lv full_line_text page_num =
      {| b_outline := b_outline st ++ [e]; last_added_heading := e |}
      /\ (b_outline st = [] \/ last_added_heading st <> e)).
Proof.
  intros e. unfold add_heading.
  destruct (b_outline st) as [|h0 o] eqn:Eo; cbn [is_nil orb].
  - right. split; [reflexivity|now left].
  - destruct (String.eqb_spec full_line_text (h_text (last_added_heading st)))
      as [Et|Et]; cbn [negb orb].
    + destruct (String.eqb_spec lv (h_level (last_added_heading st)))
        as [El|El]; cbn [negb orb].
      * destruct (Z.eqb_spec (page_num + 1) (h_page (last_added_heading st)))
          as [Ep|Ep]; cbn [negb].
        -- left. split; [reflexivity|]. split; [discriminate|].
           destruct (last_added_heading st); cbn in *. subst. reflexivity.
        -- right. split; [reflexivity|]. right. intros E. apply Ep.
           rewrite E. reflexivity.
      * right. split; [reflexivity|]. right. intros E. apply El.
        rewrite E. reflexivity.
    + right. split; [reflexivity|]. right. intros E. apply Et.
      rewrite E. reflexivity.
Qed.

(* ================================================================== *)
(** * Order of the blocks *)

Lemma block_le_iff (a b : Block) :
  block_le a b = true <->
  (bbox_top a < bbox_top b
   \/ (bbox_top a == bbox_top b /\ bbox_left a <= bbox_left b))%Q.
Proof.
  unfold block_le.
  destruct (bbox_top a ?= bbox_top b)%Q eqn:E.
  - apply Qeq_alt in E. rewrite Qle_bool_iff. split.
    + intros H. right. now split.
    + intros [H|[_ H]]; [|exact H].
      rewrite E in H. now apply Qlt_irrefl in H.
  - apply Qlt_alt in E. split; [now left|reflexivity].
  - apply Qgt_alt in E. split; [discriminate|].
    intros [H|[H _]].
    + exfalso. apply (Qlt_irrefl (bbox_top a)). now apply Qlt_trans with (bbox_top b).
    + rewrite H in E. now apply Qlt_irrefl in E.
Qed.

Lemma block_le_total (a b : Block) : block_le a b = true \/ block_le b a = true.
Proof.
  rewrite !block_le_iff.
  destruct (Q_dec (bbox_top a) (bbox_top b)) as [[H|H]|H].
  - left. now left.
  - right. now left.
  - destruct (Qlt_le_dec (bbox_left b) (bbox_left a)) as [Hl|Hl].
    + right. right. split; [now symmetry|now apply Qlt_le_weak].
    + left. right. now split.
Qed.

Lemma block_le_trans (a b c : Block) :
  block_le a b = true -> block_le b c = true -> block_le a c = true.
Proof.
  rewrite !block_le_iff.
  intros [H1|[H1 H1']] [H2|[H2 H2']].
  - left. now apply Qlt_trans with (bbox_top b).
  - left. now rewrite <- H2.
  - left. now rewrite H1.
  - right. split; [now rewrite H1|now apply Qle_trans with (bbox_left b)].
Qed.

(** [blocks.sort(key=...)] leaves the blocks of the page, in the order of
    [(top, left)]. *)
Lemma sort_blocks_sorted (blocks : list Block) :
  StronglySorted (fun a b => block_le a b = true) (sort_blocks blocks)
  /\ Permutation (sort_blocks blocks) blocks.
Proof.
  split.
  - apply py_sort_sorted; [apply block_le_total|apply block_le_trans].
  - apply py_sort_perm.
Qed.

(* ================================================================== *)
(** * Subsequences *)

Lemma subsequence_refl {A : Type} (l : list A) : subsequence l l.
Proof. induction l; constructor; assumption. Qed.

Lemma subsequence_nil_l {A : Type} (l : list A) : subsequence [] l.
Proof. induction l; constructor; assumption. Qed.

Lemma subsequence_app {A : Type} (s1 l1 s2 l2 : list A) :
  subsequence s1 l1 -> subsequence s2 l2 -> subsequence (s1 ++ s2) (l1 ++ l2).
Proof.
  induction 1; intros H2; cbn.
  - exact H2.
  - apply subsequence_skip. auto.
  - apply subsequence_take. auto.
Qed.

Lemma subsequence_Forall {A : Type} (P : A -> Prop) (sub l : list A) :
  subsequence sub l -> Forall P l -> Forall P sub.
Proof.
  induction 1; intros HF; [constructor| |].
  - inversion HF; subst; auto.
  - inversion HF; subst; constructor; auto.
Qed.

Lemma subsequence_sorted {A : Type} (R : A -> A -> Prop) (sub l : list A) :
  subsequence sub l -> StronglySorted R l -> StronglySorted R sub.
Proof.
  induction 1; intros HS; [constructor| |].
  - inversion HS; subst; auto.
  - inversion HS; subst. constructor; [auto|].
    eapply subsequence_Forall; eassumption.
Qed.

(* ================================================================== *)
(** * Page indices along the reading order *)

Lemma enumerate_from_lower {A : Type} (start : Z) (l : list A) :
  Forall (fun p => start <= fst p) (enumerate_from start l).
Proof.
  revert start. induction l as [|x l IH]; intros start; cbn; constructor.
  - cbn. lia.
  - eapply Forall_impl; [|apply (IH (start + 1))]. cbn. intros; lia.
Qed.

Lemma page_lines_index (p : Z * Page) :
  Forall (fun x => fst x = fst p) (page_lines p).
Proof.
  unfold page_lines. apply Forall_flat_map. apply Forall_forall.
  intros b _. destruct (block_type b =? 0); [|constructor].
  apply Forall_map. apply Forall_forall. reflexivity.
Qed.

Lemma reading_order_from_sorted (start : Z) (document : Document) :
  StronglySorted (fun x y => fst x <= fst y)
    (flat_map page_lines (enumerate_from start document))
  /\ Forall (fun x => start <= fst x)
       (flat_map page_lines (enumerate_from start document)).
Proof.
  revert start. induction document as [|page document IH]; intros start.
  - cbn. split; constructor.
  - cbn [enumerate_from flat_map].
    destruct (IH (start + 1)) as [IHs IHl].
    pose proof (page_lines_index (start, page)) as Hp. cbn [fst] in Hp.
    split.
    + induction (page_lines (start, page)) as [|x xs IHx]; [exact IHs|].
      inversion Hp as [|? ? Hx Hxs]; subst. cbn. constructor; [auto|].
      apply Forall_app. split.
      * eapply Forall_impl; [|exact Hxs]. cbn. intros y Hy. lia.
      * eapply Forall_impl; [|exact IHl]. cbn. intros y Hy. lia.
    + apply Forall_app. split.
      * eapply Forall_impl; [|exact Hp]. cbn. intros y Hy. lia.
      * eapply Forall_impl; [|exact IHl]. cbn. intros y Hy. lia.
Qed.

Lemma reading_order_sorted (document : Document) :
  StronglySorted (fun x y => fst x <= fst y) (reading_order document).
Proof. apply (reading_order_from_sorted 0). Qed.

(* ================================================================== *)
(** * The builder along the reading order *)

Lemma add_heading_slot (st : Builder) (lv full_line_text : string)
    (page_num : Z) :
  last_is_slot st -> last_is_slot (add_heading st lv full_line_text page_num).
Proof.
  intros Hst.
  destruct (add_heading_cases st lv full_line_text page_num)
    as [(-> & _ & _)|(-> & _)]; [exact Hst|].
  right. cbn. now exists (b_outline st).
Qed.

Lemma visit_slot (th : Thresholds) (items : list (Z * Line)) (st st' : Builder) :
  foldM (visit_line th) items st = Ok st' -> last_is_slot st -> last_is_slot st'.
Proof.
  revert st. induction items as [|x items IH]; intros st; cbn.
  - intros [= <-]. auto.
  - unfold visit_line at 1.
    destruct (process_line th (fst x) st (snd x)) as [s1|] eqn:E; cbn [bind];
      [|discriminate].
    intros Hrest Hst. apply (IH s1 Hrest).
    destruct (process_line_cases _ _ _ _ _ E) as [->|[lv ->]]; [exact Hst|].
    now apply add_heading_slot.
Qed.

Lemma last_unique {A : Type} (f1 f2 : list A) (a b : A) :
  f1 ++ [a] = f2 ++ [b] -> a = b.
Proof.
  intros E. apply app_inj_tail in E. tauto.
Qed.

(** The entries added along the reading order come from lines of it, in
    its order. *)
Lemma visit_subsequence (th : Thresholds) (items : list (Z * Line))
    (st st' : Builder) :
  foldM (visit_line th) items st = Ok st' ->
  exists added picked,
    b_outline st' = b_outline st ++ added
    /\ subsequence picked items
    /\ Forall2 entry_of added picked.
Proof.
  revert st. induction items as [|x items IH]; intros st; cbn.
  - intros [= <-]. exists [], []. rewrite app_nil_r.
    repeat split; constructor.
  - unfold visit_line at 1.
    destruct (process_line th (fst x) st (snd x)) as [s1|] eqn:E; cbn [bind];
      [|discriminate].
    intros Hrest. destruct (IH s1 Hrest) as (added & picked & Ho & Hs & Hf).
    destruct (process_line_cases _ _ _ _ _ E) as [->|[lv ->]].
    + exists added, picked. repeat split; [assumption|now constructor|assumption].
    + destruct (add_heading_cases st lv (line_text (snd x)) (fst x))
        as [(Ea & _ & _)|(Ea & _)]; rewrite Ea in Ho.
      * exists added, picked.
        repeat split; [assumption|now constructor|assumption].
      * cbn [b_outline] in Ho. rewrite <- app_assoc in Ho.
        eexists (_ :: added), (x :: picked).
        split; [exact Ho|]. split; [now constructor|].
        constructor; [|assumption]. split; reflexivity.
Qed.

(** C5: in every state the page loop can reach, a classified heading is
    suppressed exactly when the outline is not empty and its last entry has
    the same text, level and page; otherwise the heading is appended and
    becomes the new last entry.  The slot is one for the whole document:
    "Appendix" twice in a row on page 3, in two blocks, gives one entry, and
    "Appendix" again on page 7 gives a second one. *)
Theorem consecutive_duplicates_suppressed :
  (forall (th : Thresholds) (items : list (Z * Line)) (st : Builder)
          (lv full_line_text : string) (page_num : Z),
      foldM (visit_line th) items initial_builder = Ok st ->
      let e := {| h_level := lv; h_text := full_line_text;
                  h_page := page_num + 1 |} in
      (add_heading st lv full_line_text page_num = st
       /\ exists front, b_outline st = front ++ [e])
      \/ (add_heading st lv full_line_text page_num =
          {| b_outline := b_outline st ++ [e]; last_added_heading := e |}
          /\ ~ exists front, b_outline st = front ++ [e]))
  /\ extract_outline_from_pdf appendix_document "input_pdfs/notes.pdf" =
     Ok {| title := "Plain running text of the page.";
           outline := [ {| h_level := "H1"; h_text := "Appendix"; h_page := 3 |};
                        {| h_level := "H1"; h_text := "Appendix"; h_page := 7 |} ] |}.
Proof.
  split; [|vm_compute; reflexivity].
  intros th items st lv full_line_text page_num Hrun e.
  assert (Hslot : last_is_slot st).
  { apply (visit_slot th items initial_builder st Hrun). now left. }
  destruct (add_heading_cases st lv full_line_text page_num)
    as [(Ea & Hne & Hlast)|(Ea & Hdiff)]; fold e in Ea, Hlast || fold e in Ea, Hdiff.
  - left. split; [exact Ea|].
    destruct Hslot as [Hnil|[front Hfront]]; [contradiction|].
    exists front. rewrite Hfront. now rewrite Hlast.
  - right. split; [exact Ea|]. intros [front Hfront].
    destruct Hdiff as [Hnil|Hdiff].
    + rewrite Hnil in Hfront. now destruct front.
    + destruct Hslot as [Hnil|[front' Hfront']].
      * rewrite Hnil in Hfront. now destruct front.
      * apply Hdiff. rewrite Hfront in Hfront'.
        symmetry. eapply last_unique. eassumption.
Qed.

Lemma consecutive_duplicates_suppressed_witness :
  add_heading
    {| b_outline := [{| h_level := "H1"; h_text := "Appendix"; h_page := 3 |}];
       last_added_heading :=
         {| h_level := "H1"; h_text := "Appendix"; h_page := 3 |} |}
    "H1" "Appendix" 6 =
  {| b_outline := [{| h_level := "H1"; h_text := "Appendix"; h_page := 3 |};
                   {| h_level := "H1"; h_text := "Appendix"; h_page := 7 |}];
     last_added_heading :=
       {| h_level := "H1"; h_text := "Appendix"; h_page := 7 |} |}.
Proof.
  destruct (proj1 consecutive_duplicates_suppressed
              (determine_heading_thresholds [20])
              [(2, one_span_line "Appendix" 20 "Helvetica-Bold")]
              {| b_outline := [{| h_level := "H1"; h_text := "Appendix"; h_page := 3 |}];
                 last_added_heading :=
                   {| h_level := "H1"; h_text := "Appendix"; h_page := 3 |} |}
              "H1" "Appendix" 6 eq_refl) as [[_ [front H]]|[H _]].
  - reflexivity.
  - exact H.
Defined.

Lemma Forall2_entry_pages (added : list Heading) (picked : list (Z * Line)) :
  Forall2 entry_of added picked ->
  StronglySorted (fun x y => fst x <= fst y) picked ->
  StronglySorted (fun a b => h_page a <= h_page b) added.
Proof.
  induction 1 as [|h x added picked [_ Hp] HF IH]; intros HS; [constructor|].
  inversion HS as [|? ? HS' Hall]; subst. constructor; [auto|].
  clear IH HS HS'. induction HF as [|h' x' added picked [_ Hp'] HF IH'];
    [constructor|].
  inversion Hall; subst. constructor; [lia|auto].
Qed.

(* ================================================================== *)
(** * No overflow up to the largest double *)

Lemma of_int_defined (h : Z) :
  0 <= h <= Binary64.max_double -> exists f, Binary64.of_int h = Some f.
Proof.
  intros Hh. unfold Binary64.of_int, Binary64.round.
  destruct (h <? 0) eqn:E; [apply Z.ltb_lt in E; lia|]. clear E.
  unfold Binary64.round_pos, Binary64.prec, Binary64.emax.
  unfold Binary64.max_double in Hh.
  change (2 ^ 1024) with (2 ^ 53 * 2 ^ 971).
  assert (HP : 0 < 2 ^ 971) by (apply Z.pow_pos_nonneg; lia).
  assert (HP2 : forall s, 0 <= s <= 970 -> 2 * 2 ^ s <= 2 ^ 971).
  { intros s Hs. change 2 with (2 ^ 1) at 1. rewrite <- Z.pow_add_r by lia.
    apply Z.pow_le_mono_r; lia. }
  set (P := 2 ^ 971) in *.
  destruct (Z.log2 h + 1 - 53 <=? 0) eqn:Es; cbn [Binary64.Fnum Binary64.Fexp].
  - apply Z.leb_le in Es.
    replace (Z.abs h * 2 ^ 0) with h by (rewrite Z.abs_eq; lia).
    destruct (2 ^ 53 * P <=? h) eqn:E; [apply Z.leb_le in E; nia|eauto].
  - apply Z.leb_gt in Es. set (s := Z.log2 h + 1 - 53) in *.
    assert (Hpos : 0 < h).
    { destruct (Z.eq_dec h 0) as [E0|]; [exfalso|lia].
      unfold s in Es. rewrite E0 in Es. cbn in Es. lia. }
    destruct (Z.log2_spec h Hpos) as [Hlo Hhi].
    destruct (Binary64Facts.round_shift_spec h s (proj1 Hh) Es)
      as (q & r & Hqr & Hr & Hq' & Hdown).
    assert (HloX : 2 ^ 52 * 2 ^ s <= h).
    { rewrite <- Z.pow_add_r by lia.
      replace (52 + s) with (Z.log2 h) by lia. exact Hlo. }
    assert (HhiX : h < 2 ^ 53 * 2 ^ s).
    { rewrite <- Z.pow_add_r by lia.
      replace (53 + s) with (Z.succ (Z.log2 h)) by lia. exact Hhi. }
    assert (Hs971 : s <= 971).
    { destruct (Z.le_gt_cases s 971) as [|Hgt]; [assumption|exfalso].
      assert (2 * 2 ^ 971 <= 2 ^ s).
      { change 2 with (2 ^ 1) at 1. rewrite <- Z.pow_add_r by lia.
        apply Z.pow_le_mono_r; lia. }
      fold P in H. nia. }
    assert (HsP : s = 971 -> 2 ^ s = P) by (intros ->; reflexivity).
    specialize (HP2 s).
    replace (0 + s) with s by lia.
    set (X := 2 ^ s) in *.
    assert (Hq0 : 0 <= q) by nia.
    assert (Hq53 : q < 2 ^ 53) by nia.
    assert (Hv : Z.abs (Binary64.round_shift h s) * X < 2 ^ 53 * P).
    { rewrite Z.abs_eq by lia.
      destruct (Z.eq_dec s 971) as [E971|Hne].
      - rewrite (HsP E971) in *.
        destruct (Z.eq_dec q (2 ^ 53 - 1)) as [Eq|Hq].
        + rewrite Hdown by nia. nia.
        + destruct Hq' as [-> | ->]; nia.
      - assert (2 * X <= P) by (apply HP2; lia).
        destruct Hq' as [-> | ->]; nia. }
    destruct (2 ^ 53 * P <=? _) eqn:E; [apply Z.leb_le in E; lia|eauto].
Qed.

Lemma int_mul_float_defined (h : Z) (c : Binary64.float) :
  0 <= h <= Binary64.max_double -> exists t, int_mul_float h c = Ok t.
Proof.
  intros Hh. unfold int_mul_float.
  destruct (of_int_defined h Hh) as [f ->]. eauto.
Qed.

Lemma is_heading_candidate_defined (text : string) (font_size : Z)
    (font_name : string) (h1 h2 h3 body : Z) :
  0 <= h3 <= Binary64.max_double ->
  exists b, is_heading_candidate text font_size font_name h1 h2 h3 body = Ok b.
Proof.
  intros Hh3. unfold is_heading_candidate.
  destruct (_ || _); [eauto|].
  destruct (non_heading_pattern text); [eauto|].
  destruct (_ && _); [eauto|].
  destruct (int_mul_float_defined h3 Binary64.lit_0_9 Hh3) as [t ->].
  cbn [bind]. destruct (Binary64.int_lt font_size t); eauto.
Qed.

Lemma known_section_level_defined (level : option string) (text : string)
    (size h2 : Z) :
  0 <= h2 <= Binary64.max_double ->
  exists lv, known_section_level level text size h2 = Ok lv.
Proof.
  intros Hh2. unfold known_section_level, front_matter_keyword.
  destruct level; [eauto|].
  destruct (front_matter_name _); cbn [bind]; [eauto|].
  destruct (PyStr.contains "introduction" _); cbn [bind].
  - destruct (int_mul_float_defined h2 Binary64.lit_0_9 Hh2) as [t ->].
    cbn [bind]. destruct (Binary64.int_ge size t); [eauto|].
    destruct (back_matter_keyword _); eauto.
  - destruct (back_matter_keyword _); eauto.
Qed.

Lemma process_line_defined (th : Thresholds) (page_num : Z) (st : Builder)
    (line : Line) :
  0 <= h2_th th <= Binary64.max_double ->
  0 <= h3_th th <= Binary64.max_double ->
  exists st', process_line th page_num st line = Ok st'.
Proof.
  intros Hh2 Hh3. unfold process_line.
  destruct (PyStr.is_empty (line_text line)) eqn:E; [eauto|].
  destruct (spans line) as [|first_span rest] eqn:Es.
  - rewrite (line_text_no_spans line Es) in E. discriminate E.
  - destruct (is_heading_candidate_defined (line_text line)
                (span_size first_span) (PyStr.lower (span_font first_span))
                (h1_th th) (h2_th th) (h3_th th) (body_max_size th) Hh3)
      as [cand ->].
    cbn [bind]. destruct cand; cbn [negb]; [|eauto].
    destruct (known_section_level_defined
                (get_heading_level (span_size first_span)
                   (font_is_bold (PyStr.lower (span_font first_span)))
                   (h1_th th) (h2_th th) (h3_th th))
                (line_text line) (span_size first_span) (h2_th th) Hh2)
      as [lv ->].
    cbn [bind]. destruct lv; eauto.
Qed.

Lemma visit_defined (th : Thresholds) (items : list (Z * Line)) (st : Builder) :
  0 <= h2_th th <= Binary64.max_double ->
  0 <= h3_th th <= Binary64.max_double ->
  exists st', foldM (visit_line th) items st = Ok st'.
Proof.
  intros Hh2 Hh3. revert st.
  induction items as [|x items IH]; intros st; cbn; [eauto|].
  unfold visit_line at 1.
  destruct (process_line_defined th (fst x) st (snd x) Hh2 Hh3) as [s1 ->].
  cbn [bind]. apply IH.
Qed.

Lemma select_title_defined (h1 : Z) (cands : list Candidate) :
  0 <= h1 <= Binary64.max_double ->
  exists t, select_title h1 cands = Ok t.
Proof.
  intros Hh1. induction cands as [|c rest IH]; cbn [select_title]; [eauto|].
  destruct ((c_page c =? 0) && _).
  - destruct (int_mul_float_defined h1 Binary64.lit_0_8 Hh1) as [t ->].
    cbn [bind]. destruct (Binary64.int_ge (c_size c) t); [|exact IH].
    destruct (_ && _); [eauto|exact IH].
  - cbn [bind]. exact IH.
Qed.

Lemma extract_title_defined (document : Document) (h1 : Z) :
  0 <= h1 <= Binary64.max_double ->
  exists t, extract_title_from_document document h1 = Ok t.
Proof.
  intros Hh1. unfold extract_title_from_document.
  destruct (is_nil _); [eauto|].
  destruct (select_title_defined h1
              (py_sort title_le (potential_titles (scan_titles document))) Hh1)
    as [t ->].
  cbn [bind]. destruct t; [eauto|].
  destruct (py_sort title_le _) as [|top ?]; [eauto|].
  destruct (c_page top =? 0); eauto.
Qed.

(* ================================================================== *)
(** * The thresholds are sizes of the document *)

Lemma fold_left_invariant {S X : Type} (I : S -> Prop) (P : X -> Prop)
    (f : S -> X -> S) (l : list X) :
  (forall s x, I s -> P x -> I (f s x)) ->
  Forall P l -> forall s, I s -> I (fold_left f l s).
Proof.
  intros Hstep HF. induction HF as [|x l Hx HF IH]; intros s Hs; cbn; auto.
Qed.

Section UsageKeys.
Variable Q : Z -> Prop.

Lemma counter_add_keys (usage : Counter) (k n : Z) :
  keys_in Q usage -> Q k -> keys_in Q (counter_add usage k n).
Proof.
  intros Hu Hk. induction Hu as [|[k' v] usage Hkv Hu IH]; cbn.
  - repeat constructor. exact Hk.
  - destruct (k =? k'); constructor; auto.
Qed.

Lemma count_span_keys (usage : Counter) (span : Span) :
  keys_in Q usage -> Q (span_size span) -> keys_in Q (count_span usage span).
Proof.
  intros Hu Hs. unfold count_span.
  destruct (_ && _); [now apply counter_add_keys|exact Hu].
Qed.

Lemma font_size_usage_keys (document : Document) :
  (forall span, In span (spans_of document) -> Q (span_size span)) ->
  keys_in Q (font_size_usage document).
Proof.
  intros Hall. unfold font_size_usage.
  apply (fold_left_invariant (keys_in Q)
           (fun page : Page => forall block line span,
                In block page -> In line (block_lines block) ->
                In span (spans line) -> Q (span_size span))).
  - intros usage page Hu Hpage. unfold count_page.
    apply (fold_left_invariant (keys_in Q)
             (fun block => forall line span,
                  In line (block_lines block) ->
                  In span (spans line) -> Q (span_size span))); [| |exact Hu].
    + intros usage' block Hu' Hblock. unfold count_block.
      destruct (block_type block =? 0); [|exact Hu'].
      apply (fold_left_invariant (keys_in Q)
               (fun line => forall span,
                    In span (spans line) -> Q (span_size span)));
        [| |exact Hu'].
      * intros usage'' line Hu'' Hline. unfold count_line.
        apply (fold_left_invariant (keys_in Q) (fun span => Q (span_size span)));
          [| |exact Hu''].
        -- intros. now apply count_span_keys.
        -- apply Forall_forall. exact Hline.
      * apply Forall_forall. intros line Hin span. now apply Hblock.
    + apply Forall_forall. intros block Hin line span. now apply Hpage.
  - apply Forall_forall. intros page Hin block line span Hb Hl Hs.
    apply Hall. unfold spans_of.
    apply in_flat_map. exists page. split; [exact Hin|].
    apply in_flat_map. exists block. split; [exact Hb|].
    apply in_flat_map. exists line. now split.
  - constructor.
Qed.

Lemma rank_sizes_keys (usage : Counter) :
  keys_in Q usage -> Forall Q (rank_sizes usage).
Proof.
  intros Hu. unfold rank_sizes. apply Forall_map.
  eapply Permutation_Forall; [symmetry; apply py_sort_perm|].
  apply Forall_forall. intros kv Hin. apply filter_In in Hin.
  unfold keys_in in Hu. rewrite Forall_forall in Hu. now apply Hu.
Qed.
End UsageKeys.

Lemma thresholds_below (B : Z) (sorted_font_sizes : list Z) :
  24 < B ->
  Forall (fun fs => fs < B) sorted_font_sizes ->
  let th := determine_heading_thresholds sorted_font_sizes in
  0 <= h3_th th /\ h3_th th <= h2_th th /\ h2_th th <= h1_th th /\ h1_th th < B.
Proof.
  intros HB Hall th.
  destruct (clamp_thresholds_bounds
              (initial_thresholds (large_sizes sorted_font_sizes)))
    as (H12 & H23 & H3 & _).
  fold (determine_heading_thresholds sorted_font_sizes) in H12, H23, H3.
  fold th in H12, H23, H3.
  repeat split; try lia.
  subst th. unfold determine_heading_thresholds.
  assert (Hlarge : Forall (fun fs => fs < B) (large_sizes sorted_font_sizes)).
  { apply Forall_forall. intros fs Hin. apply filter_In in Hin.
    rewrite Forall_forall in Hall. now apply Hall. }
  rewrite initial_thresholds_match.
  destruct (large_sizes sorted_font_sizes) as [|a [|b [|c rest]]];
    unfold clamp_thresholds, BODY_TEXT_MAX_SIZE; cbn [h1_th];
    try (inversion Hlarge; subst); lia.
Qed.

(** The function returns for every document whose sizes are rounded finite
    doubles, that is integers up to the largest double: no exception is
    raised, the outline may be empty, and the title falls back to the file
    name when none is detected. *)
Lemma extract_outline_returns (document : Document) (pdf_path : string) :
  (forall span, In span (spans_of document) ->
                span_size span <= Binary64.max_double) ->
  exists r,
    extract_outline_from_pdf document pdf_path = Ok r
    /\ (extract_title_from_document document
          (h1_th (determine_heading_thresholds
                    (analyze_document_fonts document))) = Ok None ->
        title r = filename_title pdf_path).
Proof.
  intros Hall. unfold extract_outline_from_pdf.
  assert (Hth := thresholds_below (Binary64.max_double + 1)
                   (analyze_document_fonts document)).
  cbv zeta in Hth.
  set (th := determine_heading_thresholds (analyze_document_fonts document)) in *.
  destruct Hth as (H3 & H32 & H21 & H1).
  - reflexivity.
  - apply rank_sizes_keys. apply font_size_usage_keys.
    intros span Hin. specialize (Hall span Hin). lia.
  - destruct (extract_title_defined document (h1_th th)) as [found Ef]; [lia|].
    rewrite Ef. cbn [bind]. rewrite page_loop_reading_order.
    destruct (visit_defined th (reading_order document) initial_builder)
      as [st ->]; [lia|lia|].
    cbn [bind]. eexists. split; [reflexivity|].
    intros [= ->]. reflexivity.
Qed.

(** C9: the function returns normally for every document whose sizes are
    rounded finite doubles, with a possibly empty outline and, when no title
    is detected, the title made from the file name by [filename_title].  On
    the failing input, a document without text opened from
    "input_pdfs/REPORT.PDF", that title keeps the extension: "Report.Pdf",
    where "input_pdfs/my_report.pdf" gives "My Report". *)
Theorem uppercase_extension_kept :
  (forall (document : Document) (pdf_path : string),
      (forall span, In span (spans_of document) ->
                    span_size span <= Binary64.max_double) ->
      exists r,
        extract_outline_from_pdf document pdf_path = Ok r
        /\ (extract_title_from_document document
              (h1_th (determine_heading_thresholds
                        (analyze_document_fonts document))) = Ok None ->
            title r = filename_title pdf_path))
  /\ extract_outline_from_pdf [] "input_pdfs/REPORT.PDF" =
     Ok {| title := "Report.Pdf"; outline := [] |}
  /\ extract_outline_from_pdf [] "input_pdfs/my_report.pdf" =
     Ok {| title := "My Report"; outline := [] |}.
Proof.
  split; [exact extract_outline_returns|split; reflexivity].
Qed.

Lemma uppercase_extension_kept_witness :
  exists r,
    extract_outline_from_pdf [[]; []] "input_pdfs/REPORT.PDF" = Ok r
    /\ (extract_title_from_document [[]; []]
          (h1_th (determine_heading_thresholds
                    (analyze_document_fonts [[]; []]))) = Ok None ->
        title r = filename_title "input_pdfs/REPORT.PDF").
Proof.
  apply (proj1 uppercase_extension_kept [[]; []] "input_pdfs/REPORT.PDF").
  intros span Hin. destruct Hin.
Defined.

(* ================================================================== *)
(** * Title detection *)

Lemma title_le_iff (a b : Candidate) : title_le a b = true <-> ranks_before a b.
Proof.
  unfold title_le, title_key, key_le, ranks_before.
  destruct (c_bold a), (c_bold b);
    repeat match goal with
      | |- context [Z.eqb ?x ?y] => destruct (Z.eqb_spec x y); cbn [negb]
      end;
    rewrite ?Z.ltb_lt, ?Z.leb_le;
    intuition (try discriminate; try lia).
Qed.

Lemma title_le_total (a b : Candidate) : title_le a b = true \/ title_le b a = true.
Proof.
  rewrite !title_le_iff. unfold ranks_before.
  destruct (c_bold a), (c_bold b); intuition lia.
Qed.

Lemma title_le_trans (a b c : Candidate) :
  title_le a b = true -> title_le b c = true -> title_le a c = true.
Proof.
  rewrite !title_le_iff. unfold ranks_before.
  destruct (c_bold a), (c_bold b), (c_bold c);
    intuition (try discriminate; try lia).
Qed.

Lemma StronglySorted_weaken {A : Type} (R R' : A -> A -> Prop) (l : list A) :
  (forall a b, R a b -> R' a b) -> StronglySorted R l -> StronglySorted R' l.
Proof.
  intros Himp. induction 1 as [|x l Hl IH Hx]; constructor; [exact IH|].
  eapply Forall_impl; [|exact Hx]. auto.
Qed.

(** The selection loop returns the first line of the first candidate that
    passes the test, for a threshold in the range where the product is
    exact. *)
Lemma select_title_find (h1 : Z) (cands : list Candidate) :
  0 <= h1 < 2 ^ 49 ->
  select_title h1 cands =
  Ok (match find (passes_title_test h1) cands with
      | Some c => Some (first_line_of (c_text c))
      | None => None
      end).
Proof.
  intros Hh1. induction cands as [|c rest IH]; [reflexivity|].
  cbn [select_title find]. unfold passes_title_test at 1.
  destruct ((c_page c =? 0)
            && (2 <? Z.of_nat (List.length (PyStr.split (c_text c))))).
  - destruct (Binary64Facts.scale_0_8 h1 Hh1) as (t & -> & Ht). cbn [bind].
    unfold Binary64.int_ge. rewrite Ht, <- Z.leb_antisym. cbn [andb].
    destruct (8 * h1 <=? 10 * c_size c); cbn [andb]; [|exact IH].
    rewrite <- andb_assoc.
    destruct (negb (Re.re_match Re.pat_digits (c_text c))
              && (negb (PyStr.contains "contents" (PyStr.lower (c_text c)))
                  && negb (PyStr.contains "page" (PyStr.lower (c_text c)))));
      [reflexivity|exact IH].
  - cbn [bind andb]. exact IH.
Qed.

(* ================================================================== *)
(** * White space and [strip] *)

Lemma rstrip_empty_iff (s : string) :
  PyStr.rstrip s = "" <-> all_space s = true.
Proof.
  induction s as [|c s IH]; cbn; [tauto|].
  destruct (PyStr.isspace c); cbn.
  - destruct (PyStr.rstrip s) eqn:E; cbn.
    + split; [intros _; now apply IH|reflexivity].
    + split; [discriminate|]. intros H. apply IH in H. discriminate H.
  - split; discriminate.
Qed.

Lemma lstrip_all_space (s : string) :
  all_space (PyStr.lstrip s) = all_space s.
Proof.
  induction s as [|c s IH]; cbn; [reflexivity|].
  destruct (PyStr.isspace c) eqn:E; cbn; [exact IH|].
  now rewrite E.
Qed.

Lemma strip_empty_iff (s : string) : PyStr.strip s = "" <-> all_space s = true.
Proof.
  unfold PyStr.strip. rewrite rstrip_empty_iff. now rewrite lstrip_all_space.
Qed.

Lemma lstrip_head (s : string) :
  PyStr.lstrip s = ""
  \/ exists c t, PyStr.lstrip s = String c t /\ PyStr.isspace c = false.
Proof.
  induction s as [|c s IH]; cbn; [now left|].
  destruct (PyStr.isspace c) eqn:E; [exact IH|]. right. eauto.
Qed.

Lemma rstrip_idem (s : string) : PyStr.rstrip (PyStr.rstrip s) = PyStr.rstrip s.
Proof.
  induction s as [|c s IH]; cbn; [reflexivity|].
  destruct (PyStr.isspace c && PyStr.is_empty (PyStr.rstrip s)) eqn:E;
    [reflexivity|].
  cbn. rewrite IH, E. reflexivity.
Qed.

Lemma rstrip_head (c : ascii) (t : string) :
  PyStr.isspace c = false ->
  PyStr.rstrip (String c t) = String c (PyStr.rstrip t).
Proof. intros E. cbn. now rewrite E. Qed.

(** A stripped text is empty or starts with a character that is not white
    space. *)
Lemma strip_head (s : string) :
  PyStr.strip s = ""
  \/ exists c t, PyStr.strip s = String c t /\ PyStr.isspace c = false.
Proof.
  unfold PyStr.strip.
  destruct (lstrip_head s) as [->|(c & t & -> & E)]; [now left|].
  right. rewrite (rstrip_head c t E). eauto.
Qed.

Lemma strip_idem (s : string) : PyStr.strip (PyStr.strip s) = PyStr.strip s.
Proof.
  destruct (strip_head s) as [->|(c & t & E & Hc)]; [reflexivity|].
  unfold PyStr.strip at 1. rewrite E. cbn [PyStr.lstrip]. rewrite Hc.
  rewrite <- E. unfold PyStr.strip. apply rstrip_idem.
Qed.

Lemma all_space_app (a b : string) :
  all_space (a ++ b) = all_space a && all_space b.
Proof.
  induction a as [|c a IH]; cbn; [reflexivity|].
  now rewrite IH, andb_assoc.
Qed.

Lemma all_space_join (parts : list string) :
  Forall (fun p => all_space p = true) parts ->
  all_space (PyStr.join " " parts) = true.
Proof.
  unfold PyStr.join.
  induction 1 as [|p parts Hp HF IH]; [reflexivity|].
  cbn [String.concat]. destruct parts as [|q parts]; [exact Hp|].
  rewrite !all_space_app, Hp. cbn. exact IH.
Qed.

(* ================================================================== *)
(** * The names of the special check *)

Lemma front_matter_name_spec (s : string) :
  front_matter_name s =
  contains_any ["table of contents"; "list of figures"; "list of tables";
                "acknowledgements"; "foreword"; "preface"] s.
Proof.
  unfold front_matter_name, contains_any. cbn [existsb].
  rewrite orb_false_r, !orb_assoc. reflexivity.
Qed.

Lemma back_matter_keyword_spec (s : string) :
  back_matter_keyword s =
  contains_any ["references"; "bibliography"; "appendix"; "glossary"; "index"] s.
Proof.
  unfold back_matter_keyword, contains_any. cbn [existsb].
  rewrite orb_false_r, !orb_assoc. reflexivity.
Qed.

Lemma font_is_bold_spec (font_name : string) :
  font_is_bold (PyStr.lower font_name) = bold_font font_name.
Proof.
  unfold font_is_bold, bold_font, contains_any. cbn [existsb].
  rewrite orb_false_r, !orb_assoc. reflexivity.
Qed.

Lemma section_keyword_spec (s : string) :
  section_keyword s =
  front_matter_name s || PyStr.contains "introduction" s
  || back_matter_keyword s.
Proof.
  unfold section_keyword, front_matter_name, back_matter_keyword, contains_any.
  cbn [existsb]. rewrite orb_false_r, !orb_assoc. reflexivity.
Qed.

(** C3: for a line that passes the filter and gets no level from
    [get_heading_level], the line becomes an H1 heading exactly when its
    lowered text contains "table of contents", "list of figures", "list of
    tables", "acknowledgements", "foreword" or "preface", or contains
    "introduction" and has a size of at least 0.9 * h2, or contains
    "references", "bibliography", "appendix", "glossary" or "index";
    otherwise the builder is left as it is. *)
Theorem known_section_override :
  forall (th : Thresholds) (page_num : Z) (st : Builder) (line : Line)
         (first_span : Span) (rest : list Span),
    spans line = first_span :: rest ->
    0 <= h2_th th < 2 ^ 49 ->
    is_heading_candidate (line_text line) (span_size first_span)
      (PyStr.lower (span_font first_span))
      (h1_th th) (h2_th th) (h3_th th) (body_max_size th) = Ok true ->
    get_heading_level (span_size first_span)
      (font_is_bold (PyStr.lower (span_font first_span)))
      (h1_th th) (h2_th th) (h3_th th) = None ->
    let lower_text := PyStr.lower (line_text line) in
    process_line th page_num st line =
    Ok (if contains_any ["table of contents"; "list of figures";
                         "list of tables"; "acknowledgements"; "foreword";
                         "preface"] lower_text
           || (PyStr.contains "introduction" lower_text
               && (9 * h2_th th <=? 10 * span_size first_span))
           || contains_any ["references"; "bibliography"; "appendix";
                            "glossary"; "index"] lower_text
        then add_heading st "H1" (line_text line) page_num
        else st).
Proof.
  intros th page_num st line first_span rest Es Hh2 Hcand Hlevel lower_text.
  rewrite <- front_matter_name_spec, <- back_matter_keyword_spec.
  unfold process_line. rewrite Es.
  destruct (PyStr.is_empty (line_text line)) eqn:E.
  - unfold is_heading_candidate in Hcand. rewrite E in Hcand. discriminate Hcand.
  - rewrite Hcand, Hlevel. cbn [bind negb].
    rewrite (known_section_level_none _ _ _ Hh2). cbv zeta. cbn [bind].
    fold lower_text.
    destruct (front_matter_name lower_text
              || (PyStr.contains "introduction" lower_text
                  && (9 * h2_th th <=? 10 * span_size first_span))
              || back_matter_keyword lower_text); reflexivity.
Qed.

Lemma known_section_override_witness :
  (process_line (determine_heading_thresholds []) 0 initial_builder
     (plain_line "Table of Contents" 13)
   = Ok (one_h1_entry "Table of Contents")
   /\ process_line (determine_heading_thresholds []) 0 initial_builder
        (plain_line "List of Figures" 13)
      = Ok (one_h1_entry "List of Figures")
   /\ process_line (determine_heading_thresholds []) 0 initial_builder
        (plain_line "List of Tables" 13)
      = Ok (one_h1_entry "List of Tables")
   /\ process_line (determine_heading_thresholds []) 0 initial_builder
        (plain_line "Acknowledgements" 13)
      = Ok (one_h1_entry "Acknowledgements")
   /\ process_line (determine_heading_thresholds []) 0 initial_builder
        (plain_line "Foreword" 13)
      = Ok (one_h1_entry "Foreword")
   /\ process_line (determine_heading_thresholds []) 0 initial_builder
        (plain_line "Preface" 13)
      = Ok (one_h1_entry "Preface"))
  /\ (process_line (determine_heading_thresholds []) 0 initial_builder
        (plain_line "Introduction" 17)
      = Ok (one_h1_entry "Introduction")
      /\ process_line (determine_heading_thresholds []) 0 initial_builder
           (plain_line "Introduction" 16)
         = Ok initial_builder
      /\ process_line (determine_heading_thresholds []) 0 initial_builder
           (plain_line "Preface and introduction" 13)
         = Ok (one_h1_entry "Preface and introduction"))
  /\ (process_line (determine_heading_thresholds []) 0 initial_builder
        (plain_line "References" 13)
      = Ok (one_h1_entry "References")
      /\ process_line (determine_heading_thresholds []) 0 initial_builder
           (plain_line "Bibliography" 13)
         = Ok (one_h1_entry "Bibliography")
      /\ process_line (determine_heading_thresholds []) 0 initial_builder
           (plain_line "Appendix" 13)
         = Ok (one_h1_entry "Appendix")
      /\ process_line (determine_heading_thresholds []) 0 initial_builder
           (plain_line "Glossary" 13)
         = Ok (one_h1_entry "Glossary")
      /\ process_line (determine_heading_thresholds []) 0 initial_builder
           (plain_line "Index" 13)
         = Ok (one_h1_entry "Index"))
  /\ process_line (determine_heading_thresholds []) 0 initial_builder
       (plain_line "Summary of findings" 13)
     = Ok initial_builder.
Proof.
  repeat match goal with |- _ /\ _ => split end;
    match goal with
    | |- process_line ?th ?p ?st (plain_line ?text ?size) = _ =>
        apply (known_section_override th p st (plain_line text size)
                 {| span_text := text; span_size := size;
                    span_font := "Times-Roman" |} []);
        [ reflexivity
        | vm_compute; split; [discriminate|reflexivity]
        | vm_compute; reflexivity
        | vm_compute; reflexivity ]
    end.
Defined.

(* ================================================================== *)
(** * The first line of a text, and a text without white space at its ends *)

Lemma first_line_spec (text : string) :
  first_line_is text (PyStr.first_line text).
Proof.
  unfold first_line_is.
  induction text as [|c text [IHo IHt]]; cbn [PyStr.first_line].
  - split; [reflexivity|now left].
  - destruct (Ascii.eqb c PyStr.newline) eqn:E.
    + apply Ascii.eqb_eq in E. subst c. split; [reflexivity|].
      right. exists text. reflexivity.
    + cbn [occurs]. rewrite (Ascii.eqb_sym PyStr.newline c), E, IHo.
      split; [reflexivity|].
      destruct IHt as [IHt|[rest IHt]].
      * left. now f_equal.
      * right. exists rest. cbn [append]. now f_equal.
Qed.

Lemma lstrip_split (s : string) :
  exists pre, s = (pre ++ PyStr.lstrip s)%string /\ all_space pre = true.
Proof.
  induction s as [|c s (pre & E & Hpre)]; cbn.
  - exists "". split; reflexivity.
  - destruct (PyStr.isspace c) eqn:Hc.
    + exists (String c pre). cbn. rewrite Hc, Hpre, <- E. split; reflexivity.
    + exists "". split; reflexivity.
Qed.

Lemma rstrip_split (s : string) :
  exists post, s = (PyStr.rstrip s ++ post)%string /\ all_space post = true.
Proof.
  induction s as [|c s (post & E & Hpost)]; cbn.
  - exists "". split; reflexivity.
  - destruct (PyStr.isspace c && PyStr.is_empty (PyStr.rstrip s)) eqn:Hc.
    + apply andb_true_iff in Hc as [Hc He].
      destruct (PyStr.rstrip s); [|discriminate]. cbn in E. subst post.
      exists (String c s). cbn. rewrite Hc, Hpost. split; reflexivity.
    + exists post. cbn. now rewrite <- E.
Qed.

Lemma rstrip_last (s u : string) (c : ascii) :
  PyStr.rstrip s = (u ++ String c "")%string -> PyStr.isspace c = false.
Proof.
  revert u. induction s as [|a s IH]; intros u; cbn.
  - destruct u; discriminate.
  - destruct (PyStr.isspace a && PyStr.is_empty (PyStr.rstrip s)) eqn:Ha.
    + destruct u; discriminate.
    + destruct u as [|b u]; cbn.
      * intros [= -> Hr]. rewrite Hr in Ha. cbn in Ha.
        now rewrite andb_true_r in Ha.
      * intros [= _ Hr]. exact (IH u Hr).
Qed.

Lemma strip_spec (s : string) : stripped_is s (PyStr.strip s).
Proof.
  split; [split|].
  - intros c u E. destruct (strip_head s) as [E'|(c' & t & E' & Hc)];
      rewrite E' in E; [discriminate|]. now injection E as <- _.
  - intros u c E. unfold PyStr.strip in E. exact (rstrip_last _ _ _ E).
  - destruct (lstrip_split s) as (pre & E1 & Hpre).
    destruct (rstrip_split (PyStr.lstrip s)) as (post & E2 & Hpost).
    exists pre, post. split; [|now split].
    unfold PyStr.strip. now rewrite <- E2.
Qed.

Lemma first_line_of_spec (text : string) :
  first_line_stripped text (first_line_of text).
Proof.
  exists (PyStr.first_line text). split;
    [apply first_line_spec|apply strip_spec].
Qed.

(* ================================================================== *)
(** * The choice of the title *)

Lemma passes_title_test_iff (h1 : Z) (c : Candidate) :
  passes_title_test h1 c = true <-> good_title h1 c.
Proof.
  unfold passes_title_test, good_title.
  rewrite !andb_true_iff, !negb_true_iff, Z.eqb_eq, Z.ltb_lt, Z.leb_le.
  rewrite <- pat_digits_spec.
  destruct (Re.re_match Re.pat_digits (c_text c)); intuition congruence.
Qed.

Lemma find_split {A : Type} (f : A -> bool) (l : list A) :
  match find f l with
  | Some c => exists before after,
      l = before ++ c :: after
      /\ Forall (fun b => f b = false) before /\ f c = true
  | None => Forall (fun b => f b = false) l
  end.
Proof.
  induction l as [|a l IH]; cbn; [constructor|].
  destruct (f a) eqn:E.
  - exists [], l. repeat split; [constructor|exact E].
  - destruct (find f l) as [c|].
    + destruct IH as (before & after & -> & Hb & Hc).
      exists (a :: before), after. repeat split; [constructor|]; assumption.
    + constructor; assumption.
Qed.

Lemma not_good_title (h1 : Z) (l : list Candidate) :
  Forall (fun b => passes_title_test h1 b = false) l ->
  Forall (fun b => ~ good_title h1 b) l.
Proof.
  apply Forall_impl. intros b Hb Hgood.
  apply passes_title_test_iff in Hgood. congruence.
Qed.

(** The function follows the ranking made by its sort. *)
Lemma extract_title_by_rank (document : Document) (h1 : Z) :
  0 <= h1 < 2 ^ 49 ->
  extract_title_from_document document h1 =
  Ok (title_by_rank h1
        (py_sort title_le (potential_titles (scan_titles document)))).
Proof.
  intros Hh1. unfold extract_title_from_document, title_by_rank.
  destruct (potential_titles (scan_titles document)) as [|c0 found];
    [reflexivity|].
  cbn [is_nil]. rewrite (select_title_find h1 _ Hh1). cbn [bind].
  destruct (find _ _); [reflexivity|].
  destruct (py_sort title_le (c0 :: found)) as [|top ?]; [reflexivity|].
  destruct (c_page top =? 0); reflexivity.
Qed.

Lemma title_by_rank_choice (h1 : Z) (ranked : list Candidate) :
  title_choice h1 ranked (title_by_rank h1 ranked).
Proof.
  unfold title_by_rank. pose proof (find_split (passes_title_test h1) ranked) as H.
  destruct (find (passes_title_test h1) ranked) as [c|].
  - destruct H as (before & after & E & Hb & Hc).
    apply (choice_passing h1 ranked before c after); auto.
    + now apply not_good_title.
    + now apply passes_title_test_iff.
    + apply first_line_of_spec.
  - apply not_good_title in H. destruct ranked as [|top rest].
    + now apply choice_none_empty.
    + destruct (Z.eqb_spec (c_page top) 0) as [Hp|Hp].
      * apply (choice_top h1 _ top rest); auto. apply first_line_of_spec.
      * apply (choice_none_elsewhere h1 _ top rest); auto.
Qed.

(** C6: with the candidates ranked by (size descending, page index
    ascending, bold first, longer text first), the function returns the first
    line, without the white space at its ends, of the first candidate on page
    index 0 with more than two words, a size of at least 0.8 * h1 and a text
    that is not a bare integer and contains neither "contents" nor "page";
    if none passes, the first line of the top-ranked candidate when it is on
    page index 0; otherwise none. *)
Theorem title_selection :
  forall (document : Document) (h1_threshold : Z),
    0 <= h1_threshold < 2 ^ 49 ->
    exists (ranked : list Candidate) (found : option string),
      Permutation ranked (potential_titles (scan_titles document))
      /\ StronglySorted ranks_before ranked
      /\ extract_title_from_document document h1_threshold = Ok found
      /\ title_choice h1_threshold ranked found.
Proof.
  intros document h1 Hh1.
  exists (py_sort title_le (potential_titles (scan_titles document))).
  eexists. split; [apply py_sort_perm|]. split; [|split].
  - apply (StronglySorted_weaken (fun a b => title_le a b = true)).
    + intros a b. apply title_le_iff.
    + apply py_sort_sorted; [apply title_le_total|apply title_le_trans].
  - now apply extract_title_by_rank.
  - apply title_by_rank_choice.
Qed.

Lemma title_selection_witness :
  exists (ranked : list Candidate) (found : option string),
    Permutation ranked (potential_titles (scan_titles title_document))
    /\ StronglySorted ranks_before ranked
    /\ extract_title_from_document title_document 30 = Ok found
    /\ title_choice 30 ranked found.
Proof.
  apply (title_selection title_document 30).
  split; [discriminate|reflexivity].
Defined.

(* ================================================================== *)
(** * A text has one first line and one stripped form *)

Lemma first_line_is_unique (text line : string) :
  first_line_is text line -> line = PyStr.first_line text.
Proof.
  unfold first_line_is. revert text.
  induction line as [|c line IH]; intros text [Ho Ht].
  - destruct Ht as [->|[rest ->]]; reflexivity.
  - cbn [occurs] in Ho. apply orb_false_iff in Ho as [Hc Ho].
    rewrite Ascii.eqb_sym in Hc.
    destruct Ht as [->|[rest ->]]; cbn [append PyStr.first_line];
      rewrite Hc; f_equal; apply IH; split; auto.
    right. now exists rest.
Qed.

Lemma lstrip_spaces (pre s : string) :
  all_space pre = true -> PyStr.lstrip (pre ++ s) = PyStr.lstrip s.
Proof.
  induction pre as [|c pre IH]; cbn; [reflexivity|].
  intros H. apply andb_true_iff in H as [Hc Hpre]. now rewrite Hc, IH.
Qed.

Lemma rstrip_spaces (t post : string) :
  (forall u c, t = (u ++ String c "")%string -> PyStr.isspace c = false) ->
  all_space post = true -> PyStr.rstrip (t ++ post) = t.
Proof.
  intros Hend Hpost. induction t as [|a t IH]; cbn [append].
  - now apply rstrip_empty_iff.
  - cbn [PyStr.rstrip]. rewrite IH.
    + destruct t as [|b t]; cbn [PyStr.is_empty].
      * rewrite (Hend "" a eq_refl). reflexivity.
      * now rewrite andb_false_r.
    + intros u c E. apply (Hend (String a u) c). cbn. now rewrite E.
Qed.

Lemma stripped_is_unique (s t : string) :
  stripped_is s t -> t = PyStr.strip s.
Proof.
  intros [[Hhead Hend] (pre & post & -> & Hpre & Hpost)].
  unfold PyStr.strip. rewrite lstrip_spaces by exact Hpre.
  destruct t as [|c u].
  - cbn [append]. symmetry. apply rstrip_empty_iff.
    now rewrite lstrip_all_space.
  - cbn [append PyStr.lstrip]. rewrite (Hhead c u eq_refl).
    symmetry. apply (rstrip_spaces (String c u) post Hend Hpost).
Qed.

(** The relation [first_line_stripped] holds of one text only, the one
    the function computes. *)
Lemma first_line_stripped_iff (text t : string) :
  first_line_stripped text t <-> t = first_line_of text.
Proof.
  split.
  - intros (line & Hline & Ht). apply first_line_is_unique in Hline.
    apply stripped_is_unique in Ht. subst. reflexivity.
  - intros ->. apply first_line_of_spec.
Qed.

(* ================================================================== *)
(** * The order in which the lines are read *)

Lemma sort_blocks_top_left (blocks : list Block) :
  Permutation (sort_blocks blocks) blocks
  /\ StronglySorted top_left_le (sort_blocks blocks).
Proof.
  destruct (sort_blocks_sorted blocks) as [Hs Hp]. split; [exact Hp|].
  apply (StronglySorted_weaken (fun a b => block_le a b = true));
    [|exact Hs].
  intros a b. apply block_le_iff.
Qed.

Lemma arranged_sort_blocks (document : Document) :
  Forall2 (fun blocks page =>
             Permutation blocks page /\ StronglySorted top_left_le blocks)
    (map sort_blocks document) document.
Proof.
  induction document as [|page document IH]; cbn; constructor;
    [apply sort_blocks_top_left|exact IH].
Qed.

Lemma reading_order_arranged (document : Document) :
  reading_order document = lines_in_order (map sort_blocks document).
Proof.
  unfold reading_order, lines_in_order, enumerate. generalize 0.
  induction document as [|page document IH]; intros start; cbn; [reflexivity|].
  now rewrite IH.
Qed.

(** C8: the entries of the outline are in non-decreasing page order, and
    they are made, in order, from lines taken in this order: the pages by
    index, within a page the blocks arranged ascending by (top, left), that
    is by top coordinate and by left coordinate where the tops are equal,
    within a block the lines as they stand.  Nothing is sorted after
    assembly. *)
Theorem outline_in_reading_order :
  forall (document : Document) (pdf_path : string) (r : OutlineResult),
    extract_outline_from_pdf document pdf_path = Ok r ->
    StronglySorted (fun a b => h_page a <= h_page b) (outline r)
    /\ exists arranged : list (list Block),
        Forall2 (fun blocks page =>
                   Permutation blocks page
                   /\ StronglySorted top_left_le blocks)
          arranged document
        /\ exists picked : list (Z * Line),
            subsequence picked (lines_in_order arranged)
            /\ Forall2 entry_from (outline r) picked.
Proof.
  intros document pdf_path r. unfold extract_outline_from_pdf.
  destruct (extract_title_from_document _ _) as [found|]; cbn [bind];
    [|discriminate].
  rewrite page_loop_reading_order.
  destruct (foldM _ (reading_order document) initial_builder) as [st|] eqn:E;
    cbn [bind]; [|discriminate].
  intros [= <-]. cbn [outline].
  destruct (visit_subsequence _ _ _ _ E) as (added & picked & Ho & Hs & Hf).
  cbn in Ho. subst added.
  pose proof (reading_order_sorted document) as Hsorted.
  split.
  - eapply Forall2_entry_pages; [exact Hf|].
    eapply subsequence_sorted; eassumption.
  - exists (map sort_blocks document). split; [apply arranged_sort_blocks|].
    exists picked. rewrite <- reading_order_arranged. split; [exact Hs|].
    eapply Forall2_impl; [|exact Hf]. intros h x [Ht Hp].
    split; [|exact Hp]. rewrite Ht. apply strip_spec.
Qed.

Lemma outline_in_reading_order_witness :
  StronglySorted (fun a b => h_page a <= h_page b)
    [ {| h_level := "H1"; h_text := "Appendix"; h_page := 1 |};
      {| h_level := "H1"; h_text := "Glossary"; h_page := 1 |} ]
  /\ exists arranged : list (list Block),
      Forall2 (fun blocks page =>
                 Permutation blocks page
                 /\ StronglySorted top_left_le blocks)
        arranged unordered_page_document
      /\ exists picked : list (Z * Line),
          subsequence picked (lines_in_order arranged)
          /\ Forall2 entry_from
               [ {| h_level := "H1"; h_text := "Appendix"; h_page := 1 |};
                 {| h_level := "H1"; h_text := "Glossary"; h_page := 1 |} ]
               picked.
Proof.
  apply (outline_in_reading_order unordered_page_document
           "input_pdfs/notes.pdf"
           {| title := "Appendix";
              outline := [ {| h_level := "H1"; h_text := "Appendix"; h_page := 1 |};
                           {| h_level := "H1"; h_text := "Glossary"; h_page := 1 |} ] |}
           eq_refl).
Defined.

(* ================================================================== *)
(** * What the line loop adds to the outline *)

Lemma get_heading_level_values (font_size : Z) (is_bold : bool)
    (h1 h2 h3 : Z) (lv : string) :
  get_heading_level font_size is_bold h1 h2 h3 = Some lv -> heading_level lv.
Proof.
  unfold get_heading_level, heading_level.
  destruct (_ && _); [intros [= <-]; auto|].
  destruct (_ && _); [intros [= <-]; auto|].
  destruct (_ && _); [intros [= <-]; auto|discriminate].
Qed.

Lemma known_section_level_values (level : option string) (text : string)
    (size h2 : Z) (lv : string) :
  (forall l, level = Some l -> heading_level l) ->
  known_section_level level text size h2 = Ok (Some lv) -> heading_level lv.
Proof.
  intros Hlevel. unfold known_section_level.
  destruct level as [l|]; [intros [= <-]; now apply Hlevel|].
  destruct (front_matter_keyword _ _ _) as [[|]|]; cbn [bind];
    [intros [= <-]; left; reflexivity| |discriminate].
  destruct (back_matter_keyword _); [intros [= <-]; left; reflexivity|discriminate].
Qed.

Lemma candidate_length (text : string) (font_size : Z) (font_name : string)
    (h1 h2 h3 body : Z) :
  is_heading_candidate text font_size font_name h1 h2 h3 body = Ok true ->
  2 <= PyStr.len text /\ non_heading_pattern text = false.
Proof.
  unfold is_heading_candidate.
  destruct (PyStr.is_empty text || (PyStr.len text <? 2)) eqn:E; [discriminate|].
  destruct (non_heading_pattern text); [discriminate|]. intros _.
  apply orb_false_iff in E as [_ E]. apply Z.ltb_ge in E. now split.
Qed.

(** One line leaves the builder as it is, or hands a candidate text with
    one of the three levels to [add_heading]. *)
Lemma process_line_added (th : Thresholds) (page_num : Z) (st st' : Builder)
    (line : Line) :
  process_line th page_num st line = Ok st' ->
  st' = st
  \/ exists lv, heading_level lv /\ 2 <= PyStr.len (line_text line)
                /\ st' = add_heading st lv (line_text line) page_num.
Proof.
  unfold process_line.
  destruct (PyStr.is_empty (line_text line)); [intros [= <-]; now left|].
  destruct (spans line) as [|first_span rest]; [discriminate|].
  destruct (is_heading_candidate _ _ _ _ _ _ _) as [[|]|] eqn:Ec;
    cbn [bind negb]; [|intros [= <-]; now left|discriminate].
  apply candidate_length in Ec as [Hlen _].
  destruct (known_section_level _ _ _ _) as [[lv|]|] eqn:Ek; cbn [bind];
    [|intros [= <-]; now left|discriminate].
  intros [= <-]. right. exists lv. split; [|now split].
  eapply known_section_level_values; [|exact Ek].
  intros l Hl. eapply get_heading_level_values. exact Hl.
Qed.

Lemma visit_made (th : Thresholds) (items : list (Z * Line)) (st st' : Builder) :
  foldM (visit_line th) items st = Ok st' ->
  exists added,
    b_outline st' = b_outline st ++ added
    /\ Forall (fun h => exists x, In x items /\ entry_made_from h x) added.
Proof.
  revert st. induction items as [|x items IH]; intros st; cbn [foldM].
  - intros [= <-]. exists []. rewrite app_nil_r. split; [reflexivity|constructor].
  - unfold visit_line at 1.
    destruct (process_line th (fst x) st (snd x)) as [s1|] eqn:E; cbn [bind];
      [|discriminate].
    intros Hrest. destruct (IH s1 Hrest) as (added & Ho & Hf).
    assert (Hf' : Forall (fun h => exists y, In y (x :: items)
                                            /\ entry_made_from h y) added).
    { eapply Forall_impl; [|exact Hf]. intros h (y & Hy & Hm).
      exists y. split; [now right|exact Hm]. }
    destruct (process_line_added _ _ _ _ _ E) as [->|(lv & Hlv & Hlen & ->)].
    + exists added. now split.
    + destruct (add_heading_cases st lv (line_text (snd x)) (fst x))
        as [(Ea & _ & _)|(Ea & _)]; rewrite Ea in Ho.
      * exists added. now split.
      * cbn [b_outline] in Ho. rewrite <- app_assoc in Ho.
        eexists (_ :: added). split; [exact Ho|].
        constructor; [|exact Hf'].
        exists x. split; [now left|]. repeat split; assumption.
Qed.

(** The page loop, from the initial builder. *)
Lemma outline_of_result (document : Document) (pdf_path : string)
    (r : OutlineResult) :
  extract_outline_from_pdf document pdf_path = Ok r ->
  exists st,
    foldM (visit_line (determine_heading_thresholds
                         (analyze_document_fonts document)))
      (reading_order document) initial_builder = Ok st
    /\ outline r = b_outline st.
Proof.
  unfold extract_outline_from_pdf.
  destruct (extract_title_from_document _ _) as [found|]; cbn [bind];
    [|discriminate].
  rewrite page_loop_reading_order.
  destruct (foldM _ (reading_order document) initial_builder) as [st|];
    cbn [bind]; [|discriminate].
  intros [= <-]. now exists st.
Qed.

Lemma enumerate_from_bounds {A : Type} (start : Z) (l : list A) :
  Forall (fun p => start <= fst p < start + Z.of_nat (List.length l))
    (enumerate_from start l).
Proof.
  revert start. induction l as [|x l IH]; intros start; cbn [enumerate_from];
    constructor.
  - cbn. lia.
  - eapply Forall_impl; [|apply (IH (start + 1))]. cbn [List.length].
    intros p Hp. lia.
Qed.

Lemma reading_order_pages (document : Document) :
  Forall (fun x => 0 <= fst x < Z.of_nat (List.length document))
    (reading_order document).
Proof.
  unfold reading_order, enumerate. apply Forall_flat_map.
  eapply Forall_impl; [|apply (enumerate_from_bounds 0 document)].
  intros p Hp. eapply Forall_impl; [|apply page_lines_index].
  intros x Hx. cbn in Hx, Hp. rewrite Hx. lia.
Qed.

(** X1: every entry of a returned outline has level H1, H2 or H3, a text
    of two characters or more that is the stripped text of a line, and a
    page number between 1 and the number of pages. *)
Theorem outline_entries_well_formed :
  forall (document : Document) (pdf_path : string) (r : OutlineResult),
    extract_outline_from_pdf document pdf_path = Ok r ->
    Forall (fun h =>
              heading_level (h_level h)
              /\ 2 <= PyStr.len (h_text h)
              /\ PyStr.strip (h_text h) = h_text h
              /\ 1 <= h_page h <= Z.of_nat (List.length document))
      (outline r).
Proof.
  intros document pdf_path r Hr.
  destruct (outline_of_result _ _ _ Hr) as (st & Hst & ->).
  destruct (visit_made _ _ _ _ Hst) as (added & Ho & Hf).
  cbn in Ho. rewrite Ho.
  pose proof (reading_order_pages document) as Hpages.
  rewrite Forall_forall in Hpages.
  eapply Forall_impl; [|exact Hf].
  intros h (x & Hx & Ht & Hp & Hlv & Hlen).
  specialize (Hpages x Hx). repeat split; try assumption; try lia.
  rewrite Ht. unfold line_text. apply strip_idem.
Qed.

Lemma outline_entries_well_formed_witness :
  Forall (fun h =>
            heading_level (h_level h)
            /\ 2 <= PyStr.len (h_text h)
            /\ PyStr.strip (h_text h) = h_text h
            /\ 1 <= h_page h <= Z.of_nat (List.length appendix_document))
    [ {| h_level := "H1"; h_text := "Appendix"; h_page := 3 |};
      {| h_level := "H1"; h_text := "Appendix"; h_page := 7 |} ].
Proof.
  apply (outline_entries_well_formed appendix_document "input_pdfs/notes.pdf"
           {| title := "Plain running text of the page.";
              outline := [ {| h_level := "H1"; h_text := "Appendix"; h_page := 3 |};
                           {| h_level := "H1"; h_text := "Appendix"; h_page := 7 |} ] |}
           eq_refl).
Defined.

(* ================================================================== *)
(** * No repeated neighbours, and at most one entry per line *)

Lemma adjacent_distinct_snoc {A : Type} (l : list A) (e : A) :
  adjacent_distinct l ->
  (forall front a, l = front ++ [a] -> a <> e) ->
  adjacent_distinct (l ++ [e]).
Proof.
  induction l as [|x l IH]; intros Hl Hlast; [exact I|].
  destruct l as [|y l].
  - cbn. split; [|exact I]. now apply (Hlast [] x).
  - destruct Hl as [Hxy Hl]. change ((x :: y :: l) ++ [e])
      with (x :: ((y :: l) ++ [e])).
    cbn [adjacent_distinct app]. split; [exact Hxy|].
    apply IH; [exact Hl|].
    intros front a E. apply (Hlast (x :: front) a). cbn. now rewrite E.
Qed.

Lemma add_heading_distinct (st : Builder) (lv full_line_text : string)
    (page_num : Z) :
  last_is_slot st -> adjacent_distinct (b_outline st) ->
  adjacent_distinct (b_outline (add_heading st lv full_line_text page_num)).
Proof.
  intros Hslot Hd.
  destruct (add_heading_cases st lv full_line_text page_num)
    as [(-> & _ & _)|(-> & Hdiff)]; [exact Hd|].
  cbn [b_outline]. apply adjacent_distinct_snoc; [exact Hd|].
  intros front a E. destruct Hdiff as [Hnil|Hdiff].
  - rewrite Hnil in E. now destruct front.
  - destruct Hslot as [Hnil|[front' Hfront']].
    + rewrite Hnil in E. now destruct front.
    + rewrite E in Hfront'. apply last_unique in Hfront'. now subst a.
Qed.

Lemma visit_distinct (th : Thresholds) (items : list (Z * Line))
    (st st' : Builder) :
  foldM (visit_line th) items st = Ok st' ->
  last_is_slot st -> adjacent_distinct (b_outline st) ->
  adjacent_distinct (b_outline st').
Proof.
  revert st. induction items as [|x items IH]; intros st; cbn [foldM].
  - intros [= <-]. auto.
  - unfold visit_line at 1.
    destruct (process_line th (fst x) st (snd x)) as [s1|] eqn:E; cbn [bind];
      [|discriminate].
    intros Hrest Hslot Hd.
    destruct (process_line_cases _ _ _ _ _ E) as [->|[lv ->]].
    + now apply (IH st).
    + apply (IH _ Hrest).
      * now apply add_heading_slot.
      * now apply add_heading_distinct.
Qed.

(** X2: a returned outline never holds the same entry twice in a row. *)
Theorem outline_without_repeated_neighbours :
  forall (document : Document) (pdf_path : string) (r : OutlineResult),
    extract_outline_from_pdf document pdf_path = Ok r ->
    adjacent_distinct (outline r).
Proof.
  intros document pdf_path r Hr.
  destruct (outline_of_result _ _ _ Hr) as (st & Hst & ->).
  apply (visit_distinct _ _ _ _ Hst); [now left|exact I].
Qed.

Lemma outline_without_repeated_neighbours_witness :
  adjacent_distinct
    [ {| h_level := "H1"; h_text := "Appendix"; h_page := 3 |};
      {| h_level := "H1"; h_text := "Appendix"; h_page := 7 |} ].
Proof.
  apply (outline_without_repeated_neighbours appendix_document
           "input_pdfs/notes.pdf"
           {| title := "Plain running text of the page.";
              outline := [ {| h_level := "H1"; h_text := "Appendix"; h_page := 3 |};
                           {| h_level := "H1"; h_text := "Appendix"; h_page := 7 |} ] |}
           eq_refl).
Defined.

Lemma subsequence_length {A : Type} (sub l : list A) :
  subsequence sub l -> (List.length sub <= List.length l)%nat.
Proof. induction 1; cbn; lia. Qed.

Lemma page_lines_length (i : Z) (page : Page) :
  List.length (page_lines (i, page)) = List.length (text_lines [page]).
Proof.
  unfold page_lines, text_lines. cbn [fst snd flat_map]. rewrite app_nil_r.
  transitivity
    (List.length
       (flat_map (fun block =>
                    if block_type block =? 0
                    then map (fun line => (i, line)) (block_lines block)
                    else []) page)).
  - apply Permutation_length, Permutation_flat_map, py_sort_perm.
  - induction page as [|b page IH]; [reflexivity|].
    cbn [flat_map]. rewrite !length_app, IH. f_equal.
    destruct (block_type b =? 0); [apply length_map|reflexivity].
Qed.

Lemma reading_order_length (document : Document) :
  List.length (reading_order document) = List.length (text_lines document).
Proof.
  unfold reading_order, enumerate. generalize 0.
  induction document as [|page document IH]; intros start; [reflexivity|].
  cbn [enumerate_from flat_map]. rewrite length_app, IH, page_lines_length.
  unfold text_lines. cbn [flat_map]. rewrite app_nil_r, length_app.
  reflexivity.
Qed.

(** X3: a returned outline has at most one entry per line of the text
    blocks of the document. *)
Theorem outline_at_most_one_entry_per_line :
  forall (document : Document) (pdf_path : string) (r : OutlineResult),
    extract_outline_from_pdf document pdf_path = Ok r ->
    (List.length (outline r) <= List.length (text_lines document))%nat.
Proof.
  intros document pdf_path r Hr.
  destruct (outline_of_result _ _ _ Hr) as (st & Hst & ->).
  destruct (visit_subsequence _ _ _ _ Hst) as (added & picked & Ho & Hs & Hf).
  cbn in Ho. subst added.
  rewrite (Forall2_length Hf), <- reading_order_length.
  now apply subsequence_length.
Qed.

Lemma outline_at_most_one_entry_per_line_witness :
  (List.length
     [ {| h_level := "H1"; h_text := "Appendix"; h_page := 3 |};
       {| h_level := "H1"; h_text := "Appendix"; h_page := 7 |} ]
   <= List.length (text_lines appendix_document))%nat.
Proof.
  apply (outline_at_most_one_entry_per_line appendix_document
           "input_pdfs/notes.pdf"
           {| title := "Plain running text of the page.";
              outline := [ {| h_level := "H1"; h_text := "Appendix"; h_page := 3 |};
                           {| h_level := "H1"; h_text := "Appendix"; h_page := 7 |} ] |}
           eq_refl).
Defined.

(* ================================================================== *)
(** * A document without text *)

Lemma in_text_lines (document : Document) (page : Page) (block : Block)
    (line : Line) :
  In page document -> In block page -> block_type block = 0 ->
  In line (block_lines block) -> In line (text_lines document).
Proof.
  intros Hp Hb Ht Hl. unfold text_lines.
  apply in_flat_map. exists page. split; [exact Hp|].
  apply in_flat_map. exists block. split; [exact Hb|].
  rewrite Ht. exact Hl.
Qed.

Lemma in_text_spans (document : Document) (line : Line) (span : Span) :
  In line (text_lines document) -> In span (spans line) ->
  In span (text_spans document).
Proof.
  intros Hl Hs. unfold text_spans. apply in_flat_map. now exists line.
Qed.

Lemma in_firstn {A : Type} (n : nat) (l : list A) (x : A) :
  In x (firstn n l) -> In x l.
Proof.
  revert l. induction n as [|n IH]; intros [|y l]; cbn; try tauto.
  intros [<-|H]; [now left|right; auto].
Qed.

Lemma in_enumerate_from {A : Type} (start : Z) (l : list A) (p : Z * A) :
  In p (enumerate_from start l) -> In (snd p) l.
Proof.
  revert start. induction l as [|x l IH]; intros start; cbn; [tauto|].
  intros [<-|H]; [now left|right; eauto].
Qed.

Lemma in_reading_order (document : Document) (x : Z * Line) :
  In x (reading_order document) -> In (snd x) (text_lines document).
Proof.
  unfold reading_order, page_lines. intros H.
  apply in_flat_map in H as (p & Hp & H).
  apply in_flat_map in H as (b & Hb & H).
  apply in_enumerate_from in Hp.
  apply (Permutation_in _ (py_sort_perm block_le (snd p))) in Hb.
  destruct (block_type b =? 0) eqn:Et; [|destruct H].
  apply Z.eqb_eq in Et. apply in_map_iff in H as (line & <- & Hl).
  cbn [snd]. eapply in_text_lines; eassumption.
Qed.

Lemma foldM_unchanged {A S : Type} (f : S -> A -> result S) (l : list A) (s : S) :
  (forall x, In x l -> f s x = Ok s) -> foldM f l s = Ok s.
Proof.
  induction l as [|x l IH]; intros H; [reflexivity|].
  cbn [foldM]. rewrite (H x) by now left. cbn [bind].
  apply IH. intros y Hy. apply H. now right.
Qed.

Lemma fold_left_unchanged {A S : Type} (f : S -> A -> S) (l : list A) (s : S) :
  (forall x, In x l -> f s x = s) -> fold_left f l s = s.
Proof.
  induction l as [|x l IH]; intros H; [reflexivity|].
  cbn [fold_left]. rewrite (H x) by now left.
  apply IH. intros y Hy. apply H. now right.
Qed.

Section Textless.
Variable document : Document.
Hypothesis blank :
  forall span, In span (text_spans document) ->
               all_space (span_text span) = true.

Lemma blank_line_text (line : Line) :
  In line (text_lines document) -> line_text line = "".
Proof.
  intros Hl. unfold line_text. apply strip_empty_iff, all_space_join.
  apply Forall_map, Forall_forall. intros span Hs.
  apply blank. eapply in_text_spans; eassumption.
Qed.

Lemma blank_usage : font_size_usage document = [].
Proof.
  unfold font_size_usage. apply fold_left_unchanged. intros page Hp.
  unfold count_page. apply fold_left_unchanged. intros b Hb.
  unfold count_block. destruct (block_type b =? 0) eqn:Et; [|reflexivity].
  apply Z.eqb_eq in Et.
  apply fold_left_unchanged. intros line Hl.
  unfold count_line. apply fold_left_unchanged. intros span Hs.
  unfold count_span.
  assert (E : PyStr.strip (span_text span) = "").
  { apply strip_empty_iff, blank. eapply in_text_spans; [|exact Hs].
    eapply in_text_lines; eassumption. }
  rewrite E. cbn. now rewrite andb_false_r.
Qed.

Lemma blank_scan : potential_titles (scan_titles document) = [].
Proof.
  unfold scan_titles.
  rewrite fold_left_unchanged; [reflexivity|].
  intros p Hp. apply in_firstn, in_enumerate_from in Hp.
  unfold scan_page. apply fold_left_unchanged. intros b Hb.
  apply (Permutation_in _ (py_sort_perm block_le (snd p))) in Hb.
  unfold scan_block. destruct (block_type b =? 0) eqn:Et; [|reflexivity].
  apply Z.eqb_eq in Et.
  apply fold_left_unchanged. intros line Hl.
  unfold scan_line. apply fold_left_unchanged. intros span Hs.
  unfold scan_span.
  assert (E : PyStr.strip (span_text span) = "").
  { apply strip_empty_iff, blank. eapply in_text_spans; [|exact Hs].
    eapply in_text_lines; eassumption. }
  rewrite E. reflexivity.
Qed.

Lemma blank_outline (th : Thresholds) :
  foldM (visit_line th) (reading_order document) initial_builder
  = Ok initial_builder.
Proof.
  apply foldM_unchanged. intros x Hx. unfold visit_line, process_line.
  rewrite (blank_line_text (snd x)) by now apply in_reading_order.
  reflexivity.
Qed.
End Textless.

(** X4: when every span of the text blocks holds white space only (and so
    when there is no text block at all), the function returns an empty
    outline and the title made from the file name, whatever the sizes: the
    base name of the path with ".pdf" removed, "_" replaced by a space, and
    put in title case (for a path whose title case stays in the range
    0..255). *)
Theorem textless_document_result :
  forall (document : Document) (pdf_path : string),
    title_case_in_range pdf_path = true ->
    (forall span, In span (text_spans document) ->
                  all_space (span_text span) = true) ->
    extract_outline_from_pdf document pdf_path =
    Ok {| title :=
            PyStr.title
              (PyStr.replace "_" " "
                 (PyStr.replace ".pdf" "" (PyStr.basename pdf_path)));
          outline := [] |}.
Proof.
  intros document pdf_path _ Hblank. fold (filename_title pdf_path).
  unfold extract_outline_from_pdf.
  unfold extract_title_from_document.
  rewrite (blank_scan document Hblank). cbn [is_nil bind].
  rewrite page_loop_reading_order, (blank_outline document Hblank).
  reflexivity.
Qed.

Lemma textless_document_result_witness :
  extract_outline_from_pdf
    [[ text_block [one_span_line "   " 300 "Helvetica-Bold"] 10 ]]
    "input_pdfs/blank_pages.pdf"
  = Ok {| title := "Blank Pages"; outline := [] |}.
Proof.
  apply (textless_document_result
           [[ text_block [one_span_line "   " 300 "Helvetica-Bold"] 10 ]]
           "input_pdfs/blank_pages.pdf" eq_refl).
  intros span Hin. cbn in Hin. destruct Hin as [<-|[]]. reflexivity.
Defined.

(* ================================================================== *)
(** * More on the thresholds *)

Lemma large_sizes_above (sorted_font_sizes : list Z) :
  Forall (fun fs => 13 <= fs) (large_sizes sorted_font_sizes).
Proof.
  apply Forall_forall. intros fs H. apply filter_In in H as [_ H].
  unfold BODY_TEXT_MAX_SIZE in H. apply Z.ltb_lt in H. lia.
Qed.

Lemma large_sizes_fixed (l : list Z) :
  Forall (fun fs => 13 <= fs) l -> large_sizes l = l.
Proof.
  induction 1 as [|x l Hx _ IH]; [reflexivity|].
  unfold large_sizes in *. cbn [filter]. rewrite IH.
  replace (BODY_TEXT_MAX_SIZE <? x) with true; [reflexivity|].
  symmetry. apply Z.ltb_lt. unfold BODY_TEXT_MAX_SIZE. lia.
Qed.

Lemma Forall_firstn {A : Type} (P : A -> Prop) (n : nat) (l : list A) :
  Forall P l -> Forall P (firstn n l).
Proof.
  intros H. revert n. induction H as [|x l Hx _ IH]; intros [|n]; cbn;
    constructor; auto.
Qed.

(** The thresholds in terms of the sizes above 12, after the clamps. *)
Lemma thresholds_formula (sorted_font_sizes : list Z) :
  determine_heading_thresholds sorted_font_sizes =
  match large_sizes sorted_font_sizes with
  | a :: b :: c :: _ =>
      {| h1_th := Z.max a 14; h2_th := Z.min b a;
         h3_th := Z.min c (Z.min b a); body_max_size := 12 |}
  | [a; b] =>
      {| h1_th := Z.max a 14; h2_th := Z.min b a;
         h3_th := Z.min b a; body_max_size := 12 |}
  | [a] =>
      {| h1_th := Z.max a 14; h2_th := a; h3_th := a; body_max_size := 12 |}
  | [] => {| h1_th := 24; h2_th := 18; h3_th := 14; body_max_size := 12 |}
  end.
Proof.
  unfold determine_heading_thresholds. rewrite initial_thresholds_match.
  pose proof (large_sizes_above sorted_font_sizes) as H.
  destruct (large_sizes sorted_font_sizes) as [|a [|b [|c rest]]];
    [reflexivity| | |];
    repeat match goal with
      | H : Forall _ (_ :: _) |- _ => inversion H; subst; clear H
      end;
    unfold clamp_thresholds, BODY_TEXT_MAX_SIZE; f_equal; lia.
Qed.


(** X6: the thresholds depend on the three most used sizes above 12 only:
    sizes of 12 or less and sizes ranked after them change nothing. *)
Theorem thresholds_from_top_three :
  forall sorted_font_sizes : list Z,
    determine_heading_thresholds sorted_font_sizes =
    determine_heading_thresholds
      (firstn 3 (filter (fun fs => 12 <? fs) sorted_font_sizes)).
Proof.
  intros l. change (filter (fun fs => 12 <? fs) l) with (large_sizes l).
  unfold determine_heading_thresholds at 2.
  rewrite large_sizes_fixed
    by (apply Forall_firstn, large_sizes_above).
  unfold determine_heading_thresholds. f_equal.
  rewrite !initial_thresholds_match.
  destruct (large_sizes l) as [|a [|b [|c rest]]]; reflexivity.
Qed.

(* ================================================================== *)
(** * Levels by size *)

Lemma thresholds_ordered (sorted_font_sizes : list Z) :
  13 <= h3_th (determine_heading_thresholds sorted_font_sizes)
  /\ h3_th (determine_heading_thresholds sorted_font_sizes)
     <= h2_th (determine_heading_thresholds sorted_font_sizes)
  /\ h2_th (determine_heading_thresholds sorted_font_sizes)
     <= h1_th (determine_heading_thresholds sorted_font_sizes)
  /\ body_max_size (determine_heading_thresholds sorted_font_sizes) = 12.
Proof.
  rewrite thresholds_formula.
  pose proof (large_sizes_above sorted_font_sizes) as H.
  destruct (large_sizes sorted_font_sizes) as [|a [|b [|c rest]]];
    repeat match goal with
      | H : Forall _ (_ :: _) |- _ => inversion H; subst; clear H
      end;
    cbn [h1_th h2_th h3_th body_max_size]; repeat split; lia.
Qed.

(** X7: with the thresholds of any ranked size list, the level given by
    [get_heading_level] is H1 exactly for bold sizes from h1 up, H2 for bold
    sizes in [h2, h1), H3 for bold sizes in [h3, h2), and none otherwise; a
    size of 12 or less never gets a level, bold or not. *)
Theorem level_bands :
  forall (sorted_font_sizes : list Z) (font_size : Z) (is_bold : bool),
    let th := determine_heading_thresholds sorted_font_sizes in
    let lv := get_heading_level font_size is_bold
                (h1_th th) (h2_th th) (h3_th th) in
    (lv = Some "H1" <-> is_bold = true /\ h1_th th <= font_size)
    /\ (lv = Some "H2" <->
        is_bold = true /\ h2_th th <= font_size < h1_th th)
    /\ (lv = Some "H3" <->
        is_bold = true /\ h3_th th <= font_size < h2_th th)
    /\ (lv = None <-> is_bold = false \/ font_size < h3_th th)
    /\ (font_size <= 12 -> lv = None).
Proof.
  intros l font_size is_bold th lv. subst lv.
  destruct (thresholds_ordered l) as (H3 & H32 & H21 & _). fold th in H3, H32, H21.
  unfold get_heading_level.
  destruct (Z.leb_spec (h1_th th) font_size);
    destruct (Z.leb_spec (h2_th th) font_size);
    destruct (Z.leb_spec (h3_th th) font_size);
    destruct is_bold; cbn [andb];
    repeat split; intros; try discriminate; try lia; try tauto;
    try (exfalso; intuition (discriminate || lia)).
Qed.

(** The first three tests of the filter, in exact arithmetic. *)
Lemma candidate_length_test (text : string) :
  PyStr.is_empty text || (PyStr.len text <? 2) = false <-> 2 <= PyStr.len text.
Proof.
  destruct text as [|c text]; cbn [PyStr.is_empty orb].
  - split; [discriminate|]. unfold PyStr.len. cbn. lia.
  - rewrite Z.ltb_ge. reflexivity.
Qed.

(** X8: for a threshold h3 in [0, 2^49) the filter accepts a text exactly
    when it has two characters or more, matches none of the patterns, is
    bold or larger than the body maximum, and 10 * size >= 9 * h3: the
    binary64 product [h3_th * 0.9] decides as the exact 0.9 * h3 does. *)
Theorem candidate_exactly :
  forall (text : string) (font_size : Z) (font_name : string)
         (h1 h2 h3 body : Z),
    0 <= h3 < 2 ^ 49 ->
    (is_heading_candidate text font_size font_name h1 h2 h3 body = Ok true
     <-> 2 <= PyStr.len text
         /\ non_heading_pattern text = false
         /\ (bold_font font_name = true \/ body < font_size)
         /\ 9 * h3 <= 10 * font_size)
    /\ exists b,
        is_heading_candidate text font_size font_name h1 h2 h3 body = Ok b.
Proof.
  intros text font_size font_name h1 h2 h3 body Hh3.
  rewrite <- font_is_bold_spec.
  destruct (PyStr.is_empty text || (PyStr.len text <? 2)) eqn:Elen.
  - assert (E : is_heading_candidate text font_size font_name h1 h2 h3 body
                = Ok false)
      by (unfold is_heading_candidate; now rewrite Elen).
    rewrite E. split; [|eauto]. split; [discriminate|].
    intros (Hl & _). apply candidate_length_test in Hl. congruence.
  - destruct (non_heading_pattern text) eqn:Epat.
    + rewrite candidate_rejects_pattern by exact Epat.
      split; [|eauto]. split; [discriminate|]. intros (_ & Hp & _). discriminate.
    + rewrite (candidate_by_size _ _ _ _ _ _ _ Elen Epat Hh3).
      split; [|eauto]. apply candidate_length_test in Elen.
      destruct (font_is_bold (PyStr.lower font_name));
        destruct (Z.leb_spec font_size body);
        destruct (Z.leb_spec (9 * h3) (10 * font_size)); cbn [negb andb];
        (split;
         [ intros Hok; try discriminate Hok;
           repeat split; auto; try lia; (now left) || (right; lia)
         | intros (_ & _ & [Hb|Hb] & Hs);
           try reflexivity; try discriminate Hb; exfalso; lia ]).
Qed.

Lemma candidate_exactly_witness :
  0 <= 14 < 2 ^ 49
  /\ (is_heading_candidate "Scope" 13 "Times-Roman" 24 18 14 12 = Ok true
      <-> 2 <= PyStr.len "Scope"
          /\ non_heading_pattern "Scope" = false
          /\ (bold_font "Times-Roman" = true \/ 12 < 13)
          /\ 9 * 14 <= 10 * 13).
Proof.
  split; [lia|].
  apply (proj1 (candidate_exactly "Scope" 13 "Times-Roman" 24 18 14 12
                  ltac:(lia))).
Defined.

Lemma int_lt_monotone (n n' : Z) (t : Binary64.float) :
  n <= n' -> Binary64.int_lt n' t = true -> Binary64.int_lt n t = true.
Proof.
  unfold Binary64.int_lt. intros Hn.
  destruct (0 <=? Binary64.Fexp t); rewrite !Z.ltb_lt; [lia|].
  assert (0 <= 2 ^ (- Binary64.Fexp t)) by apply Z.pow_nonneg, Z.le_0_2 || (apply Z.pow_nonneg; lia).
  nia.
Qed.

(** X9: the filter is monotone in the font size: a text it accepts at
    one size it accepts at every larger size, the font and the thresholds
    being the same. *)
Theorem candidate_monotone_in_size :
  forall (text : string) (font_size larger : Z) (font_name : string)
         (h1 h2 h3 body : Z),
    is_heading_candidate text font_size font_name h1 h2 h3 body = Ok true ->
    font_size <= larger ->
    is_heading_candidate text larger font_name h1 h2 h3 body = Ok true.
Proof.
  intros text font_size larger font_name h1 h2 h3 body. unfold is_heading_candidate.
  destruct (_ || _); [discriminate|].
  destruct (non_heading_pattern text); [discriminate|].
  destruct (font_is_bold (PyStr.lower font_name)); cbn [negb andb].
  - destruct (int_mul_float h3 Binary64.lit_0_9) as [t|]; cbn [bind];
      [|discriminate].
    destruct (Binary64.int_lt font_size t) eqn:E; [discriminate|].
    intros _ Hle. destruct (Binary64.int_lt larger t) eqn:E'; [|reflexivity].
    rewrite (int_lt_monotone _ _ _ Hle E') in E. discriminate E.
  - destruct (Z.leb_spec font_size body); [discriminate|].
    destruct (int_mul_float h3 Binary64.lit_0_9) as [t|]; cbn [bind];
      [|discriminate].
    destruct (Binary64.int_lt font_size t) eqn:E; [discriminate|].
    intros _ Hle. destruct (Z.leb_spec larger body); [lia|].
    destruct (Binary64.int_lt larger t) eqn:E'; [|reflexivity].
    rewrite (int_lt_monotone _ _ _ Hle E') in E. discriminate E.
Qed.

Lemma candidate_monotone_in_size_witness :
  is_heading_candidate "Scope" 40 "Times-Roman" 24 18 14 12 = Ok true.
Proof.
  apply (candidate_monotone_in_size "Scope" 13 40 "Times-Roman" 24 18 14 12).
  - vm_compute. reflexivity.
  - lia.
Defined.

(* ================================================================== *)
(** * Which lines become entries *)

(** X10: with the thresholds of any ranked size list, a line whose first
    span is bold and of size at least h3, and whose text has two characters
    or more and matches none of the patterns, is handed to the builder with
    the level of its size band; the special check for section names does not
    change that level. *)
Theorem bold_line_level :
  forall (sorted_font_sizes : list Z) (page_num : Z) (st : Builder)
         (line : Line) (first_span : Span) (rest : list Span),
    let th := determine_heading_thresholds sorted_font_sizes in
    spans line = first_span :: rest ->
    bold_font (span_font first_span) = true ->
    2 <= PyStr.len (line_text line) ->
    non_heading_pattern (line_text line) = false ->
    h3_th th <= span_size first_span < 2 ^ 49 ->
    process_line th page_num st line =
    Ok (add_heading st
          (if h1_th th <=? span_size first_span then "H1"
           else if h2_th th <=? span_size first_span then "H2" else "H3")
          (line_text line) page_num).
Proof.
  intros l page_num st line first_span rest th Es Hbold Hlen Hpat Hsize.
  rewrite <- font_is_bold_spec in Hbold.
  destruct (thresholds_ordered l) as (H3 & H32 & H21 & Hbody).
  fold th in H3, H32, H21, Hbody.
  unfold process_line. rewrite Es.
  apply candidate_length_test in Hlen.
  assert (Hne : PyStr.is_empty (line_text line) = false)
    by (apply orb_false_iff in Hlen; tauto).
  rewrite Hne.
  rewrite (candidate_by_size _ _ _ _ _ _ _ Hlen Hpat) by lia.
  rewrite lower_idem, Hbold. cbn [negb andb].
  replace (9 * h3_th th <=? 10 * span_size first_span) with true
    by (symmetry; apply Z.leb_le; lia).
  cbn [bind negb]. unfold get_heading_level. rewrite !andb_true_r.
  destruct (h1_th th <=? span_size first_span); [reflexivity|].
  destruct (h2_th th <=? span_size first_span); [reflexivity|].
  replace (h3_th th <=? span_size first_span) with true
    by (symmetry; apply Z.leb_le; lia).
  reflexivity.
Qed.

Lemma bold_line_level_witness :
  process_line (determine_heading_thresholds [20; 16; 10]) 4 initial_builder
    (one_span_line "Scope and purpose" 17 "Arial-BoldMT")
  = Ok {| b_outline := [{| h_level := "H2"; h_text := "Scope and purpose";
                           h_page := 5 |}];
          last_added_heading := {| h_level := "H2";
                                   h_text := "Scope and purpose";
                                   h_page := 5 |} |}.
Proof.
  apply (bold_line_level [20; 16; 10] 4 initial_builder
           (one_span_line "Scope and purpose" 17 "Arial-BoldMT")
           {| span_text := "Scope and purpose"; span_size := 17;
              span_font := "Arial-BoldMT" |} []).
  - reflexivity.
  - reflexivity.
  - vm_compute. discriminate.
  - vm_compute. reflexivity.
  - vm_compute. split; [discriminate|reflexivity].
Defined.

Lemma no_keyword_no_override (text : string) (size h2 : Z) :
  section_keyword (PyStr.lower text) = false ->
  known_section_level None text size h2 = Ok None.
Proof.
  rewrite section_keyword_spec.
  unfold known_section_level, front_matter_keyword.
  intros H. apply orb_false_iff in H as [H Hback].
  apply orb_false_iff in H as [Hfront Hintro].
  rewrite Hfront, Hintro. cbn [bind]. now rewrite Hback.
Qed.

(** X11: with the thresholds of any ranked size list, a line changes the
    builder only if its text has two characters or more and matches none of
    the patterns, its first span is bold or larger than 12, and either the
    lowered text contains one of the twelve section names or the first span
    is bold and of size at least h3.  So a line that is not bold and of size
    12 or less never becomes an entry, whatever its text. *)
Theorem entry_requirements :
  forall (sorted_font_sizes : list Z) (page_num : Z) (st st' : Builder)
         (line : Line),
    let th := determine_heading_thresholds sorted_font_sizes in
    process_line th page_num st line = Ok st' ->
    st' <> st ->
    exists first_span rest,
      spans line = first_span :: rest
      /\ 2 <= PyStr.len (line_text line)
      /\ non_heading_pattern (line_text line) = false
      /\ (bold_font (span_font first_span) = true
          \/ 12 < span_size first_span)
      /\ (section_keyword (PyStr.lower (line_text line)) = true
          \/ (bold_font (span_font first_span) = true
              /\ h3_th th <= span_size first_span)).
Proof.
  intros l page_num st st' line th.
  destruct (thresholds_ordered l) as (H3 & H32 & H21 & Hbody).
  fold th in H3, H32, H21, Hbody.
  unfold process_line.
  destruct (PyStr.is_empty (line_text line)); [intros [= <-]; congruence|].
  destruct (spans line) as [|first_span rest]; [discriminate|].
  destruct (is_heading_candidate _ _ _ _ _ _ _) as [[|]|] eqn:Ec;
    cbn [bind negb]; [|intros [= <-]; congruence|discriminate].
  intros Hk Hne. exists first_span, rest. split; [reflexivity|].
  rewrite <- font_is_bold_spec.
  destruct (candidate_length _ _ _ _ _ _ _ Ec) as [Hlen Hpat].
  split; [exact Hlen|]. split; [exact Hpat|]. split.
  - unfold is_heading_candidate in Ec.
    destruct (_ || _); [discriminate|]. rewrite Hpat in Ec.
    rewrite lower_idem, Hbody in Ec.
    destruct (font_is_bold (PyStr.lower (span_font first_span)));
      [now left|right].
    cbn [negb andb] in Ec.
    destruct (Z.leb_spec (span_size first_span) 12); [discriminate|lia].
  - destruct (section_keyword (PyStr.lower (line_text line))) eqn:Ekw;
      [now left|right].
    destruct (get_heading_level _ _ _ _ _) as [lv|] eqn:El.
    + unfold get_heading_level in El.
      destruct (font_is_bold (PyStr.lower (span_font first_span)));
        [split; [reflexivity|]|rewrite !andb_false_r in El; discriminate].
      rewrite !andb_true_r in El.
      destruct (Z.leb_spec (h1_th th) (span_size first_span)); [lia|].
      destruct (Z.leb_spec (h2_th th) (span_size first_span)); [lia|].
      destruct (Z.leb_spec (h3_th th) (span_size first_span));
        [lia|discriminate].
    + rewrite (no_keyword_no_override _ _ _ Ekw) in Hk. cbn [bind] in Hk.
      injection Hk as <-. congruence.
Qed.

Lemma entry_requirements_witness :
  exists first_span rest,
    spans (one_span_line "References" 13 "Times-Roman") = first_span :: rest
    /\ 2 <= PyStr.len (line_text (one_span_line "References" 13 "Times-Roman"))
    /\ non_heading_pattern
         (line_text (one_span_line "References" 13 "Times-Roman")) = false
    /\ (bold_font (span_font first_span) = true
        \/ 12 < span_size first_span)
    /\ (section_keyword
          (PyStr.lower (line_text (one_span_line "References" 13 "Times-Roman")))
        = true
        \/ (bold_font (span_font first_span) = true
            /\ h3_th (determine_heading_thresholds []) <= span_size first_span)).
Proof.
  apply (entry_requirements [] 0 initial_builder
           (add_heading initial_builder "H1" "References" 0)
           (one_span_line "References" 13 "Times-Roman")).
  - vm_compute. reflexivity.
  - discriminate.
Defined.

(* ================================================================== *)
(** * Texts the patterns always reject *)

Lemma string_app_assoc (a b c : string) :
  ((a ++ b) ++ c)%string = (a ++ (b ++ c))%string.
Proof. induction a as [|x a IH]; cbn; [reflexivity|now rewrite IH]. Qed.

Lemma in_lang_re_match (r : Re.regex) (s : string) :
  in_lang r s -> Re.re_match r s = true.
Proof.
  intros H. unfold Re.re_match. apply matches_spec.
  rewrite <- (append_empty_r s).
  apply in_cat; [exact H|]. apply in_alt_r. constructor.
Qed.

Lemma star_space_spec (s : string) :
  all_space s = true -> in_lang (Re.Star Re.space) s.
Proof.
  induction s as [|c s IH]; cbn; [constructor|].
  intros H. apply andb_true_iff in H as [Hc Hs].
  apply (in_star_more Re.space (String c "") s); [now constructor|auto].
Qed.

Lemma plus_digit_spec (g : string) :
  g <> "" -> all_digits g = true -> in_lang (Re.Plus Re.digit) g.
Proof.
  destruct g as [|c g]; [congruence|]. intros _ H. cbn in H.
  apply andb_true_iff in H as [Hc Hg].
  apply (in_cat Re.digit (Re.Star Re.digit) (String c "") g);
    [now constructor|now apply star_digit_spec].
Qed.

Lemma star_roman_spec (s : string) :
  all_roman s = true -> in_lang (Re.Star Re.roman) s.
Proof.
  induction s as [|c s IH]; cbn [all_roman]; [constructor|].
  intros H. apply andb_true_iff in H as [Hc Hs].
  apply (in_star_more Re.roman (String c "") s); [now constructor|auto].
Qed.

Lemma concat_empty_cons (x : string) (l : list string) :
  String.concat "" (x :: l) = (x ++ String.concat "" l)%string.
Proof.
  destruct l as [|y l]; cbn [String.concat];
    [now rewrite append_empty_r|reflexivity].
Qed.

Lemma join_dot_cons (g : string) (rest : list string) :
  PyStr.join "." (g :: rest) =
  (g ++ String.concat "" (map (fun h => ("." ++ h)%string) rest))%string.
Proof.
  unfold PyStr.join. revert g. induction rest as [|h rest IH]; intros g.
  - cbn. now rewrite append_empty_r.
  - change (String.concat "." (g :: h :: rest))
      with (g ++ "." ++ String.concat "." (h :: rest))%string.
    rewrite (IH h). cbn [map]. rewrite concat_empty_cons.
    now rewrite string_app_assoc.
Qed.

Lemma dotted_groups_spec (rest : list string) :
  Forall (fun g => g <> "" /\ all_digits g = true) rest ->
  in_lang (Re.Star (Re.Cat (Re.Chr ".") (Re.Plus Re.digit)))
    (String.concat "" (map (fun h => ("." ++ h)%string) rest)).
Proof.
  induction 1 as [|g rest [Hne Hd] _ IH]; [constructor|].
  cbn [map]. rewrite concat_empty_cons.
  apply in_star_more; [|exact IH].
  apply (in_cat (Re.Chr ".") (Re.Plus Re.digit) "." g);
    [constructor; reflexivity|now apply plus_digit_spec].
Qed.

(** A text that matches a pattern is no candidate, and a line with such a
    text leaves the builder as it is. *)
Lemma pattern_never_entry (text : string) :
  non_heading_pattern text = true ->
  (forall font_size font_name h1 h2 h3 body,
      is_heading_candidate text font_size font_name h1 h2 h3 body = Ok false)
  /\ (forall th page_num st line,
         line_text line = text -> process_line th page_num st line = Ok st).
Proof.
  intros Hpat. split.
  - intros. now apply candidate_rejects_pattern.
  - intros th page_num st line E. apply process_line_rejected.
    intros. rewrite E. now apply candidate_rejects_pattern.
Qed.

(** X12: a text that is a numbering alone, groups of digits joined by
    full stops with white space before or after, as "7", "2.10" or
    " 1.2.3 ", is never a heading candidate and never becomes an entry,
    whatever the size, the font and the thresholds. *)
Theorem numbering_never_entry :
  forall (text pre post : string) (groups : list string),
    groups <> [] ->
    Forall (fun g => g <> "" /\ all_digits g = true) groups ->
    all_space pre = true -> all_space post = true ->
    text = (pre ++ PyStr.join "." groups ++ post)%string ->
    (forall font_size font_name h1 h2 h3 body,
        is_heading_candidate text font_size font_name h1 h2 h3 body = Ok false)
    /\ (forall th page_num st line,
           line_text line = text -> process_line th page_num st line = Ok st).
Proof.
  intros text pre post groups Hne Hgroups Hpre Hpost ->.
  apply pattern_never_entry. unfold non_heading_pattern.
  replace (Re.re_match Re.pat_number _) with true; [reflexivity|].
  symmetry. apply in_lang_re_match. unfold Re.pat_number.
  destruct groups as [|g rest]; [congruence|].
  inversion Hgroups as [|? ? [Hg Hd] Hrest]; subst.
  rewrite join_dot_cons, string_app_assoc.
  apply in_cat; [now apply star_space_spec|].
  apply in_cat; [now apply plus_digit_spec|].
  apply in_cat; [now apply dotted_groups_spec|now apply star_space_spec].
Qed.

Lemma numbering_never_entry_witness :
  is_heading_candidate " 2.10.4 " 40 "Arial-BoldMT" 24 18 14 12 = Ok false.
Proof.
  apply (proj1 (numbering_never_entry " 2.10.4 " " " " " ["2"; "10"; "4"]
                  ltac:(discriminate)
                  ltac:(repeat constructor; discriminate)
                  eq_refl eq_refl eq_refl)).
Defined.

(** X13: a text whose letters are all among i, v, x, l, c, d, m in
    either case, with or without a final full stop, as "XIV." but also
    "Mild", "Civil" or "Did", is never a heading candidate and never becomes
    an entry, whatever the size, the font and the thresholds. *)
Theorem roman_letters_never_entry :
  forall (text letters : string),
    letters <> "" ->
    all_roman letters = true ->
    PyStr.lower text = letters \/ PyStr.lower text = (letters ++ ".")%string ->
    (forall font_size font_name h1 h2 h3 body,
        is_heading_candidate text font_size font_name h1 h2 h3 body = Ok false)
    /\ (forall th page_num st line,
           line_text line = text -> process_line th page_num st line = Ok st).
Proof.
  intros text letters Hne Hroman Hlower.
  apply pattern_never_entry. unfold non_heading_pattern.
  replace (Re.re_match Re.pat_roman (PyStr.lower text)) with true;
    [now rewrite !orb_true_r|].
  symmetry. apply in_lang_re_match. unfold Re.pat_roman.
  assert (Hplus : in_lang (Re.Plus Re.roman) letters).
  { destruct letters as [|c r]; [congruence|]. cbn [all_roman] in Hroman.
    apply andb_true_iff in Hroman as [Hc Hr].
    apply (in_cat Re.roman (Re.Star Re.roman) (String c "") r);
      [now constructor|now apply star_roman_spec]. }
  destruct Hlower as [-> | ->].
  - rewrite <- (append_empty_r letters).
    apply in_cat; [exact Hplus|]. apply in_alt_r. constructor.
  - apply in_cat; [exact Hplus|]. apply in_alt_l. constructor. reflexivity.
Qed.

Lemma roman_letters_never_entry_witness :
  is_heading_candidate "Civil" 40 "Arial-BoldMT" 24 18 14 12 = Ok false.
Proof.
  apply (proj1 (roman_letters_never_entry "Civil" "civil"
                  ltac:(discriminate) eq_refl (or_introl eq_refl))).
Defined.

(* ================================================================== *)
(** * The ranking of the font sizes *)

Lemma fold_left_flat_map {A B S : Type} (f : S -> B -> S) (g : A -> list B)
    (l : list A) (s : S) :
  fold_left f (flat_map g l) s = fold_left (fun s x => fold_left f (g x) s) l s.
Proof.
  revert s. induction l as [|x l IH]; intros s; cbn; [reflexivity|].
  now rewrite fold_left_app, IH.
Qed.

Lemma fold_left_pointwise {A S : Type} (f g : S -> A -> S) (l : list A) (s : S) :
  (forall s x, f s x = g s x) -> fold_left f l s = fold_left g l s.
Proof.
  intros E. revert s. induction l as [|x l IH]; intros s; cbn;
    [reflexivity|]. now rewrite E, IH.
Qed.

(** The nested loops of the analysis visit the spans of the text blocks
    in the stored order. *)
Lemma font_size_usage_spans (document : Document) :
  font_size_usage document = fold_left count_span (text_spans document) [].
Proof.
  unfold font_size_usage, text_spans, text_lines.
  rewrite !fold_left_flat_map. apply fold_left_pointwise.
  intros s page. unfold count_page. rewrite fold_left_flat_map.
  apply fold_left_pointwise. intros s' block. unfold count_block.
  destruct (block_type block =? 0); reflexivity.
Qed.

Lemma counter_add_get (c : Counter) (k n k' : Z) :
  counter_get (counter_add c k n) k' =
  if k' =? k then counter_get c k + n else counter_get c k'.
Proof.
  induction c as [|[k0 v] c IH]; cbn.
  - destruct (k' =? k); reflexivity.
  - destruct (k =? k0) eqn:E; cbn.
    + apply Z.eqb_eq in E. subst k0.
      destruct (k' =? k); reflexivity.
    + rewrite IH. destruct (k' =? k0) eqn:E0; [|reflexivity].
      apply Z.eqb_eq in E0. subst k0.
      destruct (k' =? k) eqn:E1; [|reflexivity].
      apply Z.eqb_eq in E1. subst. rewrite Z.eqb_refl in E. discriminate.
Qed.

Lemma counter_add_key (c : Counter) (k n k' : Z) :
  In k' (map fst (counter_add c k n)) <-> k' = k \/ In k' (map fst c).
Proof.
  induction c as [|[k0 v] c IH]; cbn.
  - intuition.
  - destruct (k =? k0) eqn:E; cbn.
    + apply Z.eqb_eq in E. subst k0. intuition.
    + rewrite IH. intuition.
Qed.

Lemma counter_add_nodup (c : Counter) (k n : Z) :
  NoDup (map fst c) -> NoDup (map fst (counter_add c k n)).
Proof.
  induction c as [|[k0 v] c IH]; cbn; intros H.
  - repeat constructor. intros [].
  - inversion H as [|? ? Hnotin Hc]; subst.
    destruct (k =? k0) eqn:E; cbn; constructor; auto.
    rewrite counter_add_key. intros [->|Hin]; [|contradiction].
    rewrite Z.eqb_refl in E. discriminate.
Qed.

Lemma counter_get_in (c : Counter) (k v : Z) :
  NoDup (map fst c) -> In (k, v) c -> counter_get c k = v.
Proof.
  induction c as [|[k0 v0] c IH]; cbn; intros Hnd Hin; [contradiction|].
  destruct Hin as [E|Hin].
  - inversion E; subst. now rewrite Z.eqb_refl.
  - inversion Hnd as [|? ? Hnotin Hc]; subst.
    destruct (k =? k0) eqn:E; [|auto].
    apply Z.eqb_eq in E. subst k0. exfalso. apply Hnotin.
    change k with (fst (k, v)). now apply in_map.
Qed.

Lemma weight_in_snoc (l : list Span) (span : Span) (fs : Z) :
  weight_in (l ++ [span]) fs =
  weight_in l fs
  + (if counted span && (span_size span =? fs)
     then PyStr.len (PyStr.strip (span_text span)) else 0).
Proof.
  unfold weight_in. rewrite filter_app, map_app. cbn [filter].
  generalize (map (fun span0 => PyStr.len (PyStr.strip (span_text span0)))
                (filter (fun span0 => counted span0 && (span_size span0 =? fs)) l)).
  intros ws. induction ws as [|w ws IH]; cbn [app fold_right].
  - destruct (counted span && (span_size span =? fs)); cbn; lia.
  - rewrite IH. lia.
Qed.

(** What the counter holds after the spans [l], from the empty counter:
    no key twice, the keys are the sizes of the counted spans, and the count
    of a key is its weight. *)
Lemma usage_of_spans (l : list Span) :
  let usage := fold_left count_span l [] in
  NoDup (map fst usage)
  /\ (forall fs, In fs (map fst usage) <->
                 exists span, In span l /\ counted span = true
                              /\ span_size span = fs)
  /\ (forall fs, counter_get usage fs = weight_in l fs).
Proof.
  induction l as [|span l IH] using rev_ind; cbn zeta.
  - cbn. split; [constructor|]. split; [|reflexivity].
    intros fs. split; [intros []|intros (? & [] & _)].
  - rewrite fold_left_app. cbn [fold_left].
    destruct IH as (Hnd & Hkeys & Hget).
    set (usage := fold_left count_span l []) in *.
    unfold count_span. fold (counted span).
    destruct (counted span) eqn:Hc.
    + split; [now apply counter_add_nodup|]. split.
      * intros fs. rewrite counter_add_key, Hkeys. split.
        -- intros [->|(s & Hin & Hs & E)].
           ++ exists span. rewrite in_app_iff. cbn. auto.
           ++ exists s. rewrite in_app_iff. auto.
        -- intros (s & Hin & Hs & E). apply in_app_iff in Hin.
           destruct Hin as [Hin|[->|[]]]; [right; eauto|left; auto].
      * intros fs. rewrite counter_add_get, weight_in_snoc, Hc, !Hget.
        cbn [andb]. rewrite (Z.eqb_sym (span_size span) fs).
        destruct (fs =? span_size span) eqn:E; [|lia].
        apply Z.eqb_eq in E. now subst.
    + split; [exact Hnd|]. split.
      * intros fs. rewrite Hkeys. split.
        -- intros (s & Hin & Hs & E). exists s. rewrite in_app_iff. auto.
        -- intros (s & Hin & Hs & E). apply in_app_iff in Hin.
           destruct Hin as [Hin|[->|[]]]; [eauto|congruence].
      * intros fs. rewrite weight_in_snoc, Hc, Hget. cbn [andb]. lia.
Qed.

Lemma nodup_keys_filter (f : Z * Z -> bool) (c : Counter) :
  NoDup (map fst c) -> NoDup (map fst (filter f c)).
Proof.
  induction c as [|kv c IH]; cbn; intros H; [constructor|].
  inversion H as [|? ? Hnotin Hc]; subst.
  destruct (f kv); cbn; auto. constructor; auto.
  intros Hin. apply Hnotin. apply in_map_iff in Hin as (x & E & Hx).
  apply filter_In in Hx as [Hx _]. rewrite <- E. now apply in_map.
Qed.

Lemma rank_sizes_nodup (usage : Counter) :
  NoDup (map fst usage) -> NoDup (rank_sizes usage).
Proof.
  intros H. unfold rank_sizes.
  eapply Permutation_NoDup;
    [apply Permutation_map; symmetry; apply py_sort_perm|].
  now apply nodup_keys_filter.
Qed.

Lemma rank_sizes_in (usage : Counter) (fs : Z) :
  In fs (rank_sizes usage) <-> 9 < fs /\ In fs (map fst usage).
Proof.
  unfold rank_sizes. rewrite !in_map_iff. split.
  - intros (kv & E & Hin).
    apply (Permutation_in _ (py_sort_perm usage_ge _)) in Hin.
    apply filter_In in Hin as [Hin H9]. apply Z.ltb_lt in H9. subst fs.
    split; [exact H9|]. exists kv. auto.
  - intros (H9 & kv & E & Hin). exists kv. split; [exact E|].
    apply (Permutation_in _ (Permutation_sym (py_sort_perm usage_ge _))).
    apply filter_In. split; [exact Hin|]. apply Z.ltb_lt. now rewrite E.
Qed.

Lemma usage_ge_total (a b : Z * Z) : usage_ge a b = true \/ usage_ge b a = true.
Proof.
  unfold usage_ge.
  destruct (Z.lt_total (snd a) (snd b)) as [H|[H|H]].
  - right. apply orb_true_iff. left. now apply Z.ltb_lt.
  - destruct (Z.le_ge_cases (fst a) (fst b)) as [H'|H'].
    + right. apply orb_true_iff. right. apply andb_true_iff.
      split; [apply Z.eqb_eq; lia|now apply Z.leb_le].
    + left. apply orb_true_iff. right. apply andb_true_iff.
      split; [now apply Z.eqb_eq|now apply Z.leb_le].
  - left. apply orb_true_iff. left. now apply Z.ltb_lt.
Qed.

Lemma usage_ge_iff (a b : Z * Z) :
  usage_ge a b = true <->
  snd b < snd a \/ (snd a = snd b /\ fst b <= fst a).
Proof.
  unfold usage_ge.
  rewrite orb_true_iff, andb_true_iff, Z.ltb_lt, Z.eqb_eq, Z.leb_le.
  reflexivity.
Qed.

Lemma usage_ge_trans (a b c : Z * Z) :
  usage_ge a b = true -> usage_ge b c = true -> usage_ge a c = true.
Proof. rewrite !usage_ge_iff. lia. Qed.

Lemma StronglySorted_map_in {A B : Type} (R : A -> A -> Prop)
    (R' : B -> B -> Prop) (f : A -> B) (l : list A) :
  (forall a b, In a l -> In b l -> R a b -> R' (f a) (f b)) ->
  StronglySorted R l -> StronglySorted R' (map f l).
Proof.
  intros Himp H. induction H as [|x l Hl IH Hx]; cbn; [constructor|].
  constructor.
  - apply IH. intros a b Ha Hb. apply Himp; now right.
  - apply Forall_forall. intros y Hy. apply in_map_iff in Hy as (b & <- & Hb).
    rewrite Forall_forall in Hx. apply Himp; [now left|now right|auto].
Qed.

Lemma StronglySorted_nodup {A : Type} (R : A -> A -> Prop) (l : list A) :
  NoDup l -> StronglySorted R l ->
  StronglySorted (fun a b => R a b /\ a <> b) l.
Proof.
  intros Hnd H. induction H as [|x l Hl IH Hx]; [constructor|].
  inversion Hnd as [|? ? Hnotin Hnd']; subst. constructor; [auto|].
  rewrite Forall_forall in *. intros y Hy. split; [auto|].
  intros ->. contradiction.
Qed.

Lemma analyzed_sizes_nodup (document : Document) :
  NoDup (analyze_document_fonts document).
Proof.
  unfold analyze_document_fonts. rewrite font_size_usage_spans.
  apply rank_sizes_nodup. apply (usage_of_spans (text_spans document)).
Qed.

(** X14: the analysis returns, each once, the sizes above 9 that some span
    of a text block has with a positive size and a text that is not blank. *)
Theorem analyzed_sizes :
  forall document : Document,
    NoDup (analyze_document_fonts document)
    /\ forall fs : Z,
        In fs (analyze_document_fonts document) <->
        9 < fs /\ exists span, In span (text_spans document)
                               /\ counted span = true /\ span_size span = fs.
Proof.
  intros document. unfold analyze_document_fonts.
  rewrite font_size_usage_spans.
  destruct (usage_of_spans (text_spans document)) as (Hnd & Hkeys & _).
  split; [now apply rank_sizes_nodup|].
  intros fs. now rewrite rank_sizes_in, Hkeys.
Qed.

(** X15: the sizes are returned by decreasing weight, the weight of a size
    being the total length of the stripped texts of its spans, and by
    decreasing size where the weights are equal. *)
Theorem sizes_ranked_by_weight :
  forall document : Document,
    StronglySorted (outranks document) (analyze_document_fonts document).
Proof.
  intros document.
  apply (StronglySorted_weaken
           (fun a b => (size_weight document b < size_weight document a
                        \/ (size_weight document a = size_weight document b
                            /\ b <= a)) /\ a <> b)).
  { unfold outranks. intros a b. lia. }
  apply StronglySorted_nodup; [apply analyzed_sizes_nodup|].
  unfold analyze_document_fonts, rank_sizes.
  rewrite font_size_usage_spans.
  destruct (usage_of_spans (text_spans document)) as (Hnd & _ & Hget).
  set (usage := fold_left count_span (text_spans document) []) in *.
  apply (StronglySorted_map_in (fun a b => usage_ge a b = true));
    [|apply py_sort_sorted; [apply usage_ge_total|apply usage_ge_trans]].
  assert (Hw : forall kv, In kv (py_sort usage_ge
                                   (filter (fun kv => 9 <? fst kv) usage)) ->
                          snd kv = size_weight document (fst kv)).
  { intros [k v] Hin.
    apply (Permutation_in _ (py_sort_perm usage_ge _)) in Hin.
    apply filter_In in Hin as [Hin _]. cbn [fst snd].
    unfold size_weight. rewrite <- Hget. symmetry.
    now apply counter_get_in. }
  intros a b Ha Hb Hab. apply usage_ge_iff in Hab.
  rewrite <- (Hw a Ha), <- (Hw b Hb). exact Hab.
Qed.

(* ================================================================== *)
(** * The candidates for the title *)

Lemma fold_left_map {A B S : Type} (f : S -> B -> S) (g : A -> B)
    (l : list A) (s : S) :
  fold_left f (map g l) s = fold_left (fun s x => f s (g x)) l s.
Proof.
  revert s. induction l as [|x l IH]; intros s; cbn; [reflexivity|apply IH].
Qed.

(** The nested loops of the title scan visit [title_spans]. *)
Lemma scan_titles_spans (document : Document) :
  scan_titles document =
  fold_left (fun st x => scan_span (fst x) st (snd x)) (title_spans document)
    {| potential_titles := []; max_font_size_found := 0 |}.
Proof.
  unfold scan_titles, title_spans.
  rewrite fold_left_flat_map. apply fold_left_pointwise.
  intros s p. rewrite fold_left_map. unfold scan_page.
  rewrite !fold_left_flat_map. apply fold_left_pointwise.
  intros s' block. unfold scan_block.
  destruct (block_type block =? 0); reflexivity.
Qed.

Lemma largest_size_snoc (l : list (Z * Span)) (x : Z * Span) :
  largest_size (l ++ [x]) =
  if counted (snd x) then Z.max (span_size (snd x)) (largest_size l)
  else largest_size l.
Proof.
  assert (H0 : forall l', 0 <= largest_size l').
  { unfold largest_size. induction l' as [|a l' IH]; cbn [fold_right]; [lia|].
    destruct (counted (snd a)); lia. }
  induction l as [|a l IH].
  - cbn. destruct (counted (snd x)); reflexivity.
  - change (largest_size ((a :: l) ++ [x]))
      with (if counted (snd a)
            then Z.max (span_size (snd a)) (largest_size (l ++ [x]))
            else largest_size (l ++ [x])).
    change (largest_size (a :: l))
      with (if counted (snd a) then Z.max (span_size (snd a)) (largest_size l)
            else largest_size l).
    rewrite IH. destruct (counted (snd a)), (counted (snd x)); lia.
Qed.

Lemma largest_size_bound (l : list (Z * Span)) (x : Z * Span) :
  In x l -> counted (snd x) = true -> span_size (snd x) <= largest_size l.
Proof.
  unfold largest_size.
  induction l as [|a l IH]; cbn [fold_right In]; [intros []|].
  intros [->|Hin] Hc.
  - rewrite Hc. lia.
  - specialize (IH Hin Hc). destruct (counted (snd a)); lia.
Qed.

Lemma filter_none {A : Type} (f : A -> bool) (l : list A) :
  (forall x, In x l -> f x = false) -> filter f l = [].
Proof.
  induction l as [|a l IH]; cbn; intros H; [reflexivity|].
  rewrite (H a (or_introl eq_refl)). apply IH. auto.
Qed.

(** The scan keeps the largest size met so far and the counted spans of
    that size. *)
Lemma scan_spans_spec (l : list (Z * Span)) :
  let st := fold_left (fun st x => scan_span (fst x) st (snd x)) l
              {| potential_titles := []; max_font_size_found := 0 |} in
  max_font_size_found st = largest_size l
  /\ potential_titles st =
     map candidate_of
       (filter (fun x => counted (snd x)
                         && (span_size (snd x) =? largest_size l)) l).
Proof.
  induction l as [|x l IH] using rev_ind; cbn zeta; [split; reflexivity|].
  rewrite fold_left_app. cbn [fold_left].
  destruct IH as (Hmax & Htitles).
  set (st := fold_left _ l _) in *.
  rewrite largest_size_snoc, filter_app, map_app. cbn [filter].
  unfold scan_span. rewrite andb_comm. fold (counted (snd x)).
  destruct (counted (snd x)) eqn:Hc; cbn [andb].
  - rewrite Hmax. destruct (Z.ltb_spec (largest_size l) (span_size (snd x))) as [Hlt|Hge].
    + cbn [max_font_size_found potential_titles].
      replace (Z.max (span_size (snd x)) (largest_size l))
        with (span_size (snd x)) by lia.
      rewrite Z.eqb_refl. split; [reflexivity|].
      rewrite filter_none; [reflexivity|].
      intros y Hy. destruct (counted (snd y)) eqn:Hcy; [|reflexivity].
      cbn [andb]. apply Z.eqb_neq.
      pose proof (largest_size_bound l y Hy Hcy). lia.
    + replace (Z.max (span_size (snd x)) (largest_size l))
        with (largest_size l) by lia.
      destruct (Z.eqb_spec (span_size (snd x)) (largest_size l)) as [E|N].
      * cbn [max_font_size_found potential_titles].
        split; [reflexivity|]. rewrite Htitles.
        reflexivity.
      * split; [exact Hmax|]. rewrite Htitles. cbn [map].
        now rewrite app_nil_r.
  - split; [exact Hmax|]. rewrite Htitles. cbn [map]. now rewrite app_nil_r.
Qed.

Lemma potential_titles_largest (document : Document) :
  potential_titles (scan_titles document) =
  map candidate_of (largest_spans document).
Proof.
  rewrite scan_titles_spans. apply (scan_spans_spec (title_spans document)).
Qed.


(* ================================================================== *)
(** * The title of the result *)

Lemma first_line_of_strip (s : string) :
  PyStr.strip s <> "" -> first_line_of (PyStr.strip s) <> "".
Proof.
  intros Hne. destruct (strip_head s) as [E|(c & t & E & Hc)]; [contradiction|].
  rewrite E. unfold first_line_of. cbn [PyStr.first_line].
  destruct (Ascii.eqb_spec c PyStr.newline) as [->|_]; [discriminate Hc|].
  unfold PyStr.strip. cbn [PyStr.lstrip]. rewrite Hc.
  rewrite rstrip_head by exact Hc. discriminate.
Qed.

(** A title the selection loop returns is the first line of a candidate
    on page index 0. *)
Lemma select_title_some (h1 : Z) (cands : list Candidate) (t : string) :
  select_title h1 cands = Ok (Some t) ->
  exists c, In c cands /\ c_page c = 0 /\ t = first_line_of (c_text c).
Proof.
  induction cands as [|c rest IH]; cbn [select_title]; [discriminate|].
  intros H.
  assert (Hrest : select_title h1 rest = Ok (Some t) ->
                  exists c0, In c0 (c :: rest) /\ c_page c0 = 0
                             /\ t = first_line_of (c_text c0)).
  { intros H'. destruct (IH H') as (c0 & Hin & Hp & Ht).
    exists c0. split; [now right|auto]. }
  destruct (c_page c =? 0) eqn:Hp; cbn [andb] in H; [|now apply Hrest].
  apply Z.eqb_eq in Hp.
  destruct (2 <? Z.of_nat (List.length (PyStr.split (c_text c))));
    [|now apply Hrest].
  destruct (int_mul_float h1 Binary64.lit_0_8) as [p|e]; [|discriminate H].
  cbn [bind] in H. destruct (Binary64.int_ge (c_size c) p); [|now apply Hrest].
  destruct (_ && _) in H; [|now apply Hrest].
  injection H as <-. exists c. split; [now left|auto].
Qed.

(** What the title function returns, when it returns: the first line of
    one of the largest spans of page index 0, which is never empty, or
    nothing when none of the largest spans is on page index 0. *)
Lemma extract_title_cases (document : Document) (h1 : Z)
    (found : option string) :
  extract_title_from_document document h1 = Ok found ->
  match found with
  | Some t =>
      t <> "" /\ PyStr.strip t = t
      /\ exists x, In x (largest_spans document) /\ fst x = 0
                   /\ t = first_line_of (PyStr.strip (span_text (snd x)))
  | None => forall x, In x (largest_spans document) -> fst x <> 0
  end.
Proof.
  unfold extract_title_from_document.
  rewrite potential_titles_largest.
  remember (map candidate_of (largest_spans document)) as cands eqn:Ecands.
  assert (Hsome : forall c t,
             In c cands -> c_page c = 0 -> t = first_line_of (c_text c) ->
             t <> "" /\ PyStr.strip t = t
             /\ exists x, In x (largest_spans document) /\ fst x = 0
                          /\ t = first_line_of (PyStr.strip (span_text (snd x)))).
  { intros c t Hin Hp ->. rewrite Ecands in Hin.
    apply in_map_iff in Hin as (x & <- & Hx).
    cbn [candidate_of c_text c_page] in *. split; [|split].
    - apply first_line_of_strip. intros E.
      unfold largest_spans in Hx. apply filter_In in Hx as [_ Hsel].
      apply andb_true_iff in Hsel as [Hc _]. unfold counted in Hc.
      apply andb_true_iff in Hc as [_ Hc]. rewrite E in Hc. discriminate.
    - unfold first_line_of at 1 2. apply strip_idem.
    - exists x. auto. }
  destruct (is_nil cands) eqn:Enil.
  - intros [= <-]. intros x Hx.
    apply (in_map candidate_of) in Hx. rewrite <- Ecands in Hx.
    destruct cands; [contradiction|discriminate].
  - destruct (select_title h1 (py_sort title_le cands)) as [[t|]|e] eqn:Esel;
      cbn [bind]; [| |discriminate].
    + intros [= <-]. destruct (select_title_some _ _ _ Esel) as (c & Hin & Hp & Ht).
      apply (Permutation_in _ (py_sort_perm title_le cands)) in Hin.
      exact (Hsome c t Hin Hp Ht).
    + pose proof (py_sort_perm title_le cands) as Hperm.
      pose proof (py_sort_sorted title_le title_le_total title_le_trans cands)
        as Hsorted.
      destruct (py_sort title_le cands) as [|top sorted'] eqn:Esorted.
      { apply Permutation_nil in Hperm. rewrite Hperm in Enil.
        discriminate. }
      assert (Htop : In top cands).
      { apply (Permutation_in _ Hperm). now left. }
      destruct (Z.eqb_spec (c_page top) 0) as [Hp|Hp].
      * intros [= <-]. exact (Hsome top _ Htop Hp eq_refl).
      * intros [= <-]. intros x Hx Hx0.
        assert (Hin : In (candidate_of x) (top :: sorted')).
        { apply (Permutation_in _ (Permutation_sym Hperm)).
          rewrite Ecands. now apply in_map. }
        assert (Hfacts : forall c, In c cands ->
                   c_size c = largest_size (title_spans document)
                   /\ 0 <= c_page c).
        { intros c Hc. rewrite Ecands in Hc.
          apply in_map_iff in Hc as (y & <- & Hy).
          unfold largest_spans in Hy. apply filter_In in Hy as [Hy Hsel].
          apply andb_true_iff in Hsel as [_ Hsize]. apply Z.eqb_eq in Hsize.
          cbn [candidate_of c_size c_page]. split; [exact Hsize|].
          unfold title_spans in Hy. apply in_flat_map in Hy as (p & Hp' & Hy).
          apply in_map_iff in Hy as (s & <- & _). cbn [fst].
          apply in_firstn in Hp'.
          pose proof (enumerate_from_bounds 0 document) as Hb.
          rewrite Forall_forall in Hb. specialize (Hb p Hp'). lia. }
        destruct Hin as [E|Hin].
        -- apply Hp. rewrite E. exact Hx0.
        -- apply StronglySorted_inv in Hsorted as [_ Hall].
           rewrite Forall_forall in Hall. specialize (Hall _ Hin).
           apply title_le_iff in Hall. unfold ranks_before in Hall.
           destruct (Hfacts top Htop) as [Hs1 Hp1].
           assert (Hc2 : In (candidate_of x) cands)
             by (rewrite Ecands; now apply in_map).
           destruct (Hfacts _ Hc2) as [Hs2 _].
           cbn [candidate_of c_page c_size] in Hall, Hs2.
           lia.
Qed.

(** X17: the title of a result is the first line, stripped and never
    empty, of one of the largest spans of page index 0 when there is one;
    when none of the largest spans of the first two pages is on page index
    0, or the pages hold no text, it is the title made from the file
    name (for a path whose title case stays in the range 0..255). *)
Theorem result_title :
  forall (document : Document) (pdf_path : string) (r : OutlineResult),
    extract_outline_from_pdf document pdf_path = Ok r ->
    ((exists x, In x (largest_spans document) /\ fst x = 0) ->
     title r <> "" /\ PyStr.strip (title r) = title r
     /\ exists x, In x (largest_spans document) /\ fst x = 0
                  /\ first_line_stripped (PyStr.strip (span_text (snd x)))
                       (title r))
    /\ ((forall x, In x (largest_spans document) -> fst x <> 0) ->
        title_case_in_range pdf_path = true ->
        title r =
        PyStr.title
          (PyStr.replace "_" " "
             (PyStr.replace ".pdf" "" (PyStr.basename pdf_path)))).
Proof.
  intros document pdf_path r. fold (filename_title pdf_path).
  unfold extract_outline_from_pdf.
  destruct (extract_title_from_document document _) as [found|e] eqn:Ef;
    [|discriminate].
  cbn [bind]. destruct (foldM _ _ _) as [st|e]; [|discriminate].
  cbn [bind]. intros [= <-]. cbn [title].
  apply extract_title_cases in Ef. destruct found as [t|].
  - destruct Ef as (Hne & Hstrip & x & Hx & Hx0 & Ht).
    assert (E : PyStr.is_empty t = false) by (destruct t; [now elim Hne|reflexivity]).
    rewrite E. split.
    + intros _. split; [exact Hne|]. split; [exact Hstrip|].
      exists x. split; [exact Hx|]. split; [exact Hx0|].
      rewrite Ht. apply first_line_of_spec.
    + intros Hnone. exfalso. exact (Hnone x Hx Hx0).
  - split.
    + intros (x & Hx & Hx0). exfalso. exact (Ef x Hx Hx0).
    + reflexivity.
Qed.

Lemma result_title_witness :
  "Plain running text of the page." <> ""
  /\ PyStr.strip "Plain running text of the page."
     = "Plain running text of the page."
  /\ exists x, In x (largest_spans appendix_document) /\ fst x = 0
               /\ first_line_stripped (PyStr.strip (span_text (snd x)))
                    "Plain running text of the page.".
Proof.
  apply (proj1 (result_title appendix_document "input_pdfs/notes.pdf"
                  {| title := "Plain running text of the page.";
                     outline := [ {| h_level := "H1"; h_text := "Appendix";
                                     h_page := 3 |};
                                  {| h_level := "H1"; h_text := "Appendix";
                                     h_page := 7 |} ] |}
                  eq_refl)).
  exists (0, {| span_text := "Plain running text of the page.";
                span_size := 10; span_font := "Times-Roman" |}).
  split; [left; reflexivity|reflexivity].
Defined.

(* ================================================================== *)
(** * Examples *)

Example strip_examples :
  PyStr.strip "  Page 3 " = "Page 3" /\ PyStr.strip " " = ""
  /\ PyStr.strip "a b  c" = "a b  c".
Proof. repeat split. Qed.

Example split_examples :
  PyStr.split " a  bc d " = ["a"; "bc"; "d"] /\ PyStr.split " " = []
  /\ PyStr.split "Hello World" = ["Hello"; "World"].
Proof. repeat split. Qed.

Example case_examples :
  PyStr.lower "Hello World" = "hello world"
  /\ PyStr.title "mY_file nAME2b" = "My_File Name2B".
Proof. repeat split. Qed.

Example replace_examples :
  PyStr.replace ".pdf" "" "my.pdf_x.pdf" = "my_x"
  /\ PyStr.replace "aa" "b" "aaa" = "ba"
  /\ PyStr.replace "bc" "" "abcabc" = "aa"
  /\ PyStr.replace "_" " " "a__b" = "a  b".
Proof. repeat split. Qed.

Example basename_examples :
  PyStr.basename "a/b/c.pdf" = "c.pdf" /\ PyStr.basename "c.pdf" = "c.pdf"
  /\ PyStr.basename "a/b/" = "" /\ PyStr.basename "/x" = "x".
Proof. repeat split. Qed.

Example first_line_example :
  first_line_of ("line one " ++ String PyStr.newline "line two")%string
  = "line one".
Proof. reflexivity. Qed.

Example filename_title_examples :
  filename_title "input_pdfs/my_report2b.pdf" = "My Report2B"
  /\ filename_title "input_pdfs/REPORT.PDF" = "Report.Pdf".
Proof. split; reflexivity. Qed.

Example final_newline_examples :
  Re.re_match Re.pat_digits ("12" ++ String PyStr.newline "")%string = true
  /\ Re.re_match Re.pat_roman ("iv" ++ String PyStr.newline "")%string = true
  /\ Re.re_match Re.pat_digits
       ("12" ++ String PyStr.newline (String PyStr.newline ""))%string = false.
Proof. repeat split. Qed.

(** [14 * 0.9] is 12.6 and [10 * 0.9] is 9.0. *)
Example product_examples :
  int_mul_float 14 Binary64.lit_0_9 = Ok (Binary64.Float 7093169413108531 (-49))
  /\ 7093169413108531 * 10 = 126 * 2 ^ 49 - 2
  /\ int_mul_float 10 Binary64.lit_0_9 = Ok (Binary64.Float (9 * 2 ^ 49) (-49)).
Proof. repeat split. Qed.

(** The size test belongs to "introduction" alone: with h2 = 18 and
    h3 = 14, a plain "Preface" at 13 points is an H1 heading, a plain
    "Introduction" is one at 17 points and is none at 13 points. *)
Example introduction_needs_size :
  process_line (determine_heading_thresholds []) 0 initial_builder
    (one_span_line "Preface" 13 "Times-Roman")
  = Ok (add_heading initial_builder "H1" "Preface" 0)
  /\ process_line (determine_heading_thresholds []) 0 initial_builder
       (one_span_line "Introduction" 17 "Times-Roman")
     = Ok (add_heading initial_builder "H1" "Introduction" 0)
  /\ process_line (determine_heading_thresholds []) 0 initial_builder
       (one_span_line "Introduction" 13 "Times-Roman")
     = Ok initial_builder.
Proof. repeat split; vm_compute; reflexivity. Qed.

(** Scenario A of the specification: one bold line "Introduction" at 28
    points, the rest at 10 points. *)
Example scenario_A :
  extract_outline_from_pdf
    [[ text_block [one_span_line "Introduction" 28 "Helvetica-Bold"] 40;
       text_block [one_span_line "Plain running text of the page." 10
                     "Times-Roman"] 100 ]]
    "input_pdfs/a.pdf"
  = Ok {| title := "Introduction";
          outline := [{| h_level := "H1"; h_text := "Introduction";
                         h_page := 1 |}] |}.
Proof. vm_compute. reflexivity. Qed.

(** Scenario B: no text on any page. *)
Example scenario_B :
  determine_heading_thresholds (analyze_document_fonts [[]; []]) =
  {| h1_th := 24; h2_th := 18; h3_th := 14; body_max_size := 12 |}
  /\ extract_title_from_document [[]; []] 24 = Ok None
  /\ extract_outline_from_pdf [[]; []] "input_pdfs/empty_file.pdf" =
     Ok {| title := "Empty File"; outline := [] |}.
Proof. repeat split. Qed.

(** Scenario C: the page number "3" at 30 points. *)
Example scenario_C :
  process_line (determine_heading_thresholds [30; 10]) 0 initial_builder
    (one_span_line "3" 30 "Helvetica-Bold") = Ok initial_builder.
Proof. vm_compute. reflexivity. Qed.

Example pat_number_samples :
  filter (fun t => Re.re_match Re.pat_number t) sample_texts =
  ["12"; " 1.2.33 "; "2024"].
Proof. vm_compute. reflexivity. Qed.

Example pat_page_samples :
  filter (fun t => Re.re_match Re.pat_page (PyStr.lower t)) sample_texts =
  ["Page 3 of 10"; "PG. 7"].
Proof. vm_compute. reflexivity. Qed.

Example pat_date_samples :
  filter (fun t => Re.re_match Re.pat_date t) sample_texts =
  ["3 March 2021"; "12 Mar 1999"].
Proof. vm_compute. reflexivity. Qed.

Example pat_continued_samples :
  filter (fun t => Re.re_match Re.pat_continued (PyStr.lower t)) sample_texts =
  ["(Continued)"].
Proof. vm_compute. reflexivity. Qed.

Example pat_symbols_samples :
  filter (fun t => Re.re_match Re.pat_symbols t) sample_texts =
  [" -- _ "; "***"].
Proof. vm_compute. reflexivity. Qed.

Example pat_roman_samples :
  filter (fun t => Re.re_match Re.pat_roman (PyStr.lower t)) sample_texts =
  ["XIV."; "Mild"].
Proof. vm_compute. reflexivity. Qed.

Example pat_digits_samples :
  filter (fun t => Re.re_match Re.pat_digits t) sample_texts =
  ["12"; "2024"].
Proof. vm_compute. reflexivity. Qed.

Example title_document_result :
  extract_title_from_document title_document 30 = Ok (Some "Annual Report 2024")
  /\ extract_outline_from_pdf title_document "input_pdfs/annual_report.pdf" =
     Ok {| title := "Annual Report 2024";
           outline :=
             [{| h_level := "H1";
                 h_text := ("Annual Report 2024 " ++ String PyStr.newline "Draft copy")%string;
                 h_page := 1 |}] |}.
Proof. split; vm_compute; reflexivity. Qed.

Example unordered_page_result :
  extract_outline_from_pdf unordered_page_document "input_pdfs/notes.pdf" =
  Ok {| title := "Appendix";
        outline := [ {| h_level := "H1"; h_text := "Appendix"; h_page := 1 |};
                     {| h_level := "H1"; h_text := "Glossary"; h_page := 1 |} ] |}.
Proof. vm_compute. reflexivity. Qed.
